(** * Transformer-from-Scratch: the batching pipeline and the training loop

    A shallow embedding of [sources/dataset.py] and [sources/learner.py].
    Python code that can raise is embedded in an error monad, code that
    mutates an object is embedded with explicit state passing, and the
    tensors the optimizer updates in place live in a store of their own so
    that sharing and copying can be told apart.

    Library calls (torch, random, wandb, tokenizers, datasets) are embedded
    by the behaviour the code relies on; collaborators whose algorithm is of
    no concern here (the network, the loss, the tokenizer, the BLEU score)
    are variables of the section that uses them. *)

From Stdlib Require Import ZArith List Lia String Permutation Sorted Bool Arith.
From Stdlib Require Import DecimalString.
From Stdlib Require Import PrimFloat Uint63 SpecFloat FloatOps FloatAxioms.
From stdpp Require Import base list gmap strings.
Import ListNotations.

Local Open Scope nat_scope.

(** ** Python results *)

Module Py.

(** The exceptions the embedded code can raise. *)
Inductive exn : Type :=
| ZeroDivisionError
| UnboundLocalError (name : string)
| IndexError
| StopIteration
| AttributeError (name : string)
| RuntimeError (msg : string)
| TypeError.

Inductive result (A : Type) : Type :=
| Ok (a : A)
| Raise (e : exn).
Arguments Ok {A} a.
Arguments Raise {A} e.

Definition bind {A B} (m : result A) (k : A -> result B) : result B :=
  match m with
  | Ok a => k a
  | Raise e => Raise e
  end.

Definition is_ok {A} (m : result A) : bool :=
  match m with Ok _ => true | Raise _ => false end.

(** [range(n)] *)
Definition range (n : nat) : list nat := seq 0 n.

(** [range(a, b)] over the integers *)
Definition range2 (a b : Z) : list Z :=
  List.map (fun i => (a + Z.of_nat i)%Z) (seq 0 (Z.to_nat (b - a))).

(** [str(n)] of an integer, as the messages of the errors have it. *)
Definition str (n : Z) : string := NilZero.string_of_int (Z.to_int n).

(** [a % b] on integers: the result has the sign of [b]; [b = 0] raises. *)
Definition mod_ (a b : Z) : result Z :=
  if (b =? 0)%Z then Raise ZeroDivisionError else Ok (a mod b)%Z.

End Py.
Import Py.

#[global] Instance result_ret : MRet result := fun A a => Ok a.
#[global] Instance result_bind : MBind result := fun A B k m => Py.bind m k.

(** ** [torch]: the library calls of [dataset.py], and [squeeze] *)

Module torch.

(** [t.narrow(0, start, length)] on a one-dimensional tensor. *)
Definition narrow {A} (t : list A) (start len : nat) : list A :=
  firstn len (skipn start t).

(** The number of pieces [torch.split] cuts a dimension of [dim_size]
    into: at least one, also for an empty dimension.  A negative
    [split_size] is refused, and so is a [split_size] of zero on a
    dimension that is not empty. *)
Definition get_num_splits (dim_size : nat) (split_size : Z) : result nat :=
  if (split_size <? 0)%Z
  then Raise (RuntimeError
                ("split expects split_size be non-negative, but got split_size="
                 +:+ str split_size))
  else if (split_size =? 0)%Z && negb (dim_size =? 0)
  then Raise (RuntimeError
                ("split_size can only be 0 if dimension size is 0, "
                 +:+ "but got dimension size of " +:+ str (Z.of_nat dim_size)))
  else if (split_size =? 0)%Z then Ok 1
  else
    let split_size := Z.to_nat split_size in
    Ok (Nat.max ((dim_size + split_size - 1) / split_size) 1).

(** [torch.split(t, split_size)] with an integer [split_size]. *)
Definition split {A} (t : list A) (split_size : Z) : result (list (list A)) :=
  num_splits ← get_num_splits (length t) split_size;
  let split_size := Z.to_nat split_size in
  let last_split_size := split_size - (split_size * num_splits - length t) in
  Ok (List.map
        (fun i => narrow t (i * split_size)
                    (if i <? num_splits - 1 then split_size else last_split_size))
        (seq 0 num_splits)).

(** A two-dimensional integer tensor: its shape and its rows. *)
Record tensor2 : Type := Tensor2 {
  size0 : nat;
  size1 : nat;
  rows : list (list Z)
}.

(** A tensor of one or of two dimensions. *)
Inductive tensor : Type :=
| Tensor1 (ids : list Z)
| OfTensor2 (t : tensor2).

(** [t.squeeze(-1)] on a two-dimensional tensor: the last dimension goes
    when its size is one, and what is left has one dimension, with the one
    entry of each row. *)
Definition squeeze_last (t : tensor2) : tensor :=
  if size1 t =? 1 then Tensor1 (List.map (hd 0%Z) (rows t)) else OfTensor2 t.

(** [max([s.size(0) for s in sequences])] *)
Definition max_len (sequences : list (list Z)) : nat :=
  fold_right Nat.max 0 (List.map (@length Z) sequences).

(** [pad_sequence(sequences, batch_first = True, padding_value = v)]:
    a tensor of shape [(len(sequences), max_len)] filled with [v], row [i]
    overwritten on its first [len(sequences[i])] places.  An empty list of
    sequences is refused. *)
Definition pad_sequence (sequences : list (list Z)) (padding_value : Z)
  : result tensor2 :=
  match sequences with
  | [] => Raise (RuntimeError "received an empty list of sequences")
  | _ =>
      let m := max_len sequences in
      Ok {| size0 := length sequences;
            size1 := m;
            rows := List.map (fun s => s ++ repeat padding_value (m - length s))
                             sequences |}
  end.

End torch.

(** ** [random]: the generator and [random.shuffle] *)

Module random.

(** The state of the process-wide generator: the draws still to come. *)
Definition rng : Type := nat -> nat.

(** [randbelow(n)], for [n > 0]: one draw, reduced below [n]. *)
Definition randbelow (n : nat) (g : rng) : nat * rng :=
  (g 0 mod n, fun i => g (S i)).

(** [x[i], x[j] = x[j], x[i]] *)
Definition swap {A} (x : list A) (i j : nat) : list A :=
  match x !! i, x !! j with
  | Some xi, Some xj => <[j := xi]> (<[i := xj]> x)
  | _, _ => x
  end.

(** The loop of [shuffle]: [for i in reversed(range(1, n))], with [n]
    the number of indices still to visit. *)
Fixpoint shuffle_from {A} (n : nat) (x : list A) (g : rng) : list A * rng :=
  match n with
  | 0 => (x, g)
  | S i =>
      match i with
      | 0 => (x, g)
      | _ =>
          let '(j, g) := randbelow (i + 1) g in
          shuffle_from i (swap x i j) g
      end
  end.

(** [random.shuffle(x)]: the list is permuted in place. *)
Definition shuffle {A} (x : list A) (g : rng) : list A * rng :=
  shuffle_from (length x) x g.

End random.

(** ** [sources/dataset.py] *)

Module dataset.

(** A row after [tokenize] and [sequence_length]: both id sequences and
    their lengths. *)
Record row : Type := Row {
  translation_src : list Z;
  translation_trg : list Z;
  length_src : nat;
  length_trg : nat
}.

(** The per-row filter of [preprocess_data]. *)
Definition filter_long_sentences (max_len : nat) (example : row) : bool :=
  (length_src example <=? max_len) && (length_trg example <=? max_len).

(** *** [CustomBatchSampler] *)

Module CustomBatchSampler.

Record t : Type := Make {
  batch_size : Z;
  indices : list nat;
  batch_of_indices : list (list nat)
}.

(** [chunk]: [torch.split(torch.tensor(indices), chunk_size)] *)
Definition chunk (indices : list nat) (chunk_size : Z)
  : result (list (list nat)) :=
  torch.split indices chunk_size.

(** [__init__(self, dataset, batch_size)]; only [len(dataset)] is read. *)
Definition __init__ (len_dataset : nat) (batch_size : Z) : result t :=
  let indices := range len_dataset in
  chunks ← chunk indices batch_size;
  Ok {| batch_size := batch_size;
        indices := indices;
        batch_of_indices := chunks |}.

(** [iter(self.batch_of_indices)]: a cursor into the sampler's own list,
    not a copy of it. *)
Record list_iterator : Type := ListIterator { position : nat }.

(** [__iter__]: the sampler's list is shuffled in place, and the
    iterator returned reads that same list. *)
Definition __iter__ (self : t) (g : random.rng)
  : list_iterator * t * random.rng :=
  let '(shuffled, g) := random.shuffle (batch_of_indices self) g in
  (ListIterator 0,
   {| batch_size := batch_size self;
      indices := indices self;
      batch_of_indices := shuffled |},
   g).

(** [next(it)] against the current state of the sampler; [None] is
    [StopIteration]. *)
Definition __next__ (it : list_iterator) (self : t)
  : option (list nat) * list_iterator :=
  match batch_of_indices self !! position it with
  | Some batch => (Some batch, ListIterator (S (position it)))
  | None => (None, it)
  end.

(** [__len__] *)
Definition __len__ (self : t) : nat := length (batch_of_indices self).

(** [for batch in it: ...] with a body that leaves the sampler alone:
    the batches in the order they are produced.  The loop stops at
    [StopIteration]; [fuel] bounds the number of turns. *)
Fixpoint drain (fuel : nat) (it : list_iterator) (self : t)
  : list (list nat) :=
  match fuel with
  | 0 => []
  | S fuel =>
      match __next__ it self with
      | (Some batch, it) => batch :: drain fuel it self
      | (None, _) => []
      end
  end.

(** One full pass: [list(iter(sampler))]. *)
Definition pass (self : t) (g : random.rng)
  : list (list nat) * t * random.rng :=
  let '(it, self, g) := __iter__ self g in
  (drain (S (__len__ self)) it self, self, g).

(** [n] passes one after the other over the same sampler. *)
Fixpoint passes (n : nat) (self : t) (g : random.rng)
  : list (list (list nat)) :=
  match n with
  | 0 => []
  | S n =>
      let '(batches, self, g) := pass self g in
      batches :: passes n self g
  end.


End CustomBatchSampler.

(** *** [TranslationDataset] *)

Module TranslationDataset.

Record t : Type := Make { dataset : list row }.

Definition __len__ (self : t) : nat := length (dataset self).

(** [__getitem__]: the two id sequences of row [idx] as tensors. *)
Definition __getitem__ (self : t) (idx : nat) : result (list Z * list Z) :=
  match dataset self !! idx with
  | Some r => Ok (translation_src r, translation_trg r)
  | None => Raise IndexError
  end.

End TranslationDataset.

(** *** [pad_collate_fn] *)

Definition pad_collate_fn (batch : list (list Z * list Z))
  : result (torch.tensor2 * torch.tensor2) :=
  let src_sentences := List.map fst batch in
  let trg_sentences := List.map snd batch in
  src_sentences ← torch.pad_sequence src_sentences 0;
  trg_sentences ← torch.pad_sequence trg_sentences 0;
  Ok (src_sentences, trg_sentences).

(** *** [DataLoader(ds, collate_fn = pad_collate_fn, batch_sampler = s)] *)

Module DataLoader.

Record t : Type := Make {
  dataset : TranslationDataset.t;
  batch_sampler : CustomBatchSampler.t
}.

(** [len(dl)] is the length of the batch sampler. *)
Definition __len__ (self : t) : nat :=
  CustomBatchSampler.__len__ (batch_sampler self).

(** The rows of one batch of indices, collated. *)
Definition fetch (self : t) (batch : list nat)
  : result (torch.tensor2 * torch.tensor2) :=
  samples ← mapM (TranslationDataset.__getitem__ (dataset self)) batch;
  pad_collate_fn samples.

(** [iter(dl)]: the sampler is asked for a new iterator, which shuffles
    it; the batches of indices are then fetched one at a time. *)
Definition __iter__ (self : t) (g : random.rng)
  : list (list nat) * t * random.rng :=
  let '(batches, sampler, g) := CustomBatchSampler.pass (batch_sampler self) g in
  (batches, {| dataset := dataset self; batch_sampler := sampler |}, g).

End DataLoader.

(** *** [get_dataset], [preprocess_data], [get_translation_dataloaders] *)

Section pipeline.

(** The split of the corpus as [load_dataset(...).shuffle(seed = 42)]
    gives it, flattened, source text first. *)
Variable corpus : list (string * string).

(** The tokenizer library, and [get_tokenizer_wordlevel] and
    [get_tokenizer_bpe] of [tokenizer.py]. *)
Variable Tokenizer : Type.
Variable get_tokenizer_wordlevel : list (string * string) -> nat -> Tokenizer.
Variable get_tokenizer_bpe : list (string * string) -> nat -> Tokenizer.
Variable Tokenizer_from_file : string -> result Tokenizer.
Variable Tokenizer_save : Tokenizer -> string -> result unit.
Variable encode : Tokenizer -> string -> list Z.

(** [data.train_test_split(test_size = p)] and
    [split.sort('length_src', reverse = True)] of the datasets library. *)
Variable train_test_split : list row -> float -> result (list row * list row).
Variable sort_length_src_reverse : list row -> list row.

(** [get_dataset(example_cnt)]: [select(range(example_cnt))] refuses an
    index past the end of the split. *)
Definition get_dataset (example_cnt : nat) : result (list (string * string)) :=
  if example_cnt <=? length corpus
  then Ok (firstn example_cnt corpus)
  else Raise IndexError.

(** [tokenize] followed by [sequence_length] on one row. *)
Definition tokenize (tokenizer : Tokenizer) (example : string * string) : row :=
  let src := encode tokenizer (fst example) in
  let trg := encode tokenizer (snd example) in
  {| translation_src := src;
     translation_trg := trg;
     length_src := length src;
     length_trg := length trg |}.

Definition preprocess_data (data : list (string * string))
    (tokenizer : Tokenizer) (max_len : nat) (test_proportion : float)
  : result (list row * list row) :=
  let data := List.map (tokenize tokenizer) data in
  let data := List.filter (filter_long_sentences max_len) data in
  '(train, test) ← train_test_split data test_proportion;
  Ok (sort_length_src_reverse train, sort_length_src_reverse test).

(** Reading a local variable that may not have been assigned. *)
Definition load_local {A} (name : string) (v : option A) : result A :=
  match v with
  | Some a => Ok a
  | None => Raise (UnboundLocalError name)
  end.

(** [get_translation_dataloaders]; [PRETRAIN_TOKENIZER_PT] is the entry
    of [wandb.config] the function reads. *)
Definition get_translation_dataloaders
    (PRETRAIN_TOKENIZER_PT : option string)
    (dataset_size vocab_size : nat) (tokenizer_type tokenizer_save_pth : string)
    (test_proportion : float) (batch_size : Z) (max_len : nat)
  : result (DataLoader.t * DataLoader.t) :=
  data ← get_dataset dataset_size;
  let tokenizer : option Tokenizer :=
    if String.eqb tokenizer_type "wordlevel"
    then Some (get_tokenizer_wordlevel data vocab_size)
    else if String.eqb tokenizer_type "bpe"
    then Some (get_tokenizer_bpe data vocab_size)
    else None in
  tokenizer ←
    match PRETRAIN_TOKENIZER_PT with
    | Some pth => Tokenizer_from_file pth
    | None =>
        tokenizer ← load_local "tokenizer" tokenizer;
        _ ← Tokenizer_save tokenizer tokenizer_save_pth;
        Ok tokenizer
    end;
  '(train, test) ← preprocess_data data tokenizer max_len test_proportion;
  let train_ds := TranslationDataset.Make train in
  let val_ds := TranslationDataset.Make test in
  custom_batcher_train ←
    CustomBatchSampler.__init__ (TranslationDataset.__len__ train_ds) batch_size;
  custom_batcher_val ←
    CustomBatchSampler.__init__ (TranslationDataset.__len__ val_ds) batch_size;
  Ok (DataLoader.Make train_ds custom_batcher_train,
      DataLoader.Make val_ds custom_batcher_val).

End pipeline.

End dataset.

(** ** [sources/learner.py] *)

Module learner.
Import dataset.

(** The identity of a tensor object. *)
Definition loc : Type := nat.

(** A row of the [wandb.Table]: the five arguments of [add_data]. *)
Record table_row : Type := TableRow {
  row_epoch : Z;
  row_data : string;
  row_source : string;
  row_target : string;
  row_predicted : string
}.

Inductive metric : Type :=
| Int (z : Z)
| Float (f : float).

(** The calls to the collaborators, in the order they are made. *)
Inductive event : Type :=
| wandb_log (data : list (string * metric)) (step : Z)
| wandb_log_table (key : string) (rows : list table_row)
| loss_backward (epoch : Z) (batch_idx : nat)
| optimizer_step (applied : list (Z * nat))
| scheduler_step
| optimizer_zero_grad
| checkpointSaver (epoch : Z) (loss_avg : float).

(** The entries of [config] the learner reads. *)
Record Config : Type := {
  GRAD_ACCUMULATION_STEPS : Z;
  MODEL_SAVE_EPOCH_CNT : Z
}.

(** [float(n)] *)
Definition float_of_nat (n : nat) : float :=
  PrimFloat.of_uint63 (Uint63.of_Z (Z.of_nat n)).

(** [x / n] with [n] a length. *)
Definition div_len (x : float) (n : nat) : result float :=
  if n =? 0 then Raise ZeroDivisionError else Ok (x / float_of_nat n)%float.

(** [decoder_input[:, 1:].contiguous().view(-1)] *)
Definition shift_right (decoder_input : torch.tensor2) : list Z :=
  concat (List.map (drop 1) (torch.rows decoder_input)).

Section collaborators.

(** The contents of a parameter tensor, the gradient one backward pass
    adds to the parameters, the optimizer's and the scheduler's own states,
    and the output of the network. *)
Context {Tensor Grad OptState Scheduler Logits : Type}.

(** [self.model(encoder_input, decoder_input)] at the current parameters
    and mode, [self.loss_func], the gradient [loss.backward()] computes,
    [log_softmax(..., dim = -1).argmax(dim = -1)] of the output, a tensor
    of two dimensions, and [self.model.translate]. *)
Variable model_forward :
  list (string * Tensor) -> bool -> torch.tensor2 -> torch.tensor2 -> Logits.
Variable loss_func : Logits -> list Z -> float.
Variable autograd :
  list (string * Tensor) -> torch.tensor2 -> torch.tensor2 -> Grad.
Variable argmax : Logits -> torch.tensor2.
Variable translate : list (string * Tensor) -> string -> string.

(** [self.tokenizer.decode], [str.split] and [corpus_bleu]. *)
Variable decode : list Z -> string.
Variable str_split : string -> list string.
Variable corpus_bleu : list (list (list string)) -> list (list string) -> float.

(** [optimizer.step()]: the new contents of a parameter tensor from the
    gradients accumulated on it, and the optimizer's next state;
    [scheduler.step()]. *)
Variable optimizer_update : OptState -> list Grad -> loc -> Tensor -> Tensor.
Variable optimizer_advance : OptState -> list Grad -> OptState.
Variable scheduler_advance : Scheduler -> OptState -> Scheduler * OptState.

(** The store of tensors: what each tensor object holds, and the next
    unused identity. *)
Record store : Type := Store {
  contents : loc -> Tensor;
  next : loc
}.

(** One backward pass summed into the [.grad] buffers. *)
Record pending : Type := Pending {
  of_epoch : Z;
  of_batch_idx : nat;
  gradient : Grad
}.

(** The learner's fields together with the objects it shares with its
    collaborators. *)
Record state : Type := State {
  config : Config;
  model : list (string * loc);
  train_dataloader : DataLoader.t;
  val_dataloader : DataLoader.t;
  scheduler : option Scheduler;
  training_step : Z;
  global_step : Z;
  best_val_loss : float;
  best_model_state_dict : list (string * loc);
  table : option (list table_row);
  training : bool;
  tensors : store;
  grad : list pending;
  optimizer : OptState;
  generator : random.rng;
  trace : list event
}.

Definition set_train_dataloader (v : DataLoader.t) (s : state) : state :=
  State (config s) (model s) v (val_dataloader s) (scheduler s)
    (training_step s) (global_step s) (best_val_loss s)
    (best_model_state_dict s) (table s) (training s) (tensors s) (grad s)
    (optimizer s) (generator s) (trace s).

Definition set_val_dataloader (v : DataLoader.t) (s : state) : state :=
  State (config s) (model s) (train_dataloader s) v (scheduler s)
    (training_step s) (global_step s) (best_val_loss s)
    (best_model_state_dict s) (table s) (training s) (tensors s) (grad s)
    (optimizer s) (generator s) (trace s).

Definition set_scheduler (v : option Scheduler) (s : state) : state :=
  State (config s) (model s) (train_dataloader s) (val_dataloader s) v
    (training_step s) (global_step s) (best_val_loss s)
    (best_model_state_dict s) (table s) (training s) (tensors s) (grad s)
    (optimizer s) (generator s) (trace s).

Definition set_training_step (v : Z) (s : state) : state :=
  State (config s) (model s) (train_dataloader s) (val_dataloader s)
    (scheduler s) v (global_step s) (best_val_loss s)
    (best_model_state_dict s) (table s) (training s) (tensors s) (grad s)
    (optimizer s) (generator s) (trace s).

Definition set_global_step (v : Z) (s : state) : state :=
  State (config s) (model s) (train_dataloader s) (val_dataloader s)
    (scheduler s) (training_step s) v (best_val_loss s)
    (best_model_state_dict s) (table s) (training s) (tensors s) (grad s)
    (optimizer s) (generator s) (trace s).

Definition set_best_val_loss (v : float) (s : state) : state :=
  State (config s) (model s) (train_dataloader s) (val_dataloader s)
    (scheduler s) (training_step s) (global_step s) v
    (best_model_state_dict s) (table s) (training s) (tensors s) (grad s)
    (optimizer s) (generator s) (trace s).

Definition set_best_model_state_dict (v : list (string * loc)) (s : state)
  : state :=
  State (config s) (model s) (train_dataloader s) (val_dataloader s)
    (scheduler s) (training_step s) (global_step s) (best_val_loss s)
    v (table s) (training s) (tensors s) (grad s)
    (optimizer s) (generator s) (trace s).

Definition set_table (v : option (list table_row)) (s : state) : state :=
  State (config s) (model s) (train_dataloader s) (val_dataloader s)
    (scheduler s) (training_step s) (global_step s) (best_val_loss s)
    (best_model_state_dict s) v (training s) (tensors s) (grad s)
    (optimizer s) (generator s) (trace s).

Definition set_training (v : bool) (s : state) : state :=
  State (config s) (model s) (train_dataloader s) (val_dataloader s)
    (scheduler s) (training_step s) (global_step s) (best_val_loss s)
    (best_model_state_dict s) (table s) v (tensors s) (grad s)
    (optimizer s) (generator s) (trace s).

Definition set_tensors (v : store) (s : state) : state :=
  State (config s) (model s) (train_dataloader s) (val_dataloader s)
    (scheduler s) (training_step s) (global_step s) (best_val_loss s)
    (best_model_state_dict s) (table s) (training s) v (grad s)
    (optimizer s) (generator s) (trace s).

Definition set_grad (v : list pending) (s : state) : state :=
  State (config s) (model s) (train_dataloader s) (val_dataloader s)
    (scheduler s) (training_step s) (global_step s) (best_val_loss s)
    (best_model_state_dict s) (table s) (training s) (tensors s) v
    (optimizer s) (generator s) (trace s).

Definition set_optimizer (v : OptState) (s : state) : state :=
  State (config s) (model s) (train_dataloader s) (val_dataloader s)
    (scheduler s) (training_step s) (global_step s) (best_val_loss s)
    (best_model_state_dict s) (table s) (training s) (tensors s) (grad s)
    v (generator s) (trace s).

Definition set_generator (v : random.rng) (s : state) : state :=
  State (config s) (model s) (train_dataloader s) (val_dataloader s)
    (scheduler s) (training_step s) (global_step s) (best_val_loss s)
    (best_model_state_dict s) (table s) (training s) (tensors s) (grad s)
    (optimizer s) v (trace s).

Definition set_trace (v : list event) (s : state) : state :=
  State (config s) (model s) (train_dataloader s) (val_dataloader s)
    (scheduler s) (training_step s) (global_step s) (best_val_loss s)
    (best_model_state_dict s) (table s) (training s) (tensors s) (grad s)
    (optimizer s) (generator s) v.

(** *** The monad of the learner's methods

    A method runs on the state and either returns or raises; the state it
    leaves behind is kept in both cases. *)

Definition M (A : Type) : Type := state -> result A * state.

Definition ret {A} (a : A) : M A := fun s => (Ok a, s).

Definition raise {A} (e : exn) : M A := fun s => (Raise e, s).

Definition bind {A B} (m : M A) (k : A -> M B) : M B :=
  fun s =>
    match m s with
    | (Ok a, s) => k a s
    | (Raise e, s) => (Raise e, s)
    end.

Definition lift {A} (r : result A) : M A := fun s => (r, s).

Definition get {A} (f : state -> A) : M A := fun s => (Ok (f s), s).

Definition modify (f : state -> state) : M unit := fun s => (Ok tt, f s).

Local Notation "'let*' x ':=' m 'in' k" := (bind m (fun x => k))
  (at level 10, x pattern, m at level 100, k at level 200).

(** *** The collaborators' calls *)

Definition emit (e : event) : M unit :=
  modify (fun s => set_trace (trace s ++ [e]) s).

(** [wandb.log(data, step = self.global_step)] *)
Definition log (data : list (string * metric)) : M unit :=
  let* step := get global_step in
  emit (wandb_log data step).

(** [self.model.state_dict()]: the parameter tensors themselves, by name. *)
Definition state_dict (s : state) : list (string * loc) := model s.

(** What the tensors of a state dict hold in a store. *)
Definition read (st : store) (sd : list (string * loc))
  : list (string * Tensor) :=
  List.map (fun p => (fst p, contents st (snd p))) sd.

Definition parameters : M (list (string * Tensor)) :=
  get (fun s => read (tensors s) (model s)).

(** The copy [deepcopy] has already made of a tensor, if any. *)
Definition copied (memo : list (loc * loc)) (l : loc) : option loc :=
  snd <$> List.find (fun p => fst p =? l) memo.

(** [copy.deepcopy(sd)]: every tensor of [sd] is copied into a new tensor
    object, once, however many names share it. *)
Fixpoint deepcopy_from (memo : list (loc * loc)) (sd : list (string * loc))
    (st : store) : list (string * loc) * store :=
  match sd with
  | [] => ([], st)
  | (name, l) :: sd =>
      match copied memo l with
      | Some l' =>
          let '(sd', st) := deepcopy_from memo sd st in
          ((name, l') :: sd', st)
      | None =>
          let l' := next st in
          let v := contents st l in
          let st := {| contents := fun k => if k =? l' then v else contents st k;
                       next := S l' |} in
          let '(sd', st) := deepcopy_from ((l, l') :: memo) sd st in
          ((name, l') :: sd', st)
      end
  end.

Definition deepcopy (sd : list (string * loc)) (st : store)
  : list (string * loc) * store :=
  deepcopy_from [] sd st.

(** [loss.backward()]: the gradient of this batch is added to [.grad]. *)
Definition backward (epoch : Z) (batch_idx : nat) (g : Grad) : M unit :=
  let* _ := emit (loss_backward epoch batch_idx) in
  modify (fun s => set_grad (grad s ++ [Pending epoch batch_idx g]) s).

(** [self.optimizer.step()]: every parameter tensor of the model is
    overwritten in place. *)
Definition optimizer_step_ : M unit :=
  let* _ := modify (fun s =>
    let gs := List.map gradient (grad s) in
    let st := tensors s in
    let st' :=
      {| contents := fun l =>
           if bool_decide (l ∈ (model s).*2)
           then optimizer_update (optimizer s) gs l (contents st l)
           else contents st l;
         next := next st |} in
    set_optimizer (optimizer_advance (optimizer s) gs) (set_tensors st' s)) in
  let* pend := get grad in
  emit (optimizer_step (List.map (fun p => (of_epoch p, of_batch_idx p)) pend)).

(** [self.scheduler.step()] *)
Definition scheduler_step_ (sch : Scheduler) : M unit :=
  let* _ := modify (fun s =>
    let '(sch', opt') := scheduler_advance sch (optimizer s) in
    set_optimizer opt' (set_scheduler (Some sch') s)) in
  emit scheduler_step.

(** [self.optimizer.zero_grad()] *)
Definition zero_grad : M unit :=
  let* _ := modify (set_grad []) in
  emit optimizer_zero_grad.

(** *** The data loaders *)

Inductive loader : Type := Train | Validation.

Definition dataloader (which : loader) (s : state) : DataLoader.t :=
  match which with
  | Train => train_dataloader s
  | Validation => val_dataloader s
  end.

(** [iter(dl)]: the loader's sampler is shuffled with the process-wide
    generator. *)
Definition iter_ (which : loader) : M (list (list nat)) :=
  fun s =>
    let '(batches, dl, g) :=
      DataLoader.__iter__ (dataloader which s) (generator s) in
    (Ok batches,
     set_generator g
       (match which with
        | Train => set_train_dataloader dl s
        | Validation => set_val_dataloader dl s
        end)).

Definition fetch (which : loader) (indices : list nat)
  : M (torch.tensor2 * torch.tensor2) :=
  fun s => (DataLoader.fetch (dataloader which s) indices, s).

(** [len(dl)] *)
Definition len (which : loader) : M nat :=
  get (fun s => DataLoader.__len__ (dataloader which s)).

(** [next(iter(dl))] *)
Definition next_iter (which : loader) : M (torch.tensor2 * torch.tensor2) :=
  let* batches := iter_ which in
  match batches with
  | [] => raise StopIteration
  | indices :: _ => fetch which indices
  end.

(** The turns of [for batch_idx, batch in enumerate(dl)] from turn [idx]
    on: each batch is fetched when its turn comes. *)
Fixpoint for_batches {A} (which : loader)
    (body : nat -> torch.tensor2 * torch.tensor2 -> A -> M A)
    (idx : nat) (batches : list (list nat)) (acc : A) : M A :=
  match batches with
  | [] => ret acc
  | indices :: batches =>
      let* batch := fetch which indices in
      let* acc := body idx batch acc in
      for_batches which body (S idx) batches acc
  end.

(** *** [track_example] *)

(** [t[i].tolist()] *)
Definition row_tolist (t : torch.tensor2) (i : nat) : result (list Z) :=
  match torch.rows t !! i with
  | Some r => Ok r
  | None => Raise IndexError
  end.

(** [self.table.add_data(...)] *)
Definition table_add_data (r : table_row) : M unit :=
  fun s =>
    match table s with
    | Some rows => (Ok tt, set_table (Some (rows ++ [r])) s)
    | None => (Raise (AttributeError "table"), s)
    end.

(** The loop [for i in range(encoder_input.size(0))] of either split, with
    its [break] at [i == num_examples]. *)
Fixpoint track_rows (epoch num_examples : Z) (data : string)
    (encoder_input decoder_input : torch.tensor2) (idxs : list nat) : M unit :=
  match idxs with
  | [] => ret tt
  | i :: idxs =>
      if (Z.of_nat i =? num_examples)%Z then ret tt
      else
        let* src_ids := lift (row_tolist encoder_input i) in
        let* trg_ids := lift (row_tolist decoder_input i) in
        let source_text := decode src_ids in
        let target_text := decode trg_ids in
        let* params := parameters in
        let predicted_text := translate params source_text in
        let* _ := table_add_data
                    (TableRow epoch data source_text target_text predicted_text) in
        track_rows epoch num_examples data encoder_input decoder_input idxs
  end.

Definition track_split (epoch num_examples : Z) (which : loader)
    (data : string) : M unit :=
  let* batch := next_iter which in
  let '(encoder_input, decoder_input) := batch in
  track_rows epoch num_examples data encoder_input decoder_input
    (range (torch.size0 encoder_input)).

Definition track_example (epoch num_examples : Z) : M unit :=
  let* _ := modify (set_training false) in
  let* _ := track_split epoch num_examples Train "Train" in
  track_split epoch num_examples Validation "Validation".

(** *** [validation_epoch] *)

(** [self.tokenizer.decode_batch(a.numpy())]: one text for each row of an
    array of two dimensions.  The entries of an array of one dimension are
    ids, not sequences of ids, and the first of them is refused. *)
Definition decode_batch (a : torch.tensor) : result (list string) :=
  match a with
  | torch.OfTensor2 t => Ok (List.map decode (torch.rows t))
  | torch.Tensor1 [] => Ok []
  | torch.Tensor1 (_ :: _) => Raise TypeError
  end.

(** The loop's running values: [loss_sum], [predict_text_list],
    [target_text_list]. *)
Definition validation_acc : Type :=
  float * list (list string) * list (list (list string)).

(** The body of the loop over the validation batches. *)
Definition validation_batch (epoch : Z) (batch_idx : nat)
    (batch : torch.tensor2 * torch.tensor2) (acc : validation_acc)
  : M validation_acc :=
  let '(loss_sum, predict_text_list, target_text_list) := acc in
  let '(encoder_input, decoder_input) := batch in
  let* params := parameters in
  let* mode := get training in
  let pred_token_ids := model_forward params mode encoder_input decoder_input in
  let loss := loss_func pred_token_ids (shift_right decoder_input) in
  let loss_sum := (loss_sum + loss)%float in
  let* _ := log [("Epoch", Int epoch); ("Validation/Loss", Float loss)] in
  let* _ := modify (fun s => set_global_step (global_step s + 1)%Z s) in
  let pred_token_ids := torch.squeeze_last (argmax pred_token_ids) in
  let* predict_text := lift (decode_batch pred_token_ids) in
  let* target_text := lift (decode_batch (torch.OfTensor2 decoder_input)) in
  let predict_text := List.map str_split predict_text in
  let target_text := List.map (fun sentence => [str_split sentence]) target_text in
  ret (loss_sum, predict_text_list ++ predict_text, target_text_list ++ target_text).

Definition validation_epoch (epoch : Z) : M unit :=
  let* _ := modify (set_training false) in
  let* batches := iter_ Validation in
  let* acc := for_batches Validation (validation_batch epoch) 0 batches
                (0%float, [], []) in
  let '(loss_sum, predict_text_list, target_text_list) := acc in
  let* n := len Validation in
  let* loss_avg := lift (div_len loss_sum n) in
  let bleu_score := corpus_bleu target_text_list predict_text_list in
  let* _ := log [("Epoch", Int epoch); ("Validation/BLEU", Float bleu_score);
                 ("Validation/Avg_loss", Float loss_avg)] in
  modify (fun s => set_global_step (global_step s + 1)%Z s).

(** *** [training_epoch] *)

(** The body of the loop over the training batches; the running value is
    [loss_sum]. *)
Definition training_batch (epoch : Z) (batch_idx : nat)
    (batch : torch.tensor2 * torch.tensor2) (loss_sum : float) : M float :=
  let '(encoder_input, decoder_input) := batch in
  let* params := parameters in
  let* mode := get training in
  let pred_token_ids := model_forward params mode encoder_input decoder_input in
  let loss := loss_func pred_token_ids (shift_right decoder_input) in
  let loss_sum := (loss_sum + loss)%float in
  let* _ := backward epoch batch_idx (autograd params encoder_input decoder_input) in
  let* ts := get training_step in
  let* steps := get (fun s => GRAD_ACCUMULATION_STEPS (config s)) in
  let* r := lift (mod_ ts steps) in
  let* _ :=
    if (r =? 0)%Z then
      let* _ := optimizer_step_ in
      let* sch := get scheduler in
      let* _ := match sch with
                | Some sch => scheduler_step_ sch
                | None => ret tt
                end in
      zero_grad
    else ret tt in
  let* _ := log [("Epoch", Int epoch); ("Batch", Int (Z.of_nat batch_idx));
                 ("Train/Loss", Float loss)] in
  let* _ := modify (fun s => set_global_step (global_step s + 1)%Z s) in
  let* _ := modify (fun s => set_training_step (training_step s + 1)%Z s) in
  ret loss_sum.

(** The loop of [training_epoch] and the average it leaves in [loss_avg]. *)
Definition training_loop (epoch : Z) : M float :=
  let* _ := modify (set_training true) in
  let* batches := iter_ Train in
  let* loss_sum := for_batches Train (training_batch epoch) 0 batches 0%float in
  let* n := len Train in
  lift (div_len loss_sum n).

(** The last statement of [training_epoch]: the best model. *)
Definition save_best (loss_avg : float) : M unit :=
  let* best := get best_val_loss in
  if (loss_avg <? best)%float then
    let* _ := modify (set_best_val_loss loss_avg) in
    modify (fun s =>
      let '(snapshot, st) := deepcopy (state_dict s) (tensors s) in
      set_best_model_state_dict snapshot (set_tensors st s))
  else ret tt.

(** What [training_epoch] does once [loss_avg] is known. *)
Definition training_summary (epoch : Z) (loss_avg : float) : M unit :=
  let* _ := log [("Epoch", Int epoch); ("Train/Avg_loss", Float loss_avg)] in
  let* _ := modify (fun s => set_global_step (global_step s + 1)%Z s) in
  let* cnt := get (fun s => MODEL_SAVE_EPOCH_CNT (config s)) in
  let* r := lift (mod_ epoch cnt) in
  let* _ := if (r =? 0)%Z then emit (checkpointSaver epoch loss_avg)
            else ret tt in
  save_best loss_avg.

Definition training_epoch (epoch : Z) : M unit :=
  let* loss_avg := training_loop epoch in
  training_summary epoch loss_avg.

(** *** [fit] *)

Definition epoch_body (epoch_idx : Z) : M unit :=
  let* _ := track_example epoch_idx 2 in
  let* _ := validation_epoch epoch_idx in
  training_epoch epoch_idx.

Fixpoint for_epochs (epochs : list Z) : M unit :=
  match epochs with
  | [] => ret tt
  | epoch_idx :: epochs =>
      let* _ := epoch_body epoch_idx in
      for_epochs epochs
  end.

Definition fit (start_epoch n_epochs : Z) : M unit :=
  let* _ := modify (set_table (Some [])) in
  let* _ := for_epochs (range2 start_epoch (start_epoch + n_epochs)) in
  let* t := get table in
  match t with
  | Some rows => emit (wandb_log_table "Tracking" rows)
  | None => raise (AttributeError "table")
  end.

(** *** [__init__] *)

Definition __init__ (config : Config) (model : list (string * loc))
    (train_dataloader val_dataloader : DataLoader.t)
    (optimizer : OptState) (scheduler : option Scheduler)
    (tensors : store) (generator : random.rng) : state :=
  let '(snapshot, tensors) := deepcopy model tensors in
  {| config := config;
     model := model;
     train_dataloader := train_dataloader;
     val_dataloader := val_dataloader;
     scheduler := scheduler;
     training_step := 1;
     global_step := 1;
     best_val_loss := infinity;
     best_model_state_dict := snapshot;
     table := None;
     training := true;
     tensors := tensors;
     grad := [];
     optimizer := optimizer;
     generator := generator;
     trace := [] |}.

End collaborators.

End learner.

(** ** A small learner to run

    One parameter tensor holding an integer; every optimizer step adds the
    accumulated gradients to it, every backward pass contributes one, and
    the loss of a batch is read off a table at the parameter's value. *)

Module toy.
Import dataset learner.

Set Warnings "-inexact-float".
Definition losses : list float := [2.0; 1.5; 1.8; 1.2]%float.
Set Warnings "inexact-float".

Definition total (params : list (string * Z)) : Z :=
  fold_right Z.add 0%Z (List.map snd params).

Definition model_forward (params : list (string * Z)) (mode : bool)
    (encoder_input decoder_input : torch.tensor2) : float :=
  nth (Z.to_nat (total params)) losses 3%float.

Definition loss_func (output : float) (target : list Z) : float := output.

Definition autograd (params : list (string * Z))
    (encoder_input decoder_input : torch.tensor2) : Z := 1.

Definition argmax (output : float) : torch.tensor2 := torch.Tensor2 0 0 [].


Definition translate (params : list (string * Z)) (source : string) : string :=
  source.

Definition decode (ids : list Z) : string :=
  match ids with
  | [] => "<empty>"
  | _ => "<text>"
  end.

Definition str_split (sentence : string) : list string := [sentence].

Definition corpus_bleu (references : list (list (list string)))
    (candidates : list (list string)) : float := 0%float.

Definition optimizer_update (opt : unit) (grads : list Z) (l : loc) (w : Z) : Z :=
  (w + fold_right Z.add 0 grads)%Z.

Definition optimizer_advance (opt : unit) (grads : list Z) : unit := opt.

Definition scheduler_advance (sch opt : unit) : unit * unit := (sch, opt).

Definition state : Type := @learner.state Z Z unit unit.

(** A row of [n] source ids and [n] target ids. *)
Definition row_of (n : nat) : row :=
  {| translation_src := repeat 7%Z n;
     translation_trg := repeat 9%Z n;
     length_src := n;
     length_trg := n |}.

Definition loader_of (rows : list row) (batch_size : nat) : DataLoader.t :=
  DataLoader.Make (TranslationDataset.Make rows)
    match CustomBatchSampler.__init__ (length rows) (Z.of_nat batch_size) with
    | Ok sampler => sampler
    | Raise _ => CustomBatchSampler.Make (Z.of_nat batch_size) [] []
    end.

(** [Learner(config, model, ...)] over [n_train] and [n_val] rows; the
    parameter is tensor [0] and holds [0]. *)
Definition learner_of (steps : Z) (n_train n_val batch_size : nat) : state :=
  learner.__init__
    {| GRAD_ACCUMULATION_STEPS := steps; MODEL_SAVE_EPOCH_CNT := 2 |}
    [("w", 0)]
    (loader_of (List.map row_of (seq 1 n_train)) batch_size)
    (loader_of (List.map row_of (seq 1 n_val)) batch_size)
    tt (Some tt)
    {| contents := fun _ => 0%Z; next := 1 |}
    (fun i => 3 * i + 1).

Definition fit (start_epoch n_epochs : Z) (s : state) : result unit * state :=
  learner.fit model_forward loss_func autograd argmax
    translate decode str_split corpus_bleu optimizer_update optimizer_advance
    scheduler_advance start_epoch n_epochs s.


Definition training_batch (epoch : Z) (batch_idx : nat)
    (batch : torch.tensor2 * torch.tensor2) (loss_sum : float) (s : state)
  : result float * state :=
  learner.training_batch model_forward loss_func autograd
    optimizer_update optimizer_advance scheduler_advance
    epoch batch_idx batch loss_sum s.

Definition training_epoch (epoch : Z) (s : state) : result unit * state :=
  learner.training_epoch model_forward loss_func autograd
    optimizer_update optimizer_advance scheduler_advance epoch s.

Definition validation_epoch (epoch : Z) (s : state) : result unit * state :=
  learner.validation_epoch model_forward loss_func argmax
    decode str_split corpus_bleu epoch s.

Definition track_example (epoch num_examples : Z) (s : state)
  : result unit * state :=
  learner.track_example translate decode epoch num_examples s.

Definition epoch_body (epoch : Z) (s : state) : result unit * state :=
  learner.epoch_body model_forward loss_func autograd argmax
    translate decode str_split corpus_bleu optimizer_update optimizer_advance
    scheduler_advance epoch s.

(** [learner_of] with a checkpoint period to choose. *)
Definition learner_with (steps period : Z) (n_train n_val batch_size : nat) : state :=
  learner.__init__
    {| GRAD_ACCUMULATION_STEPS := steps; MODEL_SAVE_EPOCH_CNT := period |}
    [("w", 0)]
    (loader_of (List.map row_of (seq 1 n_train)) batch_size)
    (loader_of (List.map row_of (seq 1 n_val)) batch_size)
    tt (Some tt)
    {| contents := fun _ => 0%Z; next := 1 |}
    (fun i => 3 * i + 1).

(** *** A small pipeline to run

    A tokenizer by character, a split that hands the first half of the
    rows to the test part, and an insertion sort by decreasing length of
    the source. *)

Definition encode (tokenizer : unit) (text : string) : list Z :=
  List.map (fun c => Z.of_nat (Ascii.nat_of_ascii c)) (String.list_ascii_of_string text).

Definition get_tokenizer (data : list (string * string)) (vocab_size : nat) : unit := tt.

Definition Tokenizer_from_file (pth : string) : result unit := Ok tt.

Definition Tokenizer_save (tokenizer : unit) (pth : string) : result unit := Ok tt.

Definition train_test_split (data : list row) (test_size : float)
  : result (list row * list row) :=
  let n_test := length data / 2 in
  Ok (drop n_test data, take n_test data).

Fixpoint insert_by_length (r : row) (rows : list row) : list row :=
  match rows with
  | [] => [r]
  | r' :: rest =>
      if length_src r' <=? length_src r then r :: rows
      else r' :: insert_by_length r rest
  end.

Definition sort_length_src_reverse (rows : list row) : list row :=
  fold_right insert_by_length [] rows.

Definition corpus : list (string * string) :=
  [("ab", "xyz"); ("abcd", "x"); ("a", "xy"); ("abcdefgh", "x"); ("abc", "xyzt")].

Definition preprocess_data (data : list (string * string)) (max_len : nat)
  : result (list row * list row) :=
  dataset.preprocess_data unit encode train_test_split sort_length_src_reverse
    data tt max_len 0.5%float.

Definition get_translation_dataloaders (PRETRAIN_TOKENIZER_PT : option string)
    (dataset_size : nat) (tokenizer_type : string) (batch_size : Z) (max_len : nat)
  : result (DataLoader.t * DataLoader.t) :=
  dataset.get_translation_dataloaders corpus unit get_tokenizer get_tokenizer
    Tokenizer_from_file Tokenizer_save encode train_test_split
    sort_length_src_reverse PRETRAIN_TOKENIZER_PT dataset_size 100 tokenizer_type
    "tokenizer.json" 0.5%float batch_size max_len.

End toy.

(** * Notions the statements use *)

(** [ceil(n / k)] for [k >= 1]. *)
Definition ceil_div (n k : nat) : nat := (n + k - 1) / k.

(** The [step] arguments of the records logged, the backward passes, the
    optimizer steps with the passes each applied, the tables flushed and
    the average training losses reported, each in the order of the trace. *)
Definition logged_steps (tr : list learner.event) : list Z :=
  omap (fun e => match e with
                 | learner.wandb_log _ step => Some step
                 | _ => None
                 end) tr.

Definition backward_passes (tr : list learner.event) : list (Z * nat) :=
  omap (fun e => match e with
                 | learner.loss_backward epoch batch_idx => Some (epoch, batch_idx)
                 | _ => None
                 end) tr.

Definition optimizer_steps (tr : list learner.event) : list (list (Z * nat)) :=
  omap (fun e => match e with
                 | learner.optimizer_step applied => Some applied
                 | _ => None
                 end) tr.

Definition zero_grads (tr : list learner.event) : nat :=
  length (List.filter (fun e => match e with
                                | learner.optimizer_zero_grad => true
                                | _ => false
                                end) tr).

Definition scheduler_steps (tr : list learner.event) : nat :=
  length (List.filter (fun e => match e with
                                | learner.scheduler_step => true
                                | _ => false
                                end) tr).

Definition table_flushes (tr : list learner.event)
  : list (list learner.table_row) :=
  omap (fun e => match e with
                 | learner.wandb_log_table _ rows => Some rows
                 | _ => None
                 end) tr.

Definition train_avg_losses (tr : list learner.event) : list float :=
  omap (fun e => match e with
                 | learner.wandb_log [(_, _); (key, learner.Float loss_avg)] _ =>
                     if String.eqb key "Train/Avg_loss" then Some loss_avg
                     else None
                 | _ => None
                 end) tr.

(** The tensor identities of a state dict. *)
Definition locs (sd : list (string * learner.loc)) : list learner.loc :=
  List.map snd sd.

(** ** The steps a learner's state goes through *)

Section steps.
Context {Tensor Grad OptState Scheduler : Type}.
Context (optimizer_update : OptState -> list Grad -> learner.loc -> Tensor -> Tensor).
Context (optimizer_advance : OptState -> list Grad -> OptState).
Context (scheduler_advance : Scheduler -> OptState -> Scheduler * OptState).

Local Abbreviation state := (@learner.state Tensor Grad OptState Scheduler).

(** [m] takes every state to a state related to it by [R], whether it
    returns or raises. *)
Definition respects (R : relation state) {A}
    (m : @learner.M Tensor Grad OptState Scheduler A) : Prop :=
  forall s, R s (m s).2.

(** A field, or anything else read off the state, is left as it was. *)
Definition keeps {A} (f : state -> A) : relation state :=
  fun s s' => f s' = f s.

(** The changes of state the methods are made of, by what they touch: the
    mode of the network and the order of a loader's batches; the rows of
    the table; a record logged together with the advance of [global_step];
    the gradients, the parameters and [training_step]; the checkpoint and
    the best model; the table's creation and its flush. *)
Inductive kind : Type := Mode | Track | Log | Step | Save | Flush.

Inductive prim : kind -> relation state :=
| prim_mode b s :
    prim Mode s (learner.set_training b s)
| prim_iter which s :
    prim Mode s (learner.iter_ which s).2
| prim_row r rows s :
    learner.table s = Some rows ->
    prim Track s (learner.set_table (Some (rows ++ [r])) s)
| prim_log data s :
    prim Log s
      (learner.set_global_step (learner.global_step s + 1)%Z
         (learner.set_trace
            (learner.trace s ++ [learner.wandb_log data (learner.global_step s)]) s))
| prim_backward epoch batch_idx g s :
    prim Step s (learner.backward epoch batch_idx g s).2
| prim_optimizer_step s :
    prim Step s (learner.optimizer_step_ optimizer_update optimizer_advance s).2
| prim_scheduler_step sch s :
    prim Step s (learner.scheduler_step_ scheduler_advance sch s).2
| prim_zero_grad s :
    prim Step s (learner.zero_grad s).2
| prim_training_step s :
    prim Step s (learner.set_training_step (learner.training_step s + 1)%Z s)
| prim_checkpoint epoch loss_avg s :
    prim Save s
      (learner.set_trace
         (learner.trace s ++ [learner.checkpointSaver epoch loss_avg]) s)
| prim_save_best loss_avg s :
    prim Save s (learner.save_best loss_avg s).2
| prim_new_table s :
    prim Flush s (learner.set_table (Some []) s)
| prim_flush rows s :
    learner.table s = Some rows ->
    prim Flush s
      (learner.set_trace
         (learner.trace s ++ [learner.wandb_log_table "Tracking" rows]) s).

(** Any number of changes of the kinds [ks], one after the other. *)
Definition steps (ks : list kind) : relation state :=
  rtc (fun s s' => exists k, k ∈ ks /\ prim k s s').

(** From [s] to [s'] the trace has only grown, [global_step] has not
    decreased, and the records logged in between carry the values
    [global_step] went through, one each. *)
Definition logs_since (s s' : state) : Prop :=
  (learner.global_step s <= learner.global_step s')%Z
  /\ exists new,
       learner.trace s' = learner.trace s ++ new
       /\ logged_steps new =
            seqZ (learner.global_step s)
              (learner.global_step s' - learner.global_step s).

(** What example tracking has no business with: the training state, the
    optimizer, the gradients, the parameters and the trace. *)
Definition learning (s : state) :=
  (learner.config s, learner.model s, learner.scheduler s,
   learner.training_step s, learner.global_step s, learner.best_val_loss s,
   learner.best_model_state_dict s, learner.tensors s, learner.grad s,
   learner.optimizer s, learner.trace s).

(** A loader after any number of shuffles: the same rows, the same batches
    of indices in some order. *)
Definition same_loader (dl dl' : dataset.DataLoader.t) : Prop :=
  dataset.DataLoader.dataset dl' = dataset.DataLoader.dataset dl
  /\ Permutation
       (dataset.CustomBatchSampler.batch_of_indices
          (dataset.DataLoader.batch_sampler dl'))
       (dataset.CustomBatchSampler.batch_of_indices
          (dataset.DataLoader.batch_sampler dl)).

Definition same_data (s s' : state) : Prop :=
  learner.config s' = learner.config s
  /\ learner.model s' = learner.model s
  /\ same_loader (learner.train_dataloader s) (learner.train_dataloader s')
  /\ same_loader (learner.val_dataloader s) (learner.val_dataloader s').

(** The backward passes summed in the gradient buffers. *)
Definition pending_passes (s : state) : list (Z * nat) :=
  List.map (fun p => (learner.of_epoch p, learner.of_batch_idx p)) (learner.grad s).

(** The gradient buffers hold the last backward passes of the run, as many
    as the remainder of the number of training batches so far by the
    accumulation factor. *)
Definition accumulating (s : state) : Prop :=
  pending_passes s `suffix_of` backward_passes (learner.trace s)
  /\ Z.of_nat (length (learner.grad s)) =
       ((learner.training_step s - 1)
        mod learner.GRAD_ACCUMULATION_STEPS (learner.config s))%Z.

(** Every parameter tensor of the model is a tensor of the store. *)
Definition well_formed (s : state) : Prop :=
  Forall (fun l => l < learner.next (learner.tensors s)) (locs (learner.model s)).

(** The tensors of the best-model snapshot are tensors of the store, and
    none of them is a parameter tensor of the model. *)
Definition detached (s : state) : Prop :=
  Forall (fun l => l < learner.next (learner.tensors s)
                   /\ l ∉ locs (learner.model s))
    (locs (learner.best_model_state_dict s)).

(** From [s] to [s'] the model is the same object, the store has only
    grown, and no tensor of the store other than a parameter tensor of the
    model has been written to. *)
Definition frame (s s' : state) : Prop :=
  learner.model s' = learner.model s
  /\ learner.next (learner.tensors s) <= learner.next (learner.tensors s')
  /\ forall l, l < learner.next (learner.tensors s) ->
               l ∉ locs (learner.model s) ->
               learner.contents (learner.tensors s') l
               = learner.contents (learner.tensors s) l.

End steps.

(** ** Loaders that can be iterated *)

(** A loader every batch of which can be fetched: it has a batch, no batch
    of indices is empty, and every index is an index of the dataset. *)
Definition sound_loader (dl : dataset.DataLoader.t) : Prop :=
  let batches :=
    dataset.CustomBatchSampler.batch_of_indices (dataset.DataLoader.batch_sampler dl) in
  batches <> []
  /\ Forall (fun b =>
       b <> []
       /\ Forall (fun i =>
            i < dataset.TranslationDataset.__len__ (dataset.DataLoader.dataset dl)) b)
       batches.

(** ** What a run logs, and what it leaves alone *)

(** The value a record holds under a key. *)
Definition value_of (key : string) (data : list (string * learner.metric))
  : option learner.metric :=
  snd <$> List.find (fun p => String.eqb (fst p) key) data.

(** The values logged under [key], in the order of the trace. *)
Definition logged (key : string) (tr : list learner.event) : list learner.metric :=
  omap (fun e => match e with
                 | learner.wandb_log data _ => value_of key data
                 | _ => None
                 end) tr.

(** The checkpoints saved, each with its epoch and its loss. *)
Definition checkpoints (tr : list learner.event) : list (Z * float) :=
  omap (fun e => match e with
                 | learner.checkpointSaver epoch loss_avg => Some (epoch, loss_avg)
                 | _ => None
                 end) tr.

(** [a % d == 0] *)
Definition divides (d a : Z) : bool := (a mod d =? 0)%Z.

(** [loss_sum] once the losses of the batches have been added to it, from
    zero and in the order of the batches. *)
Definition sum_losses (losses : list float) : float :=
  fold_left (fun loss_sum loss => (loss_sum + loss)%float) losses 0%float.

(** The best loss once the average losses of the epochs have gone by, each
    replacing it when it is strictly below it. *)
Definition least_so_far (best : float) (avgs : list float) : float :=
  fold_left (fun best loss_avg => if (loss_avg <? best)%float then loss_avg else best)
    avgs best.

(** The calls of a trace other than the flushes of the table. *)
Definition unflushed (tr : list learner.event) : list learner.event :=
  List.filter (fun e => match e with
                        | learner.wandb_log_table _ _ => false
                        | _ => true
                        end) tr.

(** The number of rows example tracking reads off a batch of [size] rows:
    the loop stops at the index [num_examples], which no index is when
    [num_examples] is negative. *)
Definition tracked_count (num_examples : Z) (size : nat) : nat :=
  if (num_examples <? 0)%Z then size else Nat.min (Z.to_nat num_examples) size.

Section further_notions.
Context {Tensor Grad OptState Scheduler : Type}.
Context (translate : list (string * Tensor) -> string -> string).
Context (decode : list Z -> string).

Local Abbreviation state := (@learner.state Tensor Grad OptState Scheduler).

(** The rows example tracking makes of the first [count] rows of a batch. *)
Definition tracked (epoch : Z) (data : string) (params : list (string * Tensor))
    (encoder_input decoder_input : torch.tensor2) (count : nat)
  : list learner.table_row :=
  List.map
    (fun ids : list Z * list Z =>
       learner.TableRow epoch data (decode ids.1) (decode ids.2)
         (translate params (decode ids.1)))
    (take count (zip (torch.rows encoder_input) (torch.rows decoder_input))).

(** All of a learner but its table and the trace of its calls. *)
Definition core (s : state) :=
  (learner.config s, learner.model s, learner.train_dataloader s,
   learner.val_dataloader s, learner.scheduler s, learner.training_step s,
   learner.global_step s, learner.best_val_loss s,
   learner.best_model_state_dict s, learner.training s, learner.tensors s,
   learner.grad s, learner.optimizer s, learner.generator s).

(** Two learners alike in all but their tables and their traces: the table
    of the first holds the rows [before] ahead of the rows of the second,
    and the traces agree but for the flushes of the table. *)
Definition alike (before : list learner.table_row) (a b : state) : Prop :=
  core a = core b
  /\ unflushed (learner.trace a) = unflushed (learner.trace b)
  /\ exists rows,
       learner.table b = Some rows /\ learner.table a = Some (before ++ rows).

(** A method does the same to two learners that are alike: the same
    outcome, and learners that are alike again. *)
Definition simulates (before : list learner.table_row) {A}
    (m : @learner.M Tensor Grad OptState Scheduler A) : Prop :=
  forall a b,
    alike before a b -> (m a).1 = (m b).1 /\ alike before (m a).2 (m b).2.

(** Every backward pass of the run has been applied by one optimizer step
    or is pending in the gradient buffers, in the order of the passes. *)
Definition settled (s : state) : Prop :=
  concat (optimizer_steps (learner.trace s)) ++ pending_passes s
  = backward_passes (learner.trace s).


End further_notions.

(** * Properties of [dataset.py] *)

Module dataset_properties.
Import dataset.

Lemma ceil_div_spec n k :
  1 <= k -> n <= ceil_div n k * k /\ ceil_div n k * k < n + k.
Proof.
  intros Hk. unfold ceil_div.
  pose proof (Nat.div_mod_eq (n + k - 1) k) as E.
  pose proof (Nat.mod_upper_bound (n + k - 1) k ltac:(lia)) as U.
  nia.
Qed.

Lemma ceil_div_pos n k : 1 <= k -> 1 <= n -> 1 <= ceil_div n k.
Proof.
  intros Hk Hn. destruct (ceil_div_spec n k Hk) as [H _].
  destruct (ceil_div n k); lia.
Qed.

(** ** [torch.split] *)

Section split.
Context {A : Type}.
Implicit Types (t : list A) (k m : nat).

Lemma concat_pieces t k m :
  concat (List.map (fun i => take k (drop (i * k) t)) (seq 0 m)) = take (m * k) t.
Proof.
  induction m as [|m IH]; [done|].
  rewrite seq_S, List.map_app, concat_app, IH. cbn [List.map concat].
  rewrite app_nil_r, take_take_drop. f_equal. lia.
Qed.

Lemma split_pieces t k :
  1 <= k ->
  torch.split t (Z.of_nat k) =
    Ok (List.map (fun i => take k (drop (i * k) t))
          (seq 0 (Nat.max (ceil_div (length t) k) 1))).
Proof.
  intros Hk. unfold torch.split, torch.get_num_splits.
  destruct (Z.ltb_spec (Z.of_nat k) 0) as [|_]; [lia|].
  destruct (Z.eqb_spec (Z.of_nat k) 0) as [|_]; [lia|].
  rewrite Nat2Z.id.
  cbn -[Nat.ltb Nat.div Nat.max Nat.mul Nat.sub Nat.add].
  fold (ceil_div (length t) k).
  set (m := Nat.max (ceil_div (length t) k) 1).
  f_equal. apply map_ext_in. intros i Hi%in_seq. unfold torch.narrow.
  destruct (Nat.ltb_spec i (m - 1)) as [Hlt|Hge]; [done|].
  assert (i = m - 1) as -> by lia.
  pose proof (ceil_div_spec (length t) k Hk) as [Hlo Hhi].
  assert (length (drop ((m - 1) * k) t) <= k - (k * m - length t)) as Hlen.
  { rewrite length_drop. subst m.
    destruct (ceil_div (length t) k) as [|c]; cbn [Nat.max]; [lia|].
    replace (Nat.max (S c) 1) with (S c) by lia. nia. }
  rewrite !take_ge; [done| |done].
  rewrite length_drop in *. lia.
Qed.

Lemma split_concat t k ps :
  1 <= k -> torch.split t (Z.of_nat k) = Ok ps -> concat ps = t.
Proof.
  intros Hk. rewrite split_pieces by done. intros [= <-].
  rewrite concat_pieces, take_ge; [done|].
  pose proof (ceil_div_spec (length t) k Hk). nia.
Qed.

End split.

(** ** [random.shuffle] *)

Section shuffle.
Context {A : Type}.
Implicit Types (x l : list A).

Lemma insert_cons_Permutation l j a b :
  l !! j = Some b -> Permutation (b :: <[j := a]> l) (a :: l).
Proof.
  revert j. induction l as [|c l IH]; intros [|j] Hj; simplify_eq/=.
  - apply perm_swap.
  - rewrite perm_swap, (IH j Hj). apply perm_swap.
Qed.

Lemma swap_Permutation x i j : Permutation (random.swap x i j) x.
Proof.
  unfold random.swap.
  destruct (x !! i) as [xi|] eqn:Hi; [|done].
  destruct (x !! j) as [xj|] eqn:Hj; [|done].
  revert i j Hi Hj. induction x as [|c x IH]; intros [|i] [|j] Hi Hj; simplify_eq/=.
  - done.
  - apply insert_cons_Permutation, Hj.
  - apply insert_cons_Permutation, Hi.
  - constructor. by apply IH.
Qed.

Lemma shuffle_from_Permutation n x g :
  Permutation (random.shuffle_from n x g).1 x.
Proof.
  revert x g. induction n as [|i IH]; intros x g; [done|].
  destruct i as [|i]; [done|].
  change (random.shuffle_from (S (S i)) x g)
    with (random.shuffle_from (S i)
            (random.swap x (S i) (g 0 mod (S i + 1))) (fun k => g (S k))).
  rewrite IH. apply swap_Permutation.
Qed.

Lemma shuffle_Permutation x g : Permutation (random.shuffle x g).1 x.
Proof. apply shuffle_from_Permutation. Qed.

Lemma shuffle_from_unfold i x g :
  random.shuffle_from (S (S i)) x g
  = random.shuffle_from (S i)
      (random.swap x (S i) (g 0 mod (S i + 1))) (fun k => g (S k)).
Proof. reflexivity. Qed.

(** A shuffle of [n] elements takes [n - 1] draws off the generator. *)
Lemma shuffle_from_rng n x g k :
  (random.shuffle_from n x g).2 k = g (k + (n - 1)).
Proof.
  revert x g k. induction n as [|i IH]; intros x g k.
  { cbn. f_equal. lia. }
  destruct i as [|i].
  { cbn. f_equal. lia. }
  rewrite shuffle_from_unfold, IH. f_equal. lia.
Qed.

(** Only the draws count, not the generator they come from. *)
Lemma shuffle_from_ext n x g g' :
  (forall k, g k = g' k) ->
  (random.shuffle_from n x g).1 = (random.shuffle_from n x g').1.
Proof.
  revert x g g'. induction n as [|i IH]; intros x g g' Hg; [done|].
  destruct i as [|i]; [done|].
  rewrite !shuffle_from_unfold, (Hg 0). apply IH. intros k. apply Hg.
Qed.

Lemma swap_last (y rest : list A) a b j :
  (y ++ [b]) !! j = Some a ->
  exists y',
    random.swap (y ++ b :: rest) (length y) j = y' ++ a :: rest
    /\ length y' = length y
    /\ Permutation (y' ++ [a]) (y ++ [b]).
Proof.
  intros Hj. unfold random.swap.
  rewrite (list_lookup_middle y rest b (length y) eq_refl).
  destruct (decide (j = length y)) as [->|Hne].
  - rewrite (list_lookup_middle y [] b (length y) eq_refl) in Hj.
    injection Hj as <-.
    rewrite (list_lookup_middle y rest b (length y) eq_refl).
    exists y. split_and!; [|done|done].
    rewrite !insert_app_r_alt, Nat.sub_diag by lia. done.
  - assert (j < length y) as Hlt.
    { apply lookup_lt_Some in Hj. rewrite length_app in Hj. cbn in Hj. lia. }
    rewrite lookup_app_l in Hj by done.
    rewrite lookup_app_l, Hj by done.
    exists (<[j := b]> y). split_and!.
    + rewrite insert_app_r_alt, Nat.sub_diag by lia. cbn.
      by rewrite insert_app_l by done.
    + by rewrite length_insert.
    + rewrite <- !Permutation_cons_append.
      by rewrite insert_cons_Permutation by done.
Qed.

(** Every order of the elements is what some draws shuffle them into. *)
Lemma shuffle_from_reaches n (x rest target : list A) :
  length x = n ->
  Permutation target x ->
  exists g, (random.shuffle_from n (x ++ rest) g).1 = target ++ rest.
Proof.
  revert x rest target. induction n as [|i IH]; intros x rest target Hlen Hperm.
  { destruct x; [|done]. apply Permutation_nil_r in Hperm as ->.
    by exists (fun _ => 0). }
  destruct i as [|i].
  { destruct x as [|a [|]]; try done.
    apply Permutation_singleton_r in Hperm as ->. by exists (fun _ => 0). }
  destruct (@exists_last _ x) as (y & b & ->); [by intros ->|].
  rewrite length_app in Hlen. cbn in Hlen.
  assert (length y = S i) as Hy by lia.
  destruct (@exists_last _ target) as (t' & a & ->).
  { intros ->. apply Permutation_nil_l in Hperm. by destruct y. }
  assert (a ∈ y ++ [b]) as [j Hj]%list_elem_of_lookup_1.
  { rewrite <- Hperm. set_solver. }
  destruct (swap_last y rest a b j Hj) as (y' & Hswap & Hy' & Hperm').
  destruct (IH y' (a :: rest) t') as [g' Hg'].
  { lia. }
  { apply (Permutation_app_inv_r [a]). by rewrite Hperm'. }
  exists (fun k => match k with 0 => j | S k => g' k end).
  rewrite shuffle_from_unfold.
  assert (j mod (S i + 1) = j) as ->.
  { apply Nat.mod_small. apply lookup_lt_Some in Hj. rewrite length_app in Hj.
    cbn in Hj. lia. }
  rewrite <- (app_assoc y [b] rest). cbn [app]. rewrite <- Hy, Hswap, Hy.
  etrans; [exact Hg'|]. by rewrite <- app_assoc.
Qed.

Lemma shuffle_reaches (x target : list A) :
  Permutation target x -> exists g, (random.shuffle x g).1 = target.
Proof.
  intros Hperm. destruct (shuffle_from_reaches (length x) x [] target eq_refl Hperm)
    as [g Hg].
  exists g. unfold random.shuffle. by rewrite !app_nil_r in Hg.
Qed.

End shuffle.

(** ** [CustomBatchSampler] *)

Import CustomBatchSampler.

Lemma drain_drop fuel it (self : t) :
  length (batch_of_indices self) - position it < fuel ->
  drain fuel it self = drop (position it) (batch_of_indices self).
Proof.
  revert it. induction fuel as [|fuel IH]; intros [pos] Hfuel; [lia|].
  cbn in *. unfold __next__. cbn.
  destruct (batch_of_indices self !! pos) as [batch|] eqn:Hpos.
  - rewrite IH; cbn.
    + by rewrite (drop_S _ _ _ Hpos).
    + apply lookup_lt_Some in Hpos. lia.
  - apply lookup_ge_None in Hpos. by rewrite drop_ge.
Qed.

(** A pass shuffles the sampler's list and yields it as the shuffle left
    it. *)
Lemma pass_shuffle (self : t) g :
  let shuffled := random.shuffle (batch_of_indices self) g in
  pass self g
  = (shuffled.1, Make (batch_size self) (indices self) shuffled.1, shuffled.2).
Proof.
  unfold pass, __iter__.
  pose proof (shuffle_Permutation (batch_of_indices self) g) as Hperm.
  destruct (random.shuffle (batch_of_indices self) g) as [shuffled g'].
  cbn [fst snd] in *. rewrite drain_drop; [done|]. unfold __len__. cbn. lia.
Qed.

(** A pass yields the sampler's list as the shuffle left it. *)
Lemma pass_spec (self : t) g :
  let '(batches, self', _) := pass self g in
  batches = batch_of_indices self'
  /\ Permutation (batch_of_indices self') (batch_of_indices self)
  /\ batch_size self' = batch_size self
  /\ indices self' = indices self.
Proof.
  unfold pass, __iter__.
  pose proof (shuffle_Permutation (batch_of_indices self) g) as Hperm.
  destruct (random.shuffle (batch_of_indices self) g) as [shuffled g'].
  cbn [fst] in Hperm. cbn [batch_of_indices batch_size indices].
  split_and!; try done.
  rewrite drain_drop; [done|]. unfold __len__. cbn. lia.
Qed.

Lemma passes_Permutation n (self : t) g i batches :
  passes n self g !! i = Some batches ->
  Permutation batches (batch_of_indices self).
Proof.
  revert self g i. induction n as [|n IH]; intros self g i; [done|].
  cbn [passes]. pose proof (pass_spec self g) as Hpass.
  destruct (pass self g) as [[bs self'] g'].
  destruct Hpass as (-> & Hperm & _).
  destruct i as [|i]; cbn.
  - by intros [= <-].
  - intros Hi. by rewrite (IH _ _ _ Hi).
Qed.

Lemma init_spec len_dataset k :
  1 <= k ->
  __init__ len_dataset (Z.of_nat k) =
    Ok (Make (Z.of_nat k) (seq 0 len_dataset)
          (List.map (fun i => seq (i * k) (Nat.min k (len_dataset - i * k)))
             (seq 0 (Nat.max (ceil_div len_dataset k) 1)))).
Proof.
  intros Hk. unfold __init__, chunk, range.
  rewrite split_pieces by done. cbn. rewrite length_seq. do 2 f_equal.
  apply map_ext_in. intros i _. by rewrite drop_seq, take_seq.
Qed.

Lemma init_concat len_dataset k self :
  1 <= k -> __init__ len_dataset (Z.of_nat k) = Ok self ->
  concat (batch_of_indices self) = seq 0 len_dataset.
Proof.
  intros Hk. unfold __init__, chunk, range.
  destruct (torch.split _ _) as [ps|] eqn:Hsplit; [|done].
  cbn. intros [= <-]. cbn. by eapply split_concat.
Qed.

(** On an empty partition the sampler is built all the same, around one
    empty batch. *)
Lemma init_empty k : __init__ 0 (Z.of_nat k) = Ok (Make (Z.of_nat k) [] [[]]).
Proof.
  destruct k as [|k]; [reflexivity|]. rewrite init_spec by lia.
  unfold ceil_div. by rewrite Nat.div_small by lia.
Qed.

Lemma seq_StronglySorted a n : StronglySorted lt (seq a n).
Proof.
  revert a. induction n as [|n IH]; intros a; cbn; constructor; [apply IH|].
  apply Forall_forall. intros x Hx%list_elem_of_In%in_seq. lia.
Qed.

Lemma init_chunks_sorted len_dataset k self :
  __init__ len_dataset k = Ok self ->
  Forall (StronglySorted lt) (batch_of_indices self).
Proof.
  unfold __init__, chunk, torch.split, range.
  destruct (torch.get_num_splits _ _) as [m|]; [|done].
  cbn. intros [= <-]. cbn [batch_of_indices].
  apply List.Forall_map, Forall_forall. intros i _.
  unfold torch.narrow. rewrite drop_seq, take_seq. apply seq_StronglySorted.
Qed.

(** C1, as the code has it: for every partition size and every batch size
    of at least one, construction succeeds and cuts the index range into
    contiguous chunks, chunk [i] being the indices from [i * batch_size] up
    to [batch_size] of them (fewer in the final chunk); the chunks in order
    make up the whole range; the number of batches reported is
    [ceil(len / batch_size)] for a partition that is not empty and one (a
    single empty chunk) for an empty one; and one full pass yields the same
    chunks in some order, so that the indices it visits are the index range,
    each exactly once. *)
Theorem sampler_partitions_index_range
    (len_dataset batch_size : nat) (g : random.rng) :
  1 <= batch_size ->
  exists self,
    __init__ len_dataset (Z.of_nat batch_size) = Ok self
    /\ (forall i, i < __len__ self ->
          batch_of_indices self !! i =
            Some (seq (i * batch_size)
                    (Nat.min batch_size (len_dataset - i * batch_size))))
    /\ concat (batch_of_indices self) = seq 0 len_dataset
    /\ __len__ self = Nat.max (ceil_div len_dataset batch_size) 1
    /\ (1 <= len_dataset -> __len__ self = ceil_div len_dataset batch_size)
    /\ (len_dataset = 0 -> batch_of_indices self = [[]])
    /\ (forall batches self' g', pass self g = (batches, self', g') ->
          Permutation batches (batch_of_indices self)
          /\ batch_of_indices self' = batches
          /\ Permutation (concat batches) (seq 0 len_dataset)
          /\ NoDup (concat batches)).
Proof.
  intros Hk. eexists. split; [by apply init_spec|].
  assert (Hconcat := init_concat len_dataset batch_size _ Hk
                       (init_spec len_dataset batch_size Hk)).
  unfold __len__ in *. cbn [batch_of_indices] in *.
  rewrite length_map, length_seq. split_and!.
  - intros i Hi. rewrite list_lookup_fmap, lookup_seq_lt by done. done.
  - done.
  - done.
  - intros Hlen. pose proof (ceil_div_pos len_dataset batch_size Hk Hlen). lia.
  - intros ->. unfold ceil_div. rewrite Nat.div_small by lia. cbn.
    by rewrite Nat.min_0_r.
  - intros batches self' g' Hpass.
    match type of Hpass with pass ?s _ = _ =>
      pose proof (pass_spec s g) as Hspec end.
    rewrite Hpass in Hspec. destruct Hspec as (-> & Hperm & _).
    cbn [batch_of_indices] in Hperm.
    assert (Permutation (concat (batch_of_indices self')) (seq 0 len_dataset))
      as Hall by (by rewrite Hperm, Hconcat).
    split_and!; [done|done|done|].
    rewrite Hall. apply NoDup_seq.
Qed.

Lemma sampler_partitions_index_range_witness :
  exists self,
    __init__ 7 2 = Ok self
    /\ (forall i, i < __len__ self ->
          batch_of_indices self !! i = Some (seq (i * 2) (Nat.min 2 (7 - i * 2))))
    /\ concat (batch_of_indices self) = seq 0 7
    /\ __len__ self = Nat.max (ceil_div 7 2) 1
    /\ (1 <= 7 -> __len__ self = ceil_div 7 2)
    /\ (7 = 0 -> batch_of_indices self = [[]])
    /\ (forall batches self' g',
          pass self (fun i => 3 * i + 1) = (batches, self', g') ->
          Permutation batches (batch_of_indices self)
          /\ batch_of_indices self' = batches
          /\ Permutation (concat batches) (seq 0 7)
          /\ NoDup (concat batches)).
Proof. apply (sampler_partitions_index_range 7 2 (fun i => 3 * i + 1)). lia. Defined.

(** C1 as stated fails on an empty partition: the sampler then holds one
    empty chunk and reports one batch, and [ceil(0 / 1)] is zero. *)
Lemma sampler_reports_a_batch_for_empty_partition :
  exists self,
    __init__ 0 1 = Ok self
    /\ batch_of_indices self = [[]]
    /\ __len__ self = 1
    /\ __len__ self <> ceil_div 0 1.
Proof.
  eexists. split; [apply (init_empty 1)|]. cbn. split_and!; [done|done|lia].
Qed.

Lemma passes_first n (self : t) g batches :
  passes n self g !! 0 = Some batches ->
  batches = (random.shuffle (batch_of_indices self) g).1.
Proof.
  destruct n as [|n]; [done|]. cbn [passes]. rewrite pass_shuffle.
  by intros [= <-].
Qed.

(** Each pass shuffles the order the pass before it left, with the draws
    that follow those the passes before it took. *)
Lemma passes_next n (self : t) g k prev next :
  passes n self g !! k = Some prev ->
  passes n self g !! S k = Some next ->
  next = (random.shuffle prev (fun d => g (d + S k * (__len__ self - 1)))).1.
Proof.
  revert self g k. induction n as [|n IH]; intros self g k; [done|].
  cbn [passes]. rewrite pass_shuffle. cbv zeta.
  pose proof (shuffle_Permutation (batch_of_indices self) g) as Hperm.
  pose proof (shuffle_from_rng (length (batch_of_indices self))
                (batch_of_indices self) g) as Hrng.
  fold (random.shuffle (batch_of_indices self) g) in Hrng.
  destruct (random.shuffle (batch_of_indices self) g) as [shuffled g'].
  cbn [fst snd] in *.
  set (self' := Make (batch_size self) (indices self) shuffled).
  assert (__len__ self' = __len__ self) as Hlen
    by (unfold __len__; cbn; by rewrite Hperm).
  destruct k as [|k]; cbn [lookup list_lookup].
  - intros [= <-] Hnext%passes_first. subst next. cbn [batch_of_indices].
    apply shuffle_from_ext. intros d. rewrite Hrng. unfold __len__. f_equal. lia.
  - intros Hprev Hnext. rewrite (IH self' g' k Hprev Hnext).
    apply shuffle_from_ext. intros d. rewrite Hrng, Hlen. unfold __len__.
    f_equal. lia.
Qed.

(** C6: the chunks a sampler yields in any two of its passes are the same
    chunks, each with its indices in increasing order, up to the order in
    which the chunks come; every pass yields the chunks made at
    construction, permuted.  The permutation is that of [random.shuffle],
    made anew each time iteration begins: the first pass shuffles the
    chunks as construction left them with the draws the generator gives
    next, and every later pass shuffles the order the pass before it left
    with the draws that follow those all earlier passes took, one draw for
    each chunk but the first; and [random.shuffle] can put the chunks in
    any order whatever, there being draws for each. *)
Theorem chunks_identical_across_iterations
    (len_dataset : nat) (batch_size : Z) (self : t) (g : random.rng)
    (n i j : nat) (first second : list (list nat)) :
  __init__ len_dataset batch_size = Ok self ->
  passes n self g !! i = Some first ->
  passes n self g !! j = Some second ->
  Permutation first second
  /\ Permutation first (batch_of_indices self)
  /\ Permutation second (batch_of_indices self)
  /\ Forall (StronglySorted lt) first
  /\ Forall (StronglySorted lt) second
  /\ (forall batches,
        passes n self g !! 0 = Some batches ->
        batches = (random.shuffle (batch_of_indices self) g).1)
  /\ (forall k prev next,
        passes n self g !! k = Some prev ->
        passes n self g !! S k = Some next ->
        next = (random.shuffle prev (fun d => g (d + S k * (__len__ self - 1)))).1)
  /\ (forall order,
        Permutation order (batch_of_indices self) ->
        exists g0 batches self' g',
          pass self g0 = (batches, self', g')
          /\ batches = order
          /\ batch_of_indices self' = order
          /\ forall d, g' d = g0 (d + (__len__ self - 1))).
Proof.
  intros Hinit Hi Hj.
  pose proof (passes_Permutation _ _ _ _ _ Hi) as H1.
  pose proof (passes_Permutation _ _ _ _ _ Hj) as H2.
  pose proof (init_chunks_sorted _ _ _ Hinit) as Hsorted.
  split_and!; [by rewrite H1, H2|done|done| | | | |].
  - by rewrite H1.
  - by rewrite H2.
  - apply passes_first.
  - apply passes_next.
  - intros order [g0 Hg0]%shuffle_reaches.
    exists g0. rewrite pass_shuffle. cbv zeta. rewrite Hg0.
    do 3 eexists. split_and!; [done|done|done|].
    intros d. apply shuffle_from_rng.
Qed.

Lemma chunks_identical_across_iterations_witness :
  let self := Make 2 (seq 0 7) [[0; 1]; [2; 3]; [4; 5]; [6]] in
  let g : random.rng := fun i => 3 * i + 1 in
  let first := [[0; 1]; [4; 5]; [6]; [2; 3]] in
  let second := [[2; 3]; [0; 1]; [4; 5]; [6]] in
  passes 3 self g !! 0 = Some first
  /\ passes 3 self g !! 1 = Some second
  /\ Permutation first second
  /\ Permutation first (batch_of_indices self)
  /\ Forall (StronglySorted lt) first
  /\ Forall (StronglySorted lt) second
  /\ first = (random.shuffle (batch_of_indices self) g).1
  /\ second = (random.shuffle first (fun d => g (d + 3))).1
  /\ exists g0, (pass self g0).1.1 = [[6]; [4; 5]; [2; 3]; [0; 1]].
Proof.
  intros self g first second.
  destruct (chunks_identical_across_iterations 7 2 self g 3 0 1 first second)
    as (Hperm & Hfirst & _ & Hs1 & Hs2 & H0 & Hnext & Hany); [reflexivity..|].
  split_and!; [reflexivity|reflexivity|exact Hperm|exact Hfirst|exact Hs1|exact Hs2
              |by apply H0|by apply (Hnext 0)|].
  destruct (Hany [[6]; [4; 5]; [2; 3]; [0; 1]]) as (g0 & ? & ? & ? & E & -> & _).
  { symmetry. apply (Permutation_rev [[0; 1]; [2; 3]; [4; 5]; [6]]). }
  exists g0. by rewrite E.
Defined.

(** The order of the chunks does change from one pass to the next. *)
Example chunk_order_differs :
  passes 2 (Make 2 (seq 0 7) [[0; 1]; [2; 3]; [4; 5]; [6]]) (fun i => 3 * i + 1)
  = [[[0; 1]; [4; 5]; [6]; [2; 3]]; [[2; 3]; [0; 1]; [4; 5]; [6]]].
Proof. reflexivity. Qed.

(** What [iter] returns reads the sampler's own list: a second [iter]
    begun before the first pass is over reshuffles under it, and the first
    pass can then yield a chunk twice. *)
Example interleaved_iteration_repeats_a_chunk :
  let s0 := Make 2 (seq 0 4) [[0; 1]; [2; 3]] in
  let '(it, s1, g) := __iter__ s0 (fun _ => 1) in
  let '(b1, it) := __next__ it s1 in
  let '(_, s2, _) := __iter__ s1 (fun _ => 0) in
  let '(b2, _) := __next__ it s2 in
  b1 = Some [0; 1] /\ b2 = Some [0; 1].
Proof. cbn. done. Qed.

(** ** [pad_collate_fn] *)

Lemma max_len_bound (sequences : list (list Z)) :
  Forall (fun s => length s <= torch.max_len sequences) sequences.
Proof.
  unfold torch.max_len. induction sequences as [|s ss IH]; cbn; constructor.
  - lia.
  - eapply Forall_impl; [exact IH|]. cbn. intros. lia.
Qed.

Lemma max_len_attained (sequences : list (list Z)) :
  sequences <> [] ->
  exists s, In s sequences /\ length s = torch.max_len sequences.
Proof.
  unfold torch.max_len. induction sequences as [|s ss IH]; [done|]. intros _.
  destruct ss as [|s' ss].
  - exists s. cbn. split; [by left|lia].
  - destruct IH as (m & Hin & Hm); [done|]. cbn [List.map fold_right] in *.
    destruct (Nat.max_spec (length s)
                (Nat.max (length s') (fold_right Nat.max 0 (List.map length ss))))
      as [[_ ->]|[_ ->]].
    + exists m. split; [by right|done].
    + exists s. split; [by left|done].
Qed.

Lemma pad_sequence_spec (sequences : list (list Z)) (v : Z) :
  sequences <> [] ->
  exists out,
    torch.pad_sequence sequences v = Ok out
    /\ torch.size0 out = length sequences
    /\ torch.size1 out = torch.max_len sequences
    /\ length (torch.rows out) = torch.size0 out
    /\ Forall (fun r => length r = torch.size1 out) (torch.rows out)
    /\ (forall i s, sequences !! i = Some s ->
          torch.rows out !! i = Some (s ++ repeat v (torch.size1 out - length s))).
Proof.
  intros Hne. destruct sequences as [|s0 ss] eqn:E; [done|]. rewrite <- E in *.
  eexists. split; [subst; reflexivity|]. clear E. cbn [torch.size0 torch.size1 torch.rows].
  split_and!; try done.
  - by rewrite length_map.
  - apply List.Forall_map. eapply Forall_impl; [apply max_len_bound|].
    cbn. intros s Hs. rewrite length_app, repeat_length. lia.
  - intros i s Hi. change (@List.map) with (@fmap list _). by rewrite list_lookup_fmap, Hi.
Qed.

(** C5: on a batch that is not empty the collator returns a source tensor
    of shape (batch size, longest source of the batch) and a target tensor
    of shape (batch size, longest target of the batch), each row being the
    sequence it comes from followed by as many zeros as it takes to fill
    the row; in particular, for sources of lengths 3, 5 and 2 the source
    tensor has shape (3, 5) and its third row is the two tokens of the
    third source followed by three zeros. *)
Theorem pad_collate_fn_pads_to_batch_maximum (batch : list (list Z * list Z)) :
  batch <> [] ->
  exists src trg,
    pad_collate_fn batch = Ok (src, trg)
    /\ torch.size0 src = length batch
    /\ torch.size0 trg = length batch
    /\ Forall (fun p => length p.1 <= torch.size1 src) batch
    /\ Forall (fun p => length p.2 <= torch.size1 trg) batch
    /\ (exists p, In p batch /\ length p.1 = torch.size1 src)
    /\ (exists p, In p batch /\ length p.2 = torch.size1 trg)
    /\ length (torch.rows src) = length batch
    /\ length (torch.rows trg) = length batch
    /\ Forall (fun r => length r = torch.size1 src) (torch.rows src)
    /\ Forall (fun r => length r = torch.size1 trg) (torch.rows trg)
    /\ (forall i s t, batch !! i = Some (s, t) ->
          torch.rows src !! i = Some (s ++ repeat 0%Z (torch.size1 src - length s))
          /\ torch.rows trg !! i = Some (t ++ repeat 0%Z (torch.size1 trg - length t)))
    /\ (List.map (fun p => length p.1) batch = [3; 5; 2] ->
          torch.size0 src = 3 /\ torch.size1 src = 5
          /\ exists s t, batch !! 2 = Some (s, t) /\ length s = 2
               /\ torch.rows src !! 2 = Some (s ++ [0; 0; 0]%Z)).
Proof.
  intros Hne. unfold pad_collate_fn.
  assert (List.map fst batch <> []) as Hsrc by (by destruct batch).
  assert (List.map snd batch <> []) as Htrg by (by destruct batch).
  destruct (pad_sequence_spec _ 0%Z Hsrc) as (src & -> & Hs0 & Hs1 & Hsl & Hsr & Hsi).
  destruct (pad_sequence_spec _ 0%Z Htrg) as (trg & -> & Ht0 & Ht1 & Htl & Htr & Hti).
  exists src, trg. cbn. rewrite length_map in Hs0, Ht0.
  pose proof (max_len_bound (List.map fst batch)) as Hbs.
  pose proof (max_len_bound (List.map snd batch)) as Hbt.
  rewrite List.Forall_map in Hbs, Hbt.
  destruct (max_len_attained _ Hsrc) as (ms & (ps & <- & Hps)%in_map_iff & Hms).
  destruct (max_len_attained _ Htrg) as (mt & (pt & <- & Hpt)%in_map_iff & Hmt).
  assert (forall i s t, batch !! i = Some (s, t) ->
            torch.rows src !! i = Some (s ++ repeat 0%Z (torch.size1 src - length s))
            /\ torch.rows trg !! i = Some (t ++ repeat 0%Z (torch.size1 trg - length t)))
    as Hrows.
  { intros i s t Hi. split.
    - apply Hsi. change (@List.map) with (@fmap list _). by rewrite list_lookup_fmap, Hi.
    - apply Hti. change (@List.map) with (@fmap list _). by rewrite list_lookup_fmap, Hi. }
  split_and!; try congruence.
  - by rewrite Hs1.
  - by rewrite Ht1.
  - by exists ps; rewrite Hs1.
  - by exists pt; rewrite Ht1.
  - exact Hrows.
  - intros Hlens.
    assert (length batch = 3) as Hlen
      by (by rewrite <- (length_map (fun p => length p.1)), Hlens).
    assert (torch.size1 src = 5) as H5.
    { rewrite Hs1. unfold torch.max_len. rewrite List.map_map.
      change (fun x => length (fst x)) with (fun p : list Z * list Z => length p.1).
      by rewrite Hlens. }
    split_and!; [congruence|done|].
    destruct batch as [|p1 [|p2 [|[s t] [|]]]]; try discriminate Hlen.
    injection Hlens as _ _ Hs. exists s, t. cbn in Hs. split_and!; [done|done|].
    destruct (Hrows 2 s t eq_refl) as [-> _]. by rewrite H5, Hs.
Qed.

Lemma pad_collate_fn_pads_to_batch_maximum_witness :
  exists src trg,
    pad_collate_fn [([11; 12; 13], [1]); ([21; 22; 23; 24; 25], [2; 3]); ([31; 32], [4])]%Z
      = Ok (src, trg)
    /\ torch.size0 src = 3 /\ torch.size1 src = 5
    /\ torch.size0 trg = 3 /\ torch.size1 trg = 2
    /\ torch.rows src !! 2 = Some [31; 32; 0; 0; 0]%Z.
Proof.
  destruct (pad_collate_fn_pads_to_batch_maximum
              [([11; 12; 13], [1]); ([21; 22; 23; 24; 25], [2; 3]); ([31; 32], [4])]%Z)
    as (src & trg & E & _); [discriminate|].
  exists src, trg. split; [exact E|].
  injection E as <- <-. repeat split; reflexivity.
Defined.

(** ** [get_translation_dataloaders] *)

Section pipeline.
Context (corpus : list (string * string)) {Tokenizer : Type}.
Context (get_tokenizer_wordlevel get_tokenizer_bpe :
           list (string * string) -> nat -> Tokenizer).
Context (Tokenizer_from_file : string -> result Tokenizer).
Context (Tokenizer_save : Tokenizer -> string -> result unit).
Context (encode : Tokenizer -> string -> list Z).
Context (train_test_split : list row -> float -> result (list row * list row)).
Context (sort_length_src_reverse : list row -> list row).

(** C9: with a tokenizer type that is neither ['wordlevel'] nor ['bpe']
    and no pretrained tokenizer configured, the function never returns data
    loaders; once the corpus is loaded it raises the unbound-name error of
    the local variable [tokenizer], whatever the other arguments are. *)
Theorem unknown_tokenizer_type_raises_unbound_name
    (dataset_size vocab_size : nat) (tokenizer_type tokenizer_save_pth : string)
    (test_proportion : float) (batch_size : Z) (max_len : nat) :
  tokenizer_type <> "wordlevel" ->
  tokenizer_type <> "bpe" ->
  let outcome :=
    get_translation_dataloaders corpus Tokenizer get_tokenizer_wordlevel
      get_tokenizer_bpe Tokenizer_from_file Tokenizer_save encode
      train_test_split sort_length_src_reverse None
      dataset_size vocab_size tokenizer_type tokenizer_save_pth
      test_proportion batch_size max_len in
  is_ok outcome = false
  /\ (dataset_size <= length corpus ->
        outcome = Raise (UnboundLocalError "tokenizer")).
Proof.
  intros Hw Hb. unfold get_translation_dataloaders, get_dataset.
  apply String.eqb_neq in Hw, Hb. rewrite Hw, Hb.
  destruct (Nat.leb_spec dataset_size (length corpus)); cbn; [done|].
  split; [done|lia].
Qed.

End pipeline.

Lemma unknown_tokenizer_type_raises_unbound_name_witness :
  get_translation_dataloaders [("hello", "xin chao")] unit
    (fun _ _ => tt) (fun _ _ => tt) (fun _ => Ok tt) (fun _ _ => Ok tt)
    (fun _ _ => [1%Z]) (fun data _ => Ok (data, data)) (fun data => data)
    None 1 100 "unigram" "tokenizer.json" 0.5%float 2 10
  = Raise (UnboundLocalError "tokenizer").
Proof.
  apply (unknown_tokenizer_type_raises_unbound_name [("hello", "xin chao")]
           (fun _ _ => tt) (fun _ _ => tt) (fun _ => Ok tt) (fun _ _ => Ok tt)
           (fun _ _ => [1%Z]) (fun data _ => Ok (data, data)) (fun data => data)
           1 100 "unigram" "tokenizer.json" 0.5%float 2 10);
    [discriminate|discriminate|cbn; lia].
Defined.

(** ** Fetching a batch *)

Lemma mapM_Ok_lookup {A B} (f : A -> result B) l k :
  mapM f l = Ok k ->
  length k = length l
  /\ forall j x, l !! j = Some x -> exists y, f x = Ok y /\ k !! j = Some y.
Proof.
  revert k. induction l as [|a l IH]; intros k; cbn.
  - intros [= <-]. split; [done|]. intros j x Hj. by rewrite lookup_nil in Hj.
  - destruct (f a) as [y|e] eqn:Ha; cbn; [|done].
    destruct (mapM f l) as [k'|e] eqn:Hl; cbn; [|done].
    intros [= <-]. destruct (IH k' eq_refl) as [Hlen Hlook]. split; [cbn; lia|].
    intros [|j] x Hj; cbn in *.
    + injection Hj as <-. by exists y.
    + by apply Hlook.
Qed.

Lemma mapM_getitem_in_range (ds : TranslationDataset.t) (b : list nat) :
  Forall (fun i => i < TranslationDataset.__len__ ds) b ->
  exists samples, mapM (TranslationDataset.__getitem__ ds) b = Ok samples.
Proof.
  induction 1 as [|i b Hi _ [samples IH]]; cbn; [by eexists|].
  destruct (lookup_lt_is_Some_2 (TranslationDataset.dataset ds) i Hi) as [r Hr].
  assert (TranslationDataset.__getitem__ ds i = Ok (translation_src r, translation_trg r))
    as -> by (unfold TranslationDataset.__getitem__; by rewrite Hr).
  cbn. rewrite IH. cbn. by eexists.
Qed.

Lemma mapM_getitem_out_of_range (ds : TranslationDataset.t) (b : list nat) :
  Exists (fun i => TranslationDataset.__len__ ds <= i) b ->
  mapM (TranslationDataset.__getitem__ ds) b = Raise IndexError.
Proof.
  induction 1 as [i b Hi|i b _ IH]; cbn.
  - assert (TranslationDataset.__getitem__ ds i = Raise IndexError) as ->; [|done].
    unfold TranslationDataset.__getitem__.
    by rewrite (lookup_ge_None_2 (TranslationDataset.dataset ds) i Hi).
  - rewrite IH. unfold TranslationDataset.__getitem__. destruct (_ !! i); reflexivity.
Qed.

Lemma fetch_in_range (dl : DataLoader.t) (b : list nat) :
  b <> [] ->
  Forall (fun i => i < TranslationDataset.__len__ (DataLoader.dataset dl)) b ->
  exists src trg,
    DataLoader.fetch dl b = Ok (src, trg)
    /\ torch.size0 src = length b /\ torch.size0 trg = length b
    /\ length (torch.rows src) = length b /\ length (torch.rows trg) = length b.
Proof.
  intros Hne Hin. destruct (mapM_getitem_in_range _ _ Hin) as [samples Hs].
  unfold DataLoader.fetch. rewrite Hs. cbn.
  destruct (mapM_Ok_lookup _ _ _ Hs) as [Hlen _].
  assert (samples <> []) as Hsne by (destruct samples, b; cbn in *; done).
  unfold pad_collate_fn.
  assert (List.map fst samples <> []) as H1 by (by destruct samples).
  assert (List.map snd samples <> []) as H2 by (by destruct samples).
  destruct (pad_sequence_spec _ 0%Z H1) as (src & -> & Hs0 & _ & Hsl & _).
  destruct (pad_sequence_spec _ 0%Z H2) as (trg & -> & Ht0 & _ & Htl & _).
  exists src, trg. cbn. rewrite length_map in Hs0, Ht0.
  split_and!; congruence.
Qed.

Lemma pad_collate_fn_rows (batch : list (list Z * list Z)) :
  batch <> [] ->
  exists src trg,
    pad_collate_fn batch = Ok (src, trg)
    /\ torch.size0 src = length batch
    /\ torch.size0 trg = length batch
    /\ length (torch.rows src) = length batch
    /\ length (torch.rows trg) = length batch
    /\ Forall (fun r => length r = torch.size1 src) (torch.rows src)
    /\ Forall (fun r => length r = torch.size1 trg) (torch.rows trg)
    /\ (forall i s t, batch !! i = Some (s, t) ->
          torch.rows src !! i = Some (s ++ repeat 0%Z (torch.size1 src - length s))
          /\ torch.rows trg !! i = Some (t ++ repeat 0%Z (torch.size1 trg - length t))).
Proof.
  intros Hne. unfold pad_collate_fn.
  assert (List.map fst batch <> []) as Hsrc by (by destruct batch).
  assert (List.map snd batch <> []) as Htrg by (by destruct batch).
  destruct (pad_sequence_spec _ 0%Z Hsrc) as (src & -> & Hs0 & Hs1 & Hsl & Hsr & Hsi).
  destruct (pad_sequence_spec _ 0%Z Htrg) as (trg & -> & Ht0 & Ht1 & Htl & Htr & Hti).
  exists src, trg. cbn. rewrite length_map in Hs0, Ht0.
  split_and!; try congruence.
  intros i s t Hi. split.
  - apply Hsi. change (@List.map) with (@fmap list _). by rewrite list_lookup_fmap, Hi.
  - apply Hti. change (@List.map) with (@fmap list _). by rewrite list_lookup_fmap, Hi.
Qed.

Lemma same_loader_sound dl dl' : same_loader dl dl' -> sound_loader dl -> sound_loader dl'.
Proof.
  intros [Hds Hperm] [Hne Hall]. unfold sound_loader. rewrite Hds. split.
  - intros Hnil. rewrite Hnil in Hperm. by apply Permutation_nil_l in Hperm.
  - by rewrite Hperm.
Qed.

Lemma init_sound (rows : list row) k sampler :
  rows <> [] -> 1 <= k ->
  __init__ (length rows) (Z.of_nat k) = Ok sampler ->
  sound_loader (DataLoader.Make (TranslationDataset.Make rows) sampler)
  /\ __len__ sampler = ceil_div (length rows) k
  /\ Forall (fun b => length b <= k) (batch_of_indices sampler)
  /\ concat (batch_of_indices sampler) = seq 0 (length rows).
Proof.
  intros Hne Hk Hinit.
  assert (1 <= length rows) as Hlen by (destruct rows; cbn; [done|lia]).
  pose proof (init_concat _ _ _ Hk Hinit) as Hconcat.
  rewrite init_spec in Hinit by done. injection Hinit as <-.
  pose proof (ceil_div_pos _ _ Hk Hlen) as Hpos.
  pose proof (ceil_div_spec (length rows) k Hk) as [Hlo Hhi].
  unfold sound_loader, __len__. cbn [batch_of_indices DataLoader.batch_sampler
    DataLoader.dataset TranslationDataset.__len__ TranslationDataset.dataset] in *.
  replace (Nat.max (ceil_div (length rows) k) 1) with (ceil_div (length rows) k)
    in * by lia.
  split_and!.
  - destruct (ceil_div (length rows) k); [lia|done].
  - apply List.Forall_map, Forall_forall. intros i Hi%list_elem_of_In%in_seq. split.
    + assert (0 < Nat.min k (length rows - i * k)) by nia.
      destruct (Nat.min k (length rows - i * k)); [lia|done].
    + apply Forall_forall. intros j Hj%list_elem_of_In%in_seq. cbn. lia.
  - by rewrite length_map, length_seq.
  - apply List.Forall_map, Forall_forall. intros i _. rewrite length_seq. lia.
  - done.
Qed.

Lemma init_zero_batch_size len_dataset :
  1 <= len_dataset ->
  __init__ len_dataset 0
  = Raise (RuntimeError
             ("split_size can only be 0 if dimension size is 0, "
              +:+ "but got dimension size of " +:+ str (Z.of_nat len_dataset))).
Proof.
  intros Hlen. unfold __init__, chunk, torch.split, torch.get_num_splits, range.
  rewrite length_seq. by destruct len_dataset; [lia|].
Qed.

Lemma init_negative_batch_size len_dataset k :
  (k < 0)%Z ->
  __init__ len_dataset k
  = Raise (RuntimeError
             ("split expects split_size be non-negative, but got split_size="
              +:+ str k)).
Proof.
  intros Hk%Z.ltb_lt.
  unfold __init__, chunk, torch.split, torch.get_num_splits, range.
  by rewrite Hk.
Qed.

(** The batch sizes construction accepts, as natural numbers. *)
Lemma init_Ok len_dataset k sampler :
  __init__ len_dataset k = Ok sampler ->
  exists n, k = Z.of_nat n /\ (n = 0 -> len_dataset = 0).
Proof.
  intros Hinit. destruct (Z.ltb_spec k 0) as [Hneg|Hpos].
  { by rewrite init_negative_batch_size in Hinit. }
  exists (Z.to_nat k). split; [lia|]. intros Hz.
  assert (k = 0%Z) as -> by lia.
  destruct len_dataset as [|n]; [done|].
  by rewrite init_zero_batch_size in Hinit by lia.
Qed.

Lemma init_batches len_dataset k sampler :
  __init__ len_dataset k = Ok sampler ->
  batch_of_indices sampler <> []
  /\ concat (batch_of_indices sampler) = seq 0 len_dataset
  /\ batch_size sampler = k
  /\ indices sampler = seq 0 len_dataset.
Proof.
  intros Hinit. destruct (init_Ok _ _ _ Hinit) as (n & -> & Hn).
  destruct (decide (n = 0)) as [->|Hk0].
  - pose proof (Hn eq_refl) as ->. rewrite (init_empty 0) in Hinit.
    by injection Hinit as <-.
  - assert (1 <= n) as Hk by lia.
    pose proof (init_concat _ _ _ Hk Hinit) as Hconcat.
    rewrite init_spec in Hinit by lia. injection Hinit as <-.
    cbn [batch_of_indices batch_size indices] in *. split_and!; try done.
    intros Hnil%(f_equal length). rewrite length_map, length_seq in Hnil.
    cbn [length] in Hnil. lia.
Qed.



(** ** A loader over a partition that is not empty *)

Lemma iter_same_loader (dl : DataLoader.t) g :
  let '(yielded, dl', _) := DataLoader.__iter__ dl g in
  yielded = batch_of_indices (DataLoader.batch_sampler dl')
  /\ same_loader dl dl'.
Proof.
  unfold DataLoader.__iter__. pose proof (pass_spec (DataLoader.batch_sampler dl) g) as H.
  destruct (pass (DataLoader.batch_sampler dl) g) as [[yielded sampler'] g'].
  destruct H as (-> & Hperm & _). by split.
Qed.

(** X2: over a partition that is not empty, with a batch size of at least one,
    a loader made of the dataset and its sampler, however often it has
    been iterated, reports [ceil(len / batch_size)] batches, each of at
    least one and at most [batch_size] indices; fetching any of them
    succeeds and gives two tensors with one row for each index; the batches
    together visit every row once; and iterating it yields these batches
    and leaves such a loader behind. *)
Theorem every_batch_of_a_loader_is_fetched
    (rows : list row) (batch_size : nat) (sampler : t) (dl : DataLoader.t) :
  rows <> [] ->
  1 <= batch_size ->
  __init__ (length rows) (Z.of_nat batch_size) = Ok sampler ->
  same_loader (DataLoader.Make (TranslationDataset.Make rows) sampler) dl ->
  let batches := batch_of_indices (DataLoader.batch_sampler dl) in
  DataLoader.__len__ dl = ceil_div (length rows) batch_size
  /\ Forall (fun b =>
       1 <= length b <= batch_size
       /\ exists src trg,
            DataLoader.fetch dl b = Ok (src, trg)
            /\ torch.size0 src = length b /\ torch.size0 trg = length b)
       batches
  /\ Permutation (concat batches) (seq 0 (length rows))
  /\ (forall g,
        let '(yielded, dl', _) := DataLoader.__iter__ dl g in
        yielded = batch_of_indices (DataLoader.batch_sampler dl')
        /\ Permutation yielded batches
        /\ same_loader (DataLoader.Make (TranslationDataset.Make rows) sampler) dl').
Proof.
  intros Hne Hk Hinit Hsame batches.
  destruct (init_sound rows batch_size sampler Hne Hk Hinit)
    as (Hsound & Hlen & Hsize & Hconcat).
  pose proof (same_loader_sound _ _ Hsame Hsound) as [_ Hall].
  destruct Hsame as [Hds Hperm]. cbn [DataLoader.batch_sampler DataLoader.dataset] in *.
  fold batches in Hperm, Hall. split_and!.
  - unfold DataLoader.__len__, __len__. fold batches. by rewrite Hperm.
  - rewrite <- Hperm in Hsize. rewrite Forall_forall in Hall, Hsize.
    apply Forall_forall. intros b Hb. destruct (Hall b Hb) as [Hbne Hin].
    specialize (Hsize b Hb). split; [destruct b; cbn in *; [done|lia]|].
    destruct (fetch_in_range dl b Hbne Hin) as (src & trg & ? & ? & ? & _).
    by exists src, trg.
  - by rewrite Hperm, Hconcat.
  - intros g. pose proof (iter_same_loader dl g) as Hiter.
    destruct (DataLoader.__iter__ dl g) as [[yielded dl'] g'].
    destruct Hiter as [-> [Hds' Hperm']]. split_and!; [done|done|].
    split; cbn [DataLoader.batch_sampler DataLoader.dataset]; [congruence|].
    by rewrite Hperm'.
Qed.

(** X3: fetching a batch of indices raises [IndexError] as soon as one index
    is past the end of the dataset, whatever else the batch holds; a batch
    with no index at all is refused by the collator; every other batch is
    fetched. *)
Theorem fetch_refuses_indices_past_the_end_and_empty_batches
    (dl : DataLoader.t) (b : list nat) :
  let n := TranslationDataset.__len__ (DataLoader.dataset dl) in
  (Exists (fun i => n <= i) b <-> DataLoader.fetch dl b = Raise IndexError)
  /\ (b = [] <->
      DataLoader.fetch dl b = Raise (RuntimeError "received an empty list of sequences"))
  /\ (b <> [] /\ Forall (fun i => i < n) b <-> is_ok (DataLoader.fetch dl b) = true).
Proof.
  intros n.
  assert (Exists (fun i => n <= i) b -> DataLoader.fetch dl b = Raise IndexError) as H1.
  { intros Hex. unfold DataLoader.fetch.
    by rewrite (mapM_getitem_out_of_range _ _ Hex). }
  assert (b = [] ->
          DataLoader.fetch dl b = Raise (RuntimeError "received an empty list of sequences"))
    as H2 by (by intros ->).
  assert (b <> [] -> Forall (fun i => i < n) b -> is_ok (DataLoader.fetch dl b) = true)
    as H3.
  { intros Hne Hin. by destruct (fetch_in_range dl b Hne Hin) as (src & trg & -> & _). }
  assert (Exists (fun i => n <= i) b \/ Forall (fun i => i < n) b) as Hcases.
  { destruct (decide (Forall (fun i => i < n) b)) as [Hall|Hnot]; [by right|left].
    apply not_Forall_Exists in Hnot; [|apply _].
    eapply Exists_impl; [exact Hnot|]. cbn. intros. lia. }
  split_and!; (split; [auto|]).
  - intros Hraise. destruct Hcases as [Hex|Hall]; [done|].
    destruct (decide (b = [])) as [->|Hne]; [done|].
    pose proof (H3 Hne Hall) as Hok. by rewrite Hraise in Hok.
  - intros Hraise. destruct (decide (b = [])) as [->|Hne]; [done|].
    destruct Hcases as [Hex|Hall]; [by rewrite (H1 Hex) in Hraise|].
    pose proof (H3 Hne Hall) as Hok. by rewrite Hraise in Hok.
  - intros []. auto.
  - intros Hok. destruct (decide (b = [])) as [->|Hne]; [by rewrite H2 in Hok|].
    split; [done|]. destruct Hcases as [Hex|Hall]; [by rewrite (H1 Hex) in Hok|done].
Qed.

(** X4: a batch that is fetched holds, row for row and in the order of its
    indices, the two token sequences of the dataset's rows at these
    indices: cutting a row of either tensor at the length of its sequence
    gives the sequence back, and what is cut off is zeros. *)
Theorem fetched_rows_are_the_rows_of_the_dataset
    (dl : DataLoader.t) (b : list nat) (src trg : torch.tensor2) :
  DataLoader.fetch dl b = Ok (src, trg) ->
  torch.size0 src = length b
  /\ torch.size0 trg = length b
  /\ length (torch.rows src) = length b
  /\ length (torch.rows trg) = length b
  /\ forall j i, b !! j = Some i ->
       exists r row_src row_trg,
         TranslationDataset.dataset (DataLoader.dataset dl) !! i = Some r
         /\ torch.rows src !! j = Some row_src
         /\ torch.rows trg !! j = Some row_trg
         /\ length row_src = torch.size1 src
         /\ length row_trg = torch.size1 trg
         /\ take (length (translation_src r)) row_src = translation_src r
         /\ take (length (translation_trg r)) row_trg = translation_trg r
         /\ drop (length (translation_src r)) row_src
            = repeat 0%Z (torch.size1 src - length (translation_src r))
         /\ drop (length (translation_trg r)) row_trg
            = repeat 0%Z (torch.size1 trg - length (translation_trg r)).
Proof.
  unfold DataLoader.fetch.
  destruct (mapM _ b) as [samples|] eqn:Hs; cbn; [|done].
  destruct (mapM_Ok_lookup _ _ _ Hs) as [Hlen Hlook]. intros Hcollate.
  assert (samples <> []) as Hne by (intros ->; done).
  destruct (pad_collate_fn_rows samples Hne) as (src' & trg' & E & H0 & H0' & Hl & Hl' & Hw & Hw' & Hrows).
  rewrite E in Hcollate. injection Hcollate as <- <-.
  split_and!; try congruence.
  intros j i Hj. destruct (Hlook j i Hj) as ([s t] & Hget & Hsample).
  unfold TranslationDataset.__getitem__ in Hget.
  destruct (TranslationDataset.dataset (DataLoader.dataset dl) !! i) as [r|] eqn:Hr;
    [|done].
  injection Hget as <- <-. destruct (Hrows j _ _ Hsample) as [Hsrc Htrg].
  rewrite Forall_forall in Hw, Hw'.
  exists r, (translation_src r ++ repeat 0%Z (torch.size1 src' - length (translation_src r))),
    (translation_trg r ++ repeat 0%Z (torch.size1 trg' - length (translation_trg r))).
  split_and!; try done.
  - apply Hw. by eapply list_elem_of_lookup_2.
  - apply Hw'. by eapply list_elem_of_lookup_2.
  - by rewrite take_app_length.
  - by rewrite take_app_length.
  - by rewrite drop_app_length.
  - by rewrite drop_app_length.
Qed.


(** ** The pipeline *)

Lemma max_len_le (sequences : list (list Z)) (bound : nat) :
  Forall (fun s => length s <= bound) sequences -> torch.max_len sequences <= bound.
Proof.
  unfold torch.max_len. induction 1 as [|s ss Hs _ IH]; cbn; [lia|].
  apply Nat.max_lub; [exact Hs|exact IH].
Qed.

Lemma max_len_head (s : list Z) (ss : list (list Z)) :
  Forall (fun s' => length s' <= length s) ss ->
  torch.max_len (s :: ss) = length s.
Proof.
  intros Hall. apply max_len_le in Hall. unfold torch.max_len in *. cbn. lia.
Qed.

Lemma fetch_widths (dl : DataLoader.t) (b : list nat) src trg :
  DataLoader.fetch dl b = Ok (src, trg) ->
  exists samples,
    mapM (TranslationDataset.__getitem__ (DataLoader.dataset dl)) b = Ok samples
    /\ torch.size1 src = torch.max_len (List.map fst samples)
    /\ torch.size1 trg = torch.max_len (List.map snd samples).
Proof.
  unfold DataLoader.fetch. destruct (mapM _ b) as [samples|]; cbn; [|done].
  unfold pad_collate_fn. intros H. exists samples. split; [done|].
  destruct samples as [|p samples]; [done|].
  cbn in H. by injection H as <- <-.
Qed.

Section pipeline_further.
Context (corpus : list (string * string)) {Tokenizer : Type}.
Context (get_tokenizer_wordlevel get_tokenizer_bpe :
           list (string * string) -> nat -> Tokenizer).
Context (Tokenizer_from_file : string -> result Tokenizer).
Context (Tokenizer_save : Tokenizer -> string -> result unit).
Context (encode : Tokenizer -> string -> list Z).
Context (train_test_split : list row -> float -> result (list row * list row)).
Context (sort_length_src_reverse : list row -> list row).

(** X5: with a pretrained tokenizer configured, the tokenizer type, the
    vocabulary size and the path to save to are of no consequence, and
    nothing is saved: whatever they are, and whatever saving would do, the
    outcome is that of loading the corpus, loading the tokenizer from the
    configured file and going on with it.  A type that is neither
    ['wordlevel'] nor ['bpe'] raises nothing then. *)
Theorem pretrained_tokenizer_overrides_the_type
    (pth : string) (dataset_size vocab_size vocab_size' : nat)
    (tokenizer_type tokenizer_type' tokenizer_save_pth tokenizer_save_pth' : string)
    (Tokenizer_save' : Tokenizer -> string -> result unit)
    (test_proportion : float) (batch_size : Z) (max_len : nat) :
  let outcome :=
    get_translation_dataloaders corpus Tokenizer get_tokenizer_wordlevel
      get_tokenizer_bpe Tokenizer_from_file Tokenizer_save encode
      train_test_split sort_length_src_reverse (Some pth)
      dataset_size vocab_size tokenizer_type tokenizer_save_pth
      test_proportion batch_size max_len in
  outcome =
    get_translation_dataloaders corpus Tokenizer get_tokenizer_wordlevel
      get_tokenizer_bpe Tokenizer_from_file Tokenizer_save' encode
      train_test_split sort_length_src_reverse (Some pth)
      dataset_size vocab_size' tokenizer_type' tokenizer_save_pth'
      test_proportion batch_size max_len
  /\ (length corpus < dataset_size -> outcome = Raise IndexError)
  /\ (forall e, dataset_size <= length corpus ->
        Tokenizer_from_file pth = Raise e -> outcome = Raise e)
  /\ (forall tokenizer train test,
        dataset_size <= length corpus ->
        Tokenizer_from_file pth = Ok tokenizer ->
        preprocess_data Tokenizer encode train_test_split sort_length_src_reverse
          (firstn dataset_size corpus) tokenizer max_len test_proportion
        = Ok (train, test) ->
        (1 <= batch_size)%Z ->
        exists train_sampler val_sampler,
          outcome = Ok (DataLoader.Make (TranslationDataset.Make train) train_sampler,
                        DataLoader.Make (TranslationDataset.Make test) val_sampler)
          /\ __init__ (length train) batch_size = Ok train_sampler
          /\ __init__ (length test) batch_size = Ok val_sampler).
Proof.
  intros outcome. subst outcome. unfold get_translation_dataloaders, get_dataset.
  destruct (Nat.leb_spec dataset_size (length corpus)) as [Hle|Hgt];
    cbn -[preprocess_data].
  - split_and!; [done|lia| |].
    + intros e _ ->. done.
    + intros tokenizer train test _ Hfile Hpre Hk. rewrite Hfile.
      cbn -[preprocess_data __init__]. rewrite Hpre. cbn -[__init__].
      rewrite <- (Z2Nat.id batch_size) by lia.
      rewrite !init_spec by lia. cbn. by do 2 eexists.
  - split_and!; [done|done|lia|lia].
Qed.

(** What the code relies on of the datasets library: a split hands back
    the rows it was given, each in one of its two parts, and a sort hands
    back its rows by decreasing length of the source. *)
Hypothesis split_Permutation :
  forall data p train test,
    train_test_split data p = Ok (train, test) -> Permutation (train ++ test) data.
Hypothesis sort_Permutation :
  forall data, Permutation (sort_length_src_reverse data) data.
Hypothesis sort_Sorted :
  forall data,
    StronglySorted (fun r r' => length_src r' <= length_src r)
      (sort_length_src_reverse data).

Lemma preprocess_data_spec data tokenizer max_len p train test :
  preprocess_data Tokenizer encode train_test_split sort_length_src_reverse
    data tokenizer max_len p = Ok (train, test) ->
  Permutation (train ++ test)
    (List.filter (filter_long_sentences max_len)
       (List.map (tokenize Tokenizer encode tokenizer) data))
  /\ StronglySorted (fun r r' => length_src r' <= length_src r) train
  /\ StronglySorted (fun r r' => length_src r' <= length_src r) test.
Proof.
  unfold preprocess_data.
  destruct (train_test_split _ p) as [[train0 test0]|] eqn:Hsplit; cbn; [|done].
  intros [= <- <-]. split_and!; [|apply sort_Sorted|apply sort_Sorted].
  rewrite !sort_Permutation. by eapply split_Permutation.
Qed.

Lemma preprocess_data_rows data tokenizer max_len p train test :
  preprocess_data Tokenizer encode train_test_split sort_length_src_reverse
    data tokenizer max_len p = Ok (train, test) ->
  Forall (fun r =>
    length_src r = length (translation_src r)
    /\ length_trg r = length (translation_trg r)
    /\ length (translation_src r) <= max_len
    /\ length (translation_trg r) <= max_len)
    (train ++ test)
  /\ length train + length test <= length data.
Proof.
  intros (Hperm & _)%preprocess_data_spec. split.
  - rewrite Hperm. apply Forall_forall.
    intros r [Hin Hkeep]%list_elem_of_In%filter_In.
    apply in_map_iff in Hin as (example & <- & _). unfold filter_long_sentences in Hkeep.
    cbn in *. apply andb_prop in Hkeep as [?%Nat.leb_le ?%Nat.leb_le]. done.
  - rewrite <- length_app, Hperm.
    etrans; [apply filter_length_le|]. by rewrite length_map.
Qed.

Lemma init_len_le len_dataset k sampler :
  __init__ len_dataset k = Ok sampler -> __len__ sampler <= len_dataset + 1.
Proof.
  intros Hinit. destruct (init_Ok _ _ _ Hinit) as (n & -> & Hn).
  rename n into k. destruct (decide (k = 0)) as [->|Hk0].
  - pose proof (Hn eq_refl) as ->. rewrite (init_empty 0) in Hinit.
    injection Hinit as <-. cbn. lia.
  - assert (1 <= k) as Hk by lia. rewrite init_spec in Hinit by done.
    injection Hinit as <-. unfold __len__. cbn [batch_of_indices].
    rewrite length_map, length_seq.
    pose proof (ceil_div_spec len_dataset k Hk). nia.
Qed.

(** X6: the two parts [preprocess_data] returns hold, between them, each
    example whose two token sequences are no longer than [max_len], once,
    and no other row; each row carries the two sequences of its example
    together with their lengths; and each part is in the order of
    decreasing source length. *)
Theorem preprocess_data_keeps_the_rows_within_max_len
    (data : list (string * string)) (tokenizer : Tokenizer) (max_len : nat)
    (test_proportion : float) (train test : list row) :
  preprocess_data Tokenizer encode train_test_split sort_length_src_reverse
    data tokenizer max_len test_proportion = Ok (train, test) ->
  Permutation (train ++ test)
    (List.filter
       (fun r => (length (translation_src r) <=? max_len)
                 && (length (translation_trg r) <=? max_len))
       (List.map
          (fun example =>
             Row (encode tokenizer example.1) (encode tokenizer example.2)
               (length (encode tokenizer example.1))
               (length (encode tokenizer example.2)))
          data))
  /\ Forall (fun r =>
       length_src r = length (translation_src r)
       /\ length_trg r = length (translation_trg r)
       /\ length (translation_src r) <= max_len
       /\ length (translation_trg r) <= max_len)
       (train ++ test)
  /\ length train + length test <= length data
  /\ StronglySorted (fun r r' => length_src r' <= length_src r) train
  /\ StronglySorted (fun r r' => length_src r' <= length_src r) test.
Proof.
  intros Hpre. destruct (preprocess_data_spec _ _ _ _ _ _ Hpre) as (Hperm & Hs1 & Hs2).
  destruct (preprocess_data_rows _ _ _ _ _ _ Hpre) as (Hall & Hlen).
  split_and!; try done.
  rewrite Hperm. apply Permutation_refl'.
  apply filter_ext_in. intros r (example & <- & _)%in_map_iff. done.
Qed.

Lemma getitem_samples (rows : list row) (b : list nat) samples :
  mapM (TranslationDataset.__getitem__ (TranslationDataset.Make rows)) b = Ok samples ->
  Forall2 (fun i sample =>
             exists r, rows !! i = Some r
                       /\ sample = (translation_src r, translation_trg r))
    b samples.
Proof.
  revert samples. induction b as [|i b IH]; intros samples; cbn.
  - intros [= <-]. constructor.
  - destruct (rows !! i) as [r|] eqn:Hr.
    + assert (TranslationDataset.__getitem__ (TranslationDataset.Make rows) i
              = Ok (translation_src r, translation_trg r)) as ->
        by (unfold TranslationDataset.__getitem__; cbn; by rewrite Hr).
      cbn. destruct (mapM _ b) as [samples'|]; cbn; [|done].
      intros [= <-]. constructor; [by exists r|by apply IH].
    + assert (TranslationDataset.__getitem__ (TranslationDataset.Make rows) i
              = Raise IndexError) as ->
        by (unfold TranslationDataset.__getitem__; cbn; by rewrite Hr).
      done.
Qed.

Lemma sorted_lookup_le (rows : list row) i j r r' :
  StronglySorted (fun r r' => length_src r' <= length_src r) rows ->
  i <= j -> rows !! i = Some r -> rows !! j = Some r' ->
  length_src r' <= length_src r.
Proof.
  intros Hsorted. revert i j. induction Hsorted as [|r0 rows _ IH Hall];
    intros i j Hij Hi Hj; [by rewrite lookup_nil in Hi|].
  destruct i as [|i], j as [|j]; cbn in *; simplify_eq; [lia| |lia|].
  - rewrite Forall_forall in Hall. apply Hall. by eapply list_elem_of_lookup_2.
  - eapply (IH i j); [lia|done|done].
Qed.

(** What a fetched batch of a loader over rows sorted by decreasing source
    length and no longer than [max_len] is like, when its indices
    increase. *)
Lemma bucket_width (rows : list row) sampler (b : list nat) src trg max_len :
  StronglySorted (fun r r' => length_src r' <= length_src r) rows ->
  Forall (fun r =>
    length_src r = length (translation_src r)
    /\ length (translation_src r) <= max_len
    /\ length (translation_trg r) <= max_len) rows ->
  StronglySorted lt b ->
  DataLoader.fetch (DataLoader.Make (TranslationDataset.Make rows) sampler) b
    = Ok (src, trg) ->
  torch.size1 src <= max_len
  /\ torch.size1 trg <= max_len
  /\ exists i r, head b = Some i /\ rows !! i = Some r
                 /\ torch.size1 src = length (translation_src r).
Proof.
  intros Hsorted Hall Hb Hfetch.
  destruct (fetch_widths _ _ _ _ Hfetch) as (samples & Hs & -> & ->).
  cbn [DataLoader.dataset] in Hs. apply getitem_samples in Hs.
  rewrite Forall_forall in Hall.
  assert (forall r i, rows !! i = Some r ->
            length_src r = length (translation_src r)
            /\ length (translation_src r) <= max_len
            /\ length (translation_trg r) <= max_len) as Hrow.
  { intros r i Hi. apply Hall. by eapply list_elem_of_lookup_2. }
  split_and!.
  - apply max_len_le, List.Forall_map.
    eapply Forall2_Forall_r; [exact Hs|]. apply Forall_forall.
    intros i _ sample (r & Hr & ->). cbn. by apply (Hrow r i).
  - apply max_len_le, List.Forall_map.
    eapply Forall2_Forall_r; [exact Hs|]. apply Forall_forall.
    intros i _ sample (r & Hr & ->). cbn. by apply (Hrow r i).
  - destruct Hs as [|i sample b samples (r & Hr & ->) Hrest].
    { unfold DataLoader.fetch in Hfetch. done. }
    exists i, r. split_and!; [done|done|]. cbn [List.map fst].
    apply max_len_head, List.Forall_map.
    apply StronglySorted_inv in Hb as [_ Hlt].
    eapply Forall2_Forall_r; [exact Hrest|].
    eapply Forall_impl; [exact Hlt|]. cbn.
    intros j Hij sample (r' & Hr' & ->). cbn.
    destruct (Hrow r i Hr) as (<- & _). destruct (Hrow r' j Hr') as (<- & _).
    eapply sorted_lookup_le; [done| |done|done]. lia.
Qed.

(** X7: the loaders [get_translation_dataloaders] returns batch by length:
    the rows of either loader are the examples within [max_len] in the
    order of decreasing source length, the sampler's chunks cut the index
    range in that order, and so a batch that is fetched, after any number
    of shuffles, is no wider than [max_len] on either side and exactly as
    wide on the source side as the source of its first row is long. *)
Theorem loaders_batch_rows_of_similar_length
    (PRETRAIN_TOKENIZER_PT : option string) (dataset_size vocab_size : nat)
    (tokenizer_type tokenizer_save_pth : string) (test_proportion : float)
    (batch_size : Z) (max_len : nat) (train_dl val_dl : DataLoader.t) :
  get_translation_dataloaders corpus Tokenizer get_tokenizer_wordlevel
    get_tokenizer_bpe Tokenizer_from_file Tokenizer_save encode
    train_test_split sort_length_src_reverse PRETRAIN_TOKENIZER_PT
    dataset_size vocab_size tokenizer_type tokenizer_save_pth
    test_proportion batch_size max_len = Ok (train_dl, val_dl) ->
  dataset_size <= length corpus
  /\ DataLoader.__len__ train_dl + DataLoader.__len__ val_dl <= dataset_size + 2
  /\ Forall (fun dl =>
       let rows := TranslationDataset.dataset (DataLoader.dataset dl) in
       StronglySorted (fun r r' => length_src r' <= length_src r) rows
       /\ Forall (fun r => length (translation_src r) <= max_len
                           /\ length (translation_trg r) <= max_len) rows
       /\ concat (batch_of_indices (DataLoader.batch_sampler dl))
          = seq 0 (length rows)
       /\ forall dl' b src trg,
            same_loader dl dl' ->
            b ∈ batch_of_indices (DataLoader.batch_sampler dl') ->
            DataLoader.fetch dl' b = Ok (src, trg) ->
            torch.size1 src <= max_len
            /\ torch.size1 trg <= max_len
            /\ exists i r, head b = Some i /\ rows !! i = Some r
                           /\ torch.size1 src = length (translation_src r))
       [train_dl; val_dl].
Proof.
  unfold get_translation_dataloaders, get_dataset.
  destruct (Nat.leb_spec dataset_size (length corpus)) as [Hle|]; cbn; [|done].
  match goal with |- context [load_local "tokenizer" ?t] => generalize t end.
  intros built.
  match goal with |- (?m ≫= _) = _ -> _ => destruct m as [tokenizer|] end; cbn; [|done].
  destruct (preprocess_data _ _ _ _ _ tokenizer max_len test_proportion)
    as [[train test]|] eqn:Hpre; cbn; [|done].
  unfold TranslationDataset.__len__. cbn.
  destruct (__init__ (length train) batch_size) as [train_sampler|] eqn:Htrain;
    cbn; [|done].
  destruct (__init__ (length test) batch_size) as [val_sampler|] eqn:Hval;
    cbn; [|done].
  intros [= <- <-].
  destruct (preprocess_data_spec _ _ _ _ _ _ Hpre) as (_ & Hs1 & Hs2).
  destruct (preprocess_data_rows _ _ _ _ _ _ Hpre) as (Hall & Hlen).
  apply Forall_app in Hall as [Hall1 Hall2].
  assert (forall rows sampler,
            StronglySorted (fun r r' => length_src r' <= length_src r) rows ->
            Forall (fun r =>
              length_src r = length (translation_src r)
              /\ length_trg r = length (translation_trg r)
              /\ length (translation_src r) <= max_len
              /\ length (translation_trg r) <= max_len) rows ->
            __init__ (length rows) batch_size = Ok sampler ->
            let dl := DataLoader.Make (TranslationDataset.Make rows) sampler in
            StronglySorted (fun r r' => length_src r' <= length_src r) rows
            /\ Forall (fun r => length (translation_src r) <= max_len
                                /\ length (translation_trg r) <= max_len) rows
            /\ concat (batch_of_indices sampler) = seq 0 (length rows)
            /\ forall dl' b src trg,
                 same_loader dl dl' ->
                 b ∈ batch_of_indices (DataLoader.batch_sampler dl') ->
                 DataLoader.fetch dl' b = Ok (src, trg) ->
                 torch.size1 src <= max_len
                 /\ torch.size1 trg <= max_len
                 /\ exists i r, head b = Some i /\ rows !! i = Some r
                                /\ torch.size1 src = length (translation_src r))
    as Hloader.
  { intros rows sampler Hsorted Hall Hinit dl.
    destruct (init_batches _ _ _ Hinit) as (_ & Hconcat & _).
    pose proof (init_chunks_sorted _ _ _ Hinit) as Hchunks.
    split_and!; [done| |done|].
    - eapply Forall_impl; [exact Hall|]. cbn. tauto.
    - intros [ds' sampler'] b src trg [Hds Hperm] Hb Hfetch. cbn in Hds, Hperm, Hb.
      subst ds'. rewrite Hperm in Hb. rewrite Forall_forall in Hchunks.
      eapply (bucket_width rows sampler'); [done| |by apply Hchunks|done].
      eapply Forall_impl; [exact Hall|]. cbn. tauto. }
  split_and!; [done| |].
  - pose proof (init_len_le _ _ _ Htrain). pose proof (init_len_le _ _ _ Hval).
    unfold DataLoader.__len__. cbn. rewrite length_take in Hlen. lia.
  - repeat apply Forall_cons_2; [| |constructor].
    + exact (Hloader train train_sampler Hs1 Hall1 Htrain).
    + exact (Hloader test val_sampler Hs2 Hall2 Hval).
Qed.

End pipeline_further.

Lemma fetch_shape (dl : DataLoader.t) (b : list nat) src trg :
  DataLoader.fetch dl b = Ok (src, trg) ->
  b <> []
  /\ torch.size0 src = length b
  /\ length (torch.rows src) = length b
  /\ length (torch.rows trg) = length b.
Proof.
  unfold DataLoader.fetch.
  destruct (mapM _ b) as [samples|] eqn:Hs; cbn; [|done].
  destruct (mapM_Ok_lookup _ _ _ Hs) as [Hlen _]. intros Hcollate.
  assert (samples <> []) as Hne by (intros ->; done).
  destruct (pad_collate_fn_rows samples Hne)
    as (src' & trg' & E & H0 & _ & Hl & Hl' & _).
  rewrite E in Hcollate. injection Hcollate as <- <-.
  split_and!; try congruence. intros ->. by destruct samples.
Qed.


End dataset_properties.

(** * Properties of [learner.py] *)

Module learner_properties.
Import dataset learner.

Section properties.
Context {Tensor Grad OptState Scheduler Logits : Type}.
Context (model_forward :
  list (string * Tensor) -> bool -> torch.tensor2 -> torch.tensor2 -> Logits).
Context (loss_func : Logits -> list Z -> float).
Context (autograd :
  list (string * Tensor) -> torch.tensor2 -> torch.tensor2 -> Grad).
Context (argmax : Logits -> torch.tensor2).
Context (translate : list (string * Tensor) -> string -> string).
Context (decode : list Z -> string).
Context (str_split : string -> list string).
Context (corpus_bleu : list (list (list string)) -> list (list string) -> float).
Context (optimizer_update : OptState -> list Grad -> loc -> Tensor -> Tensor).
Context (optimizer_advance : OptState -> list Grad -> OptState).
Context (scheduler_advance : Scheduler -> OptState -> Scheduler * OptState).

Local Abbreviation state := (@learner.state Tensor Grad OptState Scheduler).
Local Abbreviation M := (@learner.M Tensor Grad OptState Scheduler).
Local Abbreviation track_rows := (@learner.track_rows _ Grad OptState Scheduler translate decode).
Local Abbreviation track_split := (@learner.track_split _ Grad OptState Scheduler translate decode).
Local Abbreviation track_example := (@learner.track_example _ Grad OptState Scheduler translate decode).
Local Abbreviation validation_batch :=
  (@learner.validation_batch _ Grad OptState Scheduler _ model_forward loss_func argmax decode str_split).
Local Abbreviation validation_epoch :=
  (@learner.validation_epoch _ Grad OptState Scheduler _ model_forward loss_func argmax decode
     str_split corpus_bleu).
Local Abbreviation training_batch :=
  (learner.training_batch model_forward loss_func autograd optimizer_update
     optimizer_advance scheduler_advance).
Local Abbreviation training_loop :=
  (learner.training_loop model_forward loss_func autograd optimizer_update
     optimizer_advance scheduler_advance).
Local Abbreviation training_epoch :=
  (learner.training_epoch model_forward loss_func autograd optimizer_update
     optimizer_advance scheduler_advance).
Local Abbreviation epoch_body :=
  (learner.epoch_body model_forward loss_func autograd argmax translate decode
     str_split corpus_bleu optimizer_update optimizer_advance scheduler_advance).
Local Abbreviation for_epochs :=
  (learner.for_epochs model_forward loss_func autograd argmax translate decode
     str_split corpus_bleu optimizer_update optimizer_advance scheduler_advance).
Local Abbreviation fit :=
  (learner.fit model_forward loss_func autograd argmax translate decode
     str_split corpus_bleu optimizer_update optimizer_advance scheduler_advance).
Local Abbreviation optimizer_step_ :=
  (@learner.optimizer_step_ _ _ _ Scheduler optimizer_update optimizer_advance).
Local Abbreviation scheduler_step_ :=
  (@learner.scheduler_step_ Tensor Grad _ _ scheduler_advance).

(** ** Relations every method respects *)

Section respects.
Context (R : relation state) `{!PreOrder R}.

Lemma respects_ret {A} (a : A) : respects R (ret a).
Proof. intros s. reflexivity. Qed.

Lemma respects_raise {A} e : respects R (raise (A := A) e).
Proof. intros s. reflexivity. Qed.

Lemma respects_lift {A} (r : result A) : respects R (lift r).
Proof. intros s. reflexivity. Qed.

Lemma respects_get {A} (f : state -> A) : respects R (get f).
Proof. intros s. reflexivity. Qed.

Lemma respects_modify f : (forall s, R s (f s)) -> respects R (modify f).
Proof. intros Hf s. apply Hf. Qed.

Lemma respects_bind {A B} (m : M A) (k : A -> M B) :
  respects R m -> (forall a, respects R (k a)) -> respects R (bind m k).
Proof.
  intros Hm Hk s. unfold bind. specialize (Hm s).
  destruct (m s) as [[a|e] s1]; cbn in *; [|done].
  etrans; [exact Hm|apply Hk].
Qed.

Lemma respects_fetch which indices : respects R (fetch which indices).
Proof. intros s. reflexivity. Qed.

Lemma respects_for_batches {A} which
    (body : nat -> torch.tensor2 * torch.tensor2 -> A -> M A) idx batches acc :
  (forall idx batch acc, respects R (body idx batch acc)) ->
  respects R (for_batches which body idx batches acc).
Proof.
  intros Hbody. revert idx acc.
  induction batches as [|indices batches IH]; intros idx acc; cbn [for_batches].
  - apply respects_ret.
  - apply respects_bind; [apply respects_fetch|]. intros batch.
    apply respects_bind; [apply Hbody|]. intros acc'. apply IH.
Qed.

End respects.

Local Abbreviation steps := (steps optimizer_update optimizer_advance scheduler_advance).
Local Abbreviation prim := (prim optimizer_update optimizer_advance scheduler_advance).

Lemma respects_incl (R R' : relation state) {A} (m : M A) :
  (forall s s', R s s' -> R' s s') -> respects R m -> respects R' m.
Proof. intros HR Hm s. apply HR, Hm. Qed.

Lemma step_once ks k s s' : k ∈ ks -> prim k s s' -> steps ks s s'.
Proof. intros Hk Hp. apply rtc_once. by exists k. Qed.

Lemma steps_mono ks ks' s s' : ks ⊆ ks' -> steps ks s s' -> steps ks' s s'.
Proof.
  intros Hsub. apply rtc_subrel. intros x y (k & Hk & Hp).
  exists k. split; [by apply Hsub|done].
Qed.

(** A preorder that holds of every change of the kinds [ks] holds of every
    run of such changes. *)
Lemma steps_within ks (R : relation state) `{!PreOrder R} s s' :
  (forall k s s', k ∈ ks -> prim k s s' -> R s s') -> steps ks s s' -> R s s'.
Proof.
  intros HR Hsteps. induction Hsteps as [|s s1 s' (k & Hk & Hp) _ IH]; [done|].
  etrans; [by eapply HR|exact IH].
Qed.

Ltac kinds :=
  first [ done
        | rewrite list_elem_of_In; cbn; tauto
        | intros ?; rewrite !list_elem_of_In; cbn; tauto ].

Tactic Notation "step_by" uconstr(lem) :=
  eapply step_once; last (by eapply lem); kinds.

Section ops.
Context (ks : list kind).

Lemma respects_log_then {A} data (k : M A) :
  Log ∈ ks -> respects (steps ks) k ->
  respects (steps ks)
    (bind (log data) (fun _ =>
       bind (modify (fun s => set_global_step (global_step s + 1)%Z s))
         (fun _ => k))).
Proof.
  intros Hin Hk s. unfold bind, log, get, emit, modify. cbn.
  etrans; [|apply Hk]. step_by prim_log.
Qed.

Lemma respects_log_end data :
  Log ∈ ks ->
  respects (steps ks)
    (bind (log data) (fun _ =>
       modify (fun s => set_global_step (global_step s + 1)%Z s))).
Proof.
  intros Hin s. unfold bind, log, get, emit, modify. cbn.
  step_by prim_log.
Qed.

Lemma respects_iter which : Mode ∈ ks -> respects (steps ks) (iter_ which).
Proof. intros Hin s. step_by prim_iter. Qed.

Lemma respects_next_iter which :
  Mode ∈ ks -> respects (steps ks) (next_iter which).
Proof.
  intros Hin. apply respects_bind; [apply _|by apply respects_iter|].
  intros [|indices batches]; [apply respects_raise|apply respects_fetch]; apply _.
Qed.

Lemma respects_table_add_data r :
  Track ∈ ks -> respects (steps ks) (table_add_data r).
Proof.
  intros Hin s. unfold table_add_data.
  destruct (table s) as [rows|] eqn:Ht; cbn; [|done].
  step_by prim_row.
Qed.

Lemma respects_track_rows epoch num_examples data encoder_input decoder_input idxs :
  Track ∈ ks ->
  respects (steps ks)
    (track_rows epoch num_examples data encoder_input decoder_input idxs).
Proof.
  intros Hin. induction idxs as [|i idxs IH]; cbn [learner.track_rows].
  - apply respects_ret; apply _.
  - destruct (Z.of_nat i =? num_examples)%Z; [apply respects_ret; apply _|].
    apply respects_bind; [apply _|apply respects_lift; apply _|]. intros src_ids.
    apply respects_bind; [apply _|apply respects_lift; apply _|]. intros trg_ids.
    apply respects_bind; [apply _|apply respects_get; apply _|]. intros params.
    apply respects_bind; [apply _|by apply respects_table_add_data|]. intros _.
    exact IH.
Qed.

Lemma respects_track_split epoch num_examples which data :
  Mode ∈ ks -> Track ∈ ks ->
  respects (steps ks) (track_split epoch num_examples which data).
Proof.
  intros Hmode Htrack. apply respects_bind; [apply _|by apply respects_next_iter|].
  intros [encoder_input decoder_input]. by apply respects_track_rows.
Qed.

Lemma respects_track_example epoch num_examples :
  Mode ∈ ks -> Track ∈ ks ->
  respects (steps ks) (track_example epoch num_examples).
Proof.
  intros Hmode Htrack. apply respects_bind; [apply _| |].
  - apply respects_modify. intros s. step_by prim_mode.
  - intros _. apply respects_bind; [apply _|by apply respects_track_split|].
    intros _. by apply respects_track_split.
Qed.

Lemma respects_validation_batch epoch batch_idx batch acc :
  Log ∈ ks -> respects (steps ks) (validation_batch epoch batch_idx batch acc).
Proof.
  intros Hlog. destruct acc as [[loss_sum predict_text_list] target_text_list].
  destruct batch as [encoder_input decoder_input]. cbn [learner.validation_batch].
  apply respects_bind; [apply _|apply respects_get; apply _|]. intros params.
  apply respects_bind; [apply _|apply respects_get; apply _|]. intros mode.
  apply respects_log_then; [done|].
  apply respects_bind; [apply _|apply respects_lift; apply _|]. intros predict_text.
  apply respects_bind; [apply _|apply respects_lift; apply _|]. intros target_text.
  apply respects_ret; apply _.
Qed.

Lemma respects_validation_epoch epoch :
  Mode ∈ ks -> Log ∈ ks -> respects (steps ks) (validation_epoch epoch).
Proof.
  intros Hmode Hlog. apply respects_bind; [apply _| |].
  { apply respects_modify. intros s. step_by prim_mode. }
  intros _. apply respects_bind; [apply _|by apply respects_iter|]. intros batches.
  apply respects_bind; [apply _| |].
  { apply respects_for_batches; [apply _|]. intros. by apply respects_validation_batch. }
  intros [[loss_sum predict_text_list] target_text_list].
  apply respects_bind; [apply _|apply respects_get; apply _|]. intros n.
  apply respects_bind; [apply _|apply respects_lift; apply _|]. intros loss_avg.
  by apply respects_log_end.
Qed.

Lemma respects_training_batch epoch batch_idx batch loss_sum :
  Log ∈ ks -> Step ∈ ks ->
  respects (steps ks) (training_batch epoch batch_idx batch loss_sum).
Proof.
  intros Hlog Hstep. destruct batch as [encoder_input decoder_input].
  cbn [learner.training_batch].
  apply respects_bind; [apply _|apply respects_get; apply _|]. intros params.
  apply respects_bind; [apply _|apply respects_get; apply _|]. intros mode.
  apply respects_bind; [apply _| |].
  { intros s. step_by prim_backward. }
  intros _. apply respects_bind; [apply _|apply respects_get; apply _|]. intros ts.
  apply respects_bind; [apply _|apply respects_get; apply _|]. intros n.
  apply respects_bind; [apply _|apply respects_lift; apply _|]. intros r.
  apply respects_bind; [apply _| |].
  { destruct (r =? 0)%Z; [|apply respects_ret; apply _].
    apply respects_bind; [apply _| |].
    { intros s. step_by prim_optimizer_step. }
    intros _. apply respects_bind; [apply _|apply respects_get; apply _|].
    intros sch. apply respects_bind; [apply _| |].
    { destruct sch as [sch|]; [|apply respects_ret; apply _].
      intros s. step_by prim_scheduler_step. }
    intros _ s. step_by prim_zero_grad. }
  intros _. apply respects_log_then; [done|].
  apply respects_bind; [apply _| |].
  { apply respects_modify. intros s. step_by prim_training_step. }
  intros _. apply respects_ret; apply _.
Qed.

Lemma respects_training_loop epoch :
  Mode ∈ ks -> Log ∈ ks -> Step ∈ ks ->
  respects (steps ks) (training_loop epoch).
Proof.
  intros Hmode Hlog Hstep. apply respects_bind; [apply _| |].
  { apply respects_modify. intros s. step_by prim_mode. }
  intros _. apply respects_bind; [apply _|by apply respects_iter|]. intros batches.
  apply respects_bind; [apply _| |].
  { apply respects_for_batches; [apply _|]. intros. by apply respects_training_batch. }
  intros loss_sum.
  apply respects_bind; [apply _|apply respects_get; apply _|]. intros n.
  apply respects_lift; apply _.
Qed.

Lemma respects_training_summary epoch loss_avg :
  Log ∈ ks -> Save ∈ ks ->
  respects (steps ks) (training_summary (Tensor := Tensor) epoch loss_avg).
Proof.
  intros Hlog Hsave.
  apply respects_log_then; [done|].
  apply respects_bind; [apply _|apply respects_get; apply _|]. intros cnt.
  apply respects_bind; [apply _|apply respects_lift; apply _|]. intros r.
  apply respects_bind; [apply _| |].
  { destruct (r =? 0)%Z; [|apply respects_ret; apply _].
    intros s. step_by prim_checkpoint. }
  intros _ s. step_by prim_save_best.
Qed.

Lemma respects_training_epoch epoch :
  Mode ∈ ks -> Log ∈ ks -> Step ∈ ks -> Save ∈ ks ->
  respects (steps ks) (training_epoch epoch).
Proof.
  intros Hmode Hlog Hstep Hsave.
  apply respects_bind; [apply _|by apply respects_training_loop|]. intros loss_avg.
  by apply respects_training_summary.
Qed.

End ops.

Lemma respects_epoch_body epoch_idx :
  respects (steps [Mode; Track; Log; Step; Save]) (epoch_body epoch_idx).
Proof.
  apply respects_bind; [apply _| |].
  { apply respects_track_example; kinds. }
  intros _. apply respects_bind; [apply _| |].
  { apply respects_validation_epoch; kinds. }
  intros _. apply respects_training_epoch; kinds.
Qed.

Lemma respects_for_epochs epochs :
  respects (steps [Mode; Track; Log; Step; Save]) (for_epochs epochs).
Proof.
  induction epochs as [|epoch_idx epochs IH]; cbn [learner.for_epochs].
  - apply respects_ret; apply _.
  - apply respects_bind; [apply _|apply respects_epoch_body|]. intros _. exact IH.
Qed.

Lemma respects_fit start_epoch n_epochs :
  respects (steps [Mode; Track; Log; Step; Save; Flush]) (fit start_epoch n_epochs).
Proof.
  apply respects_bind; [apply _| |].
  { apply respects_modify. intros s. step_by prim_new_table. }
  intros _. apply respects_bind; [apply _| |].
  { eapply respects_incl; [|apply respects_for_epochs].
    intros s s'. apply steps_mono. kinds. }
  intros _ s.
  unfold bind, get. cbn. destruct (table s) as [rows|] eqn:Ht; cbn; [|done].
  step_by prim_flush.
Qed.

Lemma track_example_steps epoch num_examples (s : state) :
  steps [Mode; Track] s (track_example epoch num_examples s).2.
Proof. apply respects_track_example; kinds. Qed.

Lemma validation_epoch_steps epoch (s : state) :
  steps [Mode; Log] s (validation_epoch epoch s).2.
Proof. apply respects_validation_epoch; kinds. Qed.

Lemma training_epoch_steps epoch (s : state) :
  steps [Mode; Log; Step; Save] s (training_epoch epoch s).2.
Proof. apply respects_training_epoch; kinds. Qed.

(** ** The data loaders *)

Lemma iter_spec which (s : state) :
  exists dl g,
    iter_ which s =
      (Ok (CustomBatchSampler.batch_of_indices (DataLoader.batch_sampler dl)),
       set_generator g
         match which with
         | Train => set_train_dataloader dl s
         | Validation => set_val_dataloader dl s
         end)
    /\ DataLoader.dataset dl = DataLoader.dataset (dataloader which s)
    /\ Permutation
         (CustomBatchSampler.batch_of_indices (DataLoader.batch_sampler dl))
         (CustomBatchSampler.batch_of_indices
            (DataLoader.batch_sampler (dataloader which s))).
Proof.
  unfold iter_, DataLoader.__iter__.
  pose proof (dataset_properties.pass_spec
                (DataLoader.batch_sampler (dataloader which s)) (generator s))
    as Hpass.
  destruct (CustomBatchSampler.pass _ _) as [[batches sampler] g].
  destruct Hpass as (-> & Hperm & _).
  by exists (DataLoader.Make (DataLoader.dataset (dataloader which s)) sampler), g.
Qed.

Lemma shuffled_len (dl dl' : DataLoader.t) :
  Permutation
    (CustomBatchSampler.batch_of_indices (DataLoader.batch_sampler dl'))
    (CustomBatchSampler.batch_of_indices (DataLoader.batch_sampler dl)) ->
  DataLoader.__len__ dl' = DataLoader.__len__ dl.
Proof.
  intros Hperm. unfold DataLoader.__len__, CustomBatchSampler.__len__.
  by rewrite Hperm.
Qed.

(** ** [global_step] and the records logged *)

#[local] Instance logs_since_preorder : PreOrder (@logs_since Tensor Grad OptState Scheduler).
Proof.
  split.
  - intros s. split; [lia|]. exists []. rewrite app_nil_r, Z.sub_diag. done.
  - intros s1 s2 s3 (Hle1 & new1 & Ht1 & Hl1) (Hle2 & new2 & Ht2 & Hl2).
    split; [lia|]. exists (new1 ++ new2). split.
    + by rewrite Ht2, Ht1, <- app_assoc.
    + unfold logged_steps in *. rewrite omap_app, Hl1, Hl2.
      replace (global_step s3 - global_step s1)%Z
        with ((global_step s2 - global_step s1)
              + (global_step s3 - global_step s2))%Z by lia.
      rewrite seqZ_app by lia. do 3 f_equal. lia.
Qed.

Lemma logs_since_quiet (s s' : state) new :
  global_step s' = global_step s ->
  trace s' = trace s ++ new ->
  logged_steps new = [] ->
  logs_since s s'.
Proof.
  intros Hg Ht Hl. split; [lia|]. exists new. split; [done|].
  by rewrite Hl, Hg, Z.sub_diag.
Qed.

Lemma prim_logs_since k (s s' : state) : prim k s s' -> logs_since s s'.
Proof.
  destruct 1 as [b s|which s|r rows s Ht|data s|epoch batch_idx g s|s|sch s|s|s
                 |epoch loss_avg s|loss_avg s|s|rows s Ht].
  - by apply (logs_since_quiet _ _ []); rewrite ?app_nil_r.
  - destruct (iter_spec which s) as (dl & g & -> & _).
    by apply (logs_since_quiet _ _ []); destruct which; rewrite ?app_nil_r.
  - by apply (logs_since_quiet _ _ []); rewrite ?app_nil_r.
  - split; [cbn; lia|]. exists [wandb_log data (global_step s)]. split; [done|].
    cbn. replace (global_step s + 1 - global_step s)%Z with 1%Z by lia. done.
  - by apply (logs_since_quiet _ _ [loss_backward epoch batch_idx]).
  - by eapply (logs_since_quiet _ _ [_]).
  - unfold learner.scheduler_step_, bind, modify, emit. cbn.
    destruct (scheduler_advance sch (optimizer s)).
    by apply (logs_since_quiet _ _ [scheduler_step]).
  - by apply (logs_since_quiet _ _ [optimizer_zero_grad]).
  - by apply (logs_since_quiet _ _ []); rewrite ?app_nil_r.
  - by apply (logs_since_quiet _ _ [checkpointSaver epoch loss_avg]).
  - unfold save_best, bind, get, modify. cbn.
    destruct (loss_avg <? best_val_loss s)%float; cbn.
    + destruct (deepcopy_from [] (model s) (tensors s)).
      by apply (logs_since_quiet _ _ []); rewrite ?app_nil_r.
    + by apply (logs_since_quiet _ _ []); rewrite ?app_nil_r.
  - by apply (logs_since_quiet _ _ []); rewrite ?app_nil_r.
  - by apply (logs_since_quiet _ _ [wandb_log_table "Tracking" rows]).
Qed.

Lemma steps_logs_since ks (s s' : state) : steps ks s s' -> logs_since s s'.
Proof. apply steps_within; [apply _|]. intros k s1 s2 _. apply prim_logs_since. Qed.

(** ** One training batch *)

Lemma for_batches_cons {A} which
    (body : nat -> torch.tensor2 * torch.tensor2 -> A -> M A)
    idx indices batches acc (s : state) :
  for_batches which body idx (indices :: batches) acc s =
    match DataLoader.fetch (dataloader which s) indices with
    | Ok batch =>
        match body idx batch acc s with
        | (Ok acc, s) => for_batches which body (S idx) batches acc s
        | (Raise e, s) => (Raise e, s)
        end
    | Raise e => (Raise e, s)
    end.
Proof.
  cbn [for_batches]. unfold bind at 1. unfold fetch.
  destruct (DataLoader.fetch _ _); [|done]. unfold bind. by destruct (body _ _ _ _).
Qed.

(** What a training batch does when the accumulation factor is not zero. *)
Lemma training_batch_ok epoch batch_idx batch loss_sum (s : state) :
  GRAD_ACCUMULATION_STEPS (config s) <> 0%Z ->
  let due := (training_step s mod GRAD_ACCUMULATION_STEPS (config s) =? 0)%Z in
  let params := read (tensors s) (model s) in
  let loss :=
    loss_func (model_forward params (training s) batch.1 batch.2)
      (shift_right batch.2) in
  exists s',
    training_batch epoch batch_idx batch loss_sum s = (Ok (loss_sum + loss)%float, s')
    /\ training_step s' = (training_step s + 1)%Z
    /\ global_step s' = (global_step s + 1)%Z
    /\ trace s' =
         trace s ++ [loss_backward epoch batch_idx]
         ++ (if due then
               [optimizer_step
                  (List.map (fun p => (of_epoch p, of_batch_idx p)) (grad s)
                   ++ [(epoch, batch_idx)])]
               ++ (if scheduler s is Some _ then [scheduler_step] else [])
               ++ [optimizer_zero_grad]
             else [])
         ++ [wandb_log [("Epoch", Int epoch); ("Batch", Int (Z.of_nat batch_idx));
                        ("Train/Loss", Float loss)] (global_step s)]
    /\ grad s' =
         (if due then []
          else grad s ++ [Pending epoch batch_idx (autograd params batch.1 batch.2)])
    /\ (due = false ->
          tensors s' = tensors s /\ optimizer s' = optimizer s
          /\ scheduler s' = scheduler s)
    /\ config s' = config s /\ model s' = model s
    /\ train_dataloader s' = train_dataloader s
    /\ val_dataloader s' = val_dataloader s
    /\ table s' = table s /\ training s' = training s
    /\ best_val_loss s' = best_val_loss s
    /\ best_model_state_dict s' = best_model_state_dict s.
Proof.
  intros Hg due params loss. subst due params loss.
  destruct batch as [encoder_input decoder_input].
  unfold learner.training_batch, bind, parameters, get, backward, emit, modify,
    lift, mod_, log, ret.
  cbn -[Z.modulo Z.eqb Z.add read].
  destruct (Z.eqb_spec (GRAD_ACCUMULATION_STEPS (config s)) 0) as [|_]; [done|].
  cbn -[Z.modulo Z.eqb Z.add read].
  destruct (training_step s mod GRAD_ACCUMULATION_STEPS (config s) =? 0)%Z.
  - unfold learner.optimizer_step_, learner.scheduler_step_, zero_grad, bind, modify,
      get, emit.
    cbn -[Z.modulo Z.eqb Z.add read].
    destruct (scheduler s) as [sch|]; cbn -[Z.modulo Z.eqb Z.add read].
    + destruct (scheduler_advance sch _) as [sch' opt'].
      cbn -[Z.modulo Z.eqb Z.add read].
      eexists. split; [reflexivity|]. cbn -[Z.modulo Z.eqb Z.add read].
      rewrite List.map_app, <- !app_assoc. cbn. split_and!; try done.
    + eexists. split; [reflexivity|]. cbn -[Z.modulo Z.eqb Z.add read].
      rewrite List.map_app, <- !app_assoc. cbn. split_and!; try done.
  - eexists. split; [reflexivity|]. cbn -[Z.modulo Z.eqb Z.add read].
    rewrite <- !app_assoc. cbn. split_and!; try done.
Qed.

(** With an accumulation factor of zero the batch stops at the remainder,
    after its backward pass. *)
Lemma training_batch_zero epoch batch_idx batch loss_sum (s : state) :
  GRAD_ACCUMULATION_STEPS (config s) = 0%Z ->
  training_batch epoch batch_idx batch loss_sum s =
    (Raise ZeroDivisionError,
     (backward epoch batch_idx
        (autograd (read (tensors s) (model s)) batch.1 batch.2) s).2).
Proof.
  intros Hg. destruct batch as [encoder_input decoder_input].
  unfold learner.training_batch, bind, parameters, get, backward, emit, modify,
    lift, mod_, log, ret.
  cbn -[Z.modulo Z.eqb Z.add read]. rewrite Hg. reflexivity.
Qed.

(** C2: a batch of a training epoch, with an accumulation factor other
    than zero, always completes, advancing [training_step] and
    [global_step] by one each; and after its backward pass it makes the
    optimizer step, the scheduler step when there is a scheduler, and the
    gradient reset, in this order, if [training_step] is a multiple of the
    factor, and none of the three otherwise. *)
Theorem optimizer_steps_on_multiples_of_the_factor
    epoch batch_idx batch loss_sum (s : state) :
  GRAD_ACCUMULATION_STEPS (config s) <> 0%Z ->
  exists loss_sum' s' before logged,
    training_batch epoch batch_idx batch loss_sum s = (Ok loss_sum', s')
    /\ training_step s' = (training_step s + 1)%Z
    /\ global_step s' = (global_step s + 1)%Z
    /\ trace s' =
         trace s ++ [loss_backward epoch batch_idx] ++ before
         ++ [wandb_log logged (global_step s)]
    /\ ((GRAD_ACCUMULATION_STEPS (config s) | training_step s)%Z ->
          before =
            [optimizer_step
               (List.map (fun p => (of_epoch p, of_batch_idx p)) (grad s)
                ++ [(epoch, batch_idx)])]
            ++ (if scheduler s is Some _ then [scheduler_step] else [])
            ++ [optimizer_zero_grad]
          /\ grad s' = [])
    /\ (~ (GRAD_ACCUMULATION_STEPS (config s) | training_step s)%Z ->
          before = []
          /\ length (grad s') = S (length (grad s))
          /\ tensors s' = tensors s
          /\ optimizer s' = optimizer s
          /\ scheduler s' = scheduler s).
Proof.
  intros Hg.
  destruct (training_batch_ok epoch batch_idx batch loss_sum s Hg)
    as (s' & Hrun & Hts & Hgs & Htrace & Hgrad & Hquiet & _).
  pose proof (Z.mod_divide (training_step s) _ Hg) as Hdiv.
  destruct (Z.eqb_spec (training_step s mod GRAD_ACCUMULATION_STEPS (config s)) 0)
    as [Hz|Hnz];
    (do 4 eexists; split; [exact Hrun|]; split; [done|]; split; [done|];
     split; [exact Htrace|]).
  - split; [done|]. intros Hn. destruct Hn. by apply Hdiv.
  - split; [intros Hd%Hdiv; done|]. intros _.
    rewrite Hgrad, length_app. cbn. destruct (Hquiet eq_refl) as (? & ? & ?).
    split_and!; try done. lia.
Qed.

(** ** Counting the batches of a pass *)

(** What a validation batch does to the learner, whether it completes or
    stops at the decoding of its predictions. *)
Lemma validation_batch_ok epoch batch_idx batch acc (s : state) :
  exists outcome data,
    validation_batch epoch batch_idx batch acc s =
      (outcome,
       set_global_step (global_step s + 1)%Z
         (set_trace (trace s ++ [wandb_log data (global_step s)]) s)).
Proof.
  destruct acc as [[loss_sum predict_text_list] target_text_list].
  destruct batch as [encoder_input decoder_input].
  unfold learner.validation_batch, bind, parameters, get, log, emit, modify, ret, lift.
  cbn -[Z.add read decode_batch torch.squeeze_last].
  destruct (decode_batch _ (torch.squeeze_last _)); cbn -[Z.add read];
    do 2 eexists; reflexivity.
Qed.

Lemma validation_loop_ok epoch idx batches acc acc' (s s' : state) :
  for_batches Validation (validation_batch epoch) idx batches acc s = (Ok acc', s') ->
  global_step s' = (global_step s + Z.of_nat (length batches))%Z
  /\ val_dataloader s' = val_dataloader s
  /\ train_dataloader s' = train_dataloader s.
Proof.
  revert idx acc s. induction batches as [|indices batches IH]; intros idx acc s.
  - cbn. intros [= _ <-]. split_and!; [lia|done|done].
  - rewrite for_batches_cons.
    destruct (DataLoader.fetch _ _) as [batch|e]; [|done].
    destruct (validation_batch_ok epoch idx batch acc s) as ([acc1|e] & data & ->);
      [|done].
    intros (Hg & Hv & Ht)%IH. cbn in *. split_and!; [lia|done|done].
Qed.

Lemma training_loop_ok epoch idx batches loss_sum loss_sum' (s s' : state) :
  for_batches Train (training_batch epoch) idx batches loss_sum s
    = (Ok loss_sum', s') ->
  global_step s' = (global_step s + Z.of_nat (length batches))%Z
  /\ training_step s' = (training_step s + Z.of_nat (length batches))%Z
  /\ val_dataloader s' = val_dataloader s
  /\ train_dataloader s' = train_dataloader s
  /\ config s' = config s.
Proof.
  revert idx loss_sum s. induction batches as [|indices batches IH];
    intros idx loss_sum s.
  - cbn. intros [= _ <-]. split_and!; try done; lia.
  - rewrite for_batches_cons.
    destruct (DataLoader.fetch _ _) as [batch|e]; [|done].
    destruct (Z.eq_dec (GRAD_ACCUMULATION_STEPS (config s)) 0%Z) as [Hz|Hnz].
    { by rewrite training_batch_zero. }
    destruct (training_batch_ok epoch idx batch loss_sum s Hnz)
      as (s1 & -> & Hts & Hgs & _ & _ & _ & Hc & _ & Ht & Hv & _).
    intros (Hg' & Hts' & Hv' & Ht' & Hc')%IH.
    rewrite Hg', Hts', Hv', Ht', Hc', Hts, Hgs, Hc, Ht, Hv. cbn [length].
    split_and!; try done; lia.
Qed.

(** ** What every change leaves alone *)

#[local] Instance keeps_preorder {A} (f : state -> A) : PreOrder (keeps f).
Proof. split; [done|]. intros s1 s2 s3 H1 H2. unfold keeps in *. congruence. Qed.

#[local] Instance same_loader_preorder : PreOrder same_loader.
Proof.
  split; [done|]. intros d1 d2 d3 [H1 P1] [H2 P2]. split; [congruence|].
  by rewrite P2.
Qed.

#[local] Instance same_data_preorder : PreOrder (@same_data Tensor Grad OptState Scheduler).
Proof.
  split; [done|]. intros s1 s2 s3 (C1 & M1 & T1 & V1) (C2 & M2 & T2 & V2).
  split_and!; [congruence|congruence|by etrans|by etrans].
Qed.

Lemma same_loader_len dl dl' :
  same_loader dl dl' -> DataLoader.__len__ dl' = DataLoader.__len__ dl.
Proof. intros [_ Hperm]. by apply shuffled_len. Qed.

(** The state each change leads to, spelled out. *)
Lemma prim_inv k (s s' : state) :
  prim k s s' ->
  match k with
  | Mode =>
      (exists b, s' = set_training b s)
      \/ (exists dl g, same_loader (train_dataloader s) dl
                       /\ s' = set_generator g (set_train_dataloader dl s))
      \/ (exists dl g, same_loader (val_dataloader s) dl
                       /\ s' = set_generator g (set_val_dataloader dl s))
  | Track => exists rows r, table s = Some rows /\ s' = set_table (Some (rows ++ [r])) s
  | Log =>
      exists data,
        s' = set_global_step (global_step s + 1)%Z
               (set_trace (trace s ++ [wandb_log data (global_step s)]) s)
  | Step =>
      (exists epoch batch_idx g,
          s' = set_grad (grad s ++ [Pending epoch batch_idx g])
                 (set_trace (trace s ++ [loss_backward epoch batch_idx]) s))
      \/ (exists st opt,
            next st = next (tensors s)
            /\ (forall l, l ∉ locs (model s) -> contents st l = contents (tensors s) l)
            /\ s' = set_trace
                      (trace s ++
                       [optimizer_step
                          (List.map (fun p => (of_epoch p, of_batch_idx p)) (grad s))])
                      (set_optimizer opt (set_tensors st s)))
      \/ (exists sch opt,
            s' = set_trace (trace s ++ [scheduler_step])
                   (set_optimizer opt (set_scheduler (Some sch) s)))
      \/ s' = set_trace (trace s ++ [optimizer_zero_grad]) (set_grad [] s)
      \/ s' = set_training_step (training_step s + 1)%Z s
  | Save =>
      (exists epoch loss_avg,
          s' = set_trace (trace s ++ [checkpointSaver epoch loss_avg]) s)
      \/ s' = s
      \/ (exists loss_avg,
            (loss_avg <? best_val_loss s)%float = true
            /\ s' = set_best_model_state_dict (deepcopy (model s) (tensors s)).1
                      (set_tensors (deepcopy (model s) (tensors s)).2
                         (set_best_val_loss loss_avg s)))
  | Flush =>
      s' = set_table (Some []) s
      \/ (exists rows, table s = Some rows
            /\ s' = set_trace (trace s ++ [wandb_log_table "Tracking" rows]) s)
  end.
Proof.
  destruct 1 as [b s|which s|r rows s Ht|data s|epoch batch_idx g s|s|sch s|s|s
                 |epoch loss_avg s|loss_avg s|s|rows s Ht].
  - left. by exists b.
  - destruct (iter_spec which s) as (dl & g & -> & Hd & Hp).
    destruct which; [right; left|right; right]; by exists dl, g.
  - by exists rows, r.
  - by exists data.
  - left. by exists epoch, batch_idx, g.
  - right; left. do 2 eexists. split_and!; [| |reflexivity]; [done|].
    intros l Hl. cbn. rewrite bool_decide_eq_false_2; [done|].
    intros Hin. apply Hl. unfold locs.
    by apply list_elem_of_fmap in Hin as (p & -> & Hp); apply list_elem_of_fmap_2.
  - right; right; left. unfold learner.scheduler_step_, bind, modify, emit. cbn.
    destruct (scheduler_advance sch (optimizer s)) as [sch' opt']. by exists sch', opt'.
  - by right; right; right; left.
  - by right; right; right; right.
  - left. by exists epoch, loss_avg.
  - unfold save_best, bind, get, modify. cbn.
    destruct (loss_avg <? best_val_loss s)%float eqn:Hlt; cbn; [|by right; left].
    right; right. exists loss_avg. split; [done|]. unfold deepcopy, state_dict.
    by destruct (deepcopy_from [] (model s) (tensors s)).
  - by left.
  - right. by exists rows.
Qed.

Lemma prim_same_data k (s s' : state) : prim k s s' -> same_data s s'.
Proof.
  intros Hp%prim_inv. destruct k;
    repeat match goal with
           | H : _ \/ _ |- _ => destruct H
           | H : ex _ |- _ => destruct H
           | H : _ /\ _ |- _ => destruct H
           end; subst; unfold same_data; cbn; by split_and!.
Qed.

Lemma steps_same_data ks (s s' : state) : steps ks s s' -> same_data s s'.
Proof. apply steps_within; [apply _|]. intros k s1 s2 _. apply prim_same_data. Qed.

(** Example tracking changes the mode, the order of the batches, the
    generator and the table, and nothing else. *)
Lemma tracking_keeps_learning (s s' : state) :
  steps [Mode; Track] s s' -> learning s' = learning s.
Proof.
  apply (steps_within _ (keeps learning)).
  intros k s1 s2 Hk Hp%prim_inv. unfold keeps.
  apply list_elem_of_In in Hk. destruct Hk as [<-|[<-|[]]];
    repeat match goal with
           | H : _ \/ _ |- _ => destruct H
           | H : ex _ |- _ => destruct H
           | H : _ /\ _ |- _ => destruct H
           end; by subst.
Qed.

(** ** Whole epochs *)

Lemma bind_ok {A B} (m : M A) (k : A -> M B) (s s' : state) b :
  bind m k s = (Ok b, s') ->
  exists a s1, m s = (Ok a, s1) /\ k a s1 = (Ok b, s').
Proof.
  unfold bind. destruct (m s) as [[a|e] s1]; [|done]. intros H. by exists a, s1.
Qed.

Lemma validation_epoch_ok epoch (s s' : state) :
  validation_epoch epoch s = (Ok tt, s') ->
  global_step s' =
    (global_step s + Z.of_nat (DataLoader.__len__ (val_dataloader s)) + 1)%Z.
Proof.
  intros H. unfold learner.validation_epoch in H.
  apply bind_ok in H as ([] & s1 & [= <-] & H).
  apply bind_ok in H as (batches & s2 & H2 & H).
  destruct (iter_spec Validation (set_training false s)) as (dl & g & E & _ & Hp).
  rewrite E in H2. injection H2 as <- <-.
  apply bind_ok in H as ([[loss_sum predict] target] & s3 & H3 & H).
  apply validation_loop_ok in H3 as (Hg3 & _).
  apply bind_ok in H as (n & s4 & [= <- <-] & H).
  apply bind_ok in H as (loss_avg & s5 & H5 & H).
  unfold lift in H5. injection H5 as _ <-.
  unfold bind, log, get, emit, modify in H. cbn in H. injection H as <-.
  cbn in *. rewrite Hg3. unfold DataLoader.__len__, CustomBatchSampler.__len__.
  by rewrite Hp.
Qed.

Lemma training_loop_epoch_ok epoch loss_avg (s s' : state) :
  training_loop epoch s = (Ok loss_avg, s') ->
  global_step s' =
    (global_step s + Z.of_nat (DataLoader.__len__ (train_dataloader s)))%Z
  /\ training_step s' =
       (training_step s + Z.of_nat (DataLoader.__len__ (train_dataloader s)))%Z.
Proof.
  intros H. unfold learner.training_loop in H.
  apply bind_ok in H as ([] & s1 & [= <-] & H).
  apply bind_ok in H as (batches & s2 & H2 & H).
  destruct (iter_spec Train (set_training true s)) as (dl & g & E & _ & Hp).
  rewrite E in H2. injection H2 as <- <-.
  apply bind_ok in H as (loss_sum & s3 & H3 & H).
  apply training_loop_ok in H3 as (Hg3 & Ht3 & _).
  apply bind_ok in H as (n & s4 & [= <- <-] & H).
  unfold lift in H. injection H as _ <-.
  cbn in *. rewrite Hg3, Ht3. unfold DataLoader.__len__, CustomBatchSampler.__len__.
  by rewrite Hp.
Qed.

Lemma save_best_counters loss_avg (s : state) :
  global_step (save_best loss_avg s).2 = global_step s
  /\ training_step (save_best loss_avg s).2 = training_step s.
Proof.
  unfold save_best, bind, get, modify. cbn.
  destruct (loss_avg <? best_val_loss s)%float; cbn; [|done].
  by destruct (deepcopy_from [] (model s) (tensors s)).
Qed.

Lemma training_epoch_ok epoch (s s' : state) :
  training_epoch epoch s = (Ok tt, s') ->
  global_step s' =
    (global_step s + Z.of_nat (DataLoader.__len__ (train_dataloader s)) + 1)%Z
  /\ training_step s' =
       (training_step s + Z.of_nat (DataLoader.__len__ (train_dataloader s)))%Z.
Proof.
  intros H. unfold learner.training_epoch in H.
  apply bind_ok in H as (loss_avg & s1 & H1 & H).
  apply training_loop_epoch_ok in H1 as (Hg1 & Ht1).
  unfold training_summary in H.
  apply bind_ok in H as ([] & s2 & H2 & H).
  unfold log, bind, get, emit, modify in H2. cbn in H2. injection H2 as <-.
  apply bind_ok in H as ([] & s3 & [= <-] & H).
  apply bind_ok in H as (cnt & s4 & [= <- <-] & H).
  apply bind_ok in H as (r & s5 & H5 & H). unfold lift in H5. injection H5 as _ <-.
  apply bind_ok in H as ([] & s6 & H6 & H).
  assert (global_step s6 = (global_step s1 + 1)%Z
          /\ training_step s6 = training_step s1) as [Hg6 Ht6].
  { destruct (r =? 0)%Z; unfold emit, modify, ret in H6; by injection H6 as <-. }
  destruct (save_best_counters loss_avg s6) as [Hg Ht]. rewrite H in Hg, Ht.
  cbn in Hg, Ht. lia.
Qed.

(** Validation changes the mode, the order of the batches, the generator,
    [global_step] and, by the records it logs, the trace; nothing else. *)
Lemma validating_keeps (s s' : state) :
  steps [Mode; Log] s s' ->
  (training_step s', grad s', tensors s', optimizer s', scheduler s',
   best_val_loss s', best_model_state_dict s', table s',
   backward_passes (trace s'), optimizer_steps (trace s'),
   table_flushes (trace s'))
  = (training_step s, grad s, tensors s, optimizer s, scheduler s,
     best_val_loss s, best_model_state_dict s, table s,
     backward_passes (trace s), optimizer_steps (trace s),
     table_flushes (trace s)).
Proof.
  apply (steps_within _
    (keeps (fun s => (training_step s, grad s, tensors s, optimizer s, scheduler s,
                      best_val_loss s, best_model_state_dict s, table s,
                      backward_passes (trace s), optimizer_steps (trace s),
                      table_flushes (trace s))))).
  intros k s1 s2 Hk Hp%prim_inv. unfold keeps.
  apply list_elem_of_In in Hk. destruct Hk as [<-|[<-|[]]];
    repeat match goal with
           | H : _ \/ _ |- _ => destruct H
           | H : ex _ |- _ => destruct H
           | H : _ /\ _ |- _ => destruct H
           end; subst; [done|done|done|].
  cbn. unfold backward_passes, optimizer_steps, table_flushes.
  by rewrite !omap_app, !app_nil_r.
Qed.

Lemma epoch_body_ok epoch (s s' : state) :
  epoch_body epoch s = (Ok tt, s') ->
  global_step s' =
    (global_step s + Z.of_nat (DataLoader.__len__ (val_dataloader s)) + 1
     + Z.of_nat (DataLoader.__len__ (train_dataloader s)) + 1)%Z
  /\ training_step s' =
       (training_step s + Z.of_nat (DataLoader.__len__ (train_dataloader s)))%Z.
Proof.
  intros H. unfold learner.epoch_body in H.
  apply bind_ok in H as ([] & s1 & H1 & H).
  apply bind_ok in H as ([] & s2 & H2 & H).
  pose proof (track_example_steps epoch 2 s) as Hsteps1.
  rewrite H1 in Hsteps1. cbn in Hsteps1.
  pose proof (tracking_keeps_learning _ _ Hsteps1) as Hk1.
  apply steps_same_data in Hsteps1 as (_ & _ & Ht1%same_loader_len & Hv1%same_loader_len).
  pose proof (validation_epoch_steps epoch s1) as Hsteps2.
  rewrite H2 in Hsteps2. cbn in Hsteps2.
  pose proof (validating_keeps _ _ Hsteps2) as Hk2.
  apply steps_same_data in Hsteps2 as (_ & _ & Ht2%same_loader_len & _).
  apply validation_epoch_ok in H2. apply training_epoch_ok in H as [Hg Ht].
  unfold learning in Hk1. simplify_eq. rewrite Hg, Ht, H2.
  split; [|congruence]. rewrite Ht2, Ht1, Hv1. congruence.
Qed.

Lemma for_epochs_ok epochs (s s' : state) :
  for_epochs epochs s = (Ok tt, s') ->
  global_step s' =
    (global_step s
     + Z.of_nat (length epochs)
       * (Z.of_nat (DataLoader.__len__ (val_dataloader s)) + 1
          + Z.of_nat (DataLoader.__len__ (train_dataloader s)) + 1))%Z
  /\ training_step s' =
       (training_step s
        + Z.of_nat (length epochs)
          * Z.of_nat (DataLoader.__len__ (train_dataloader s)))%Z.
Proof.
  revert s. induction epochs as [|epoch epochs IH]; intros s.
  - cbn. intros [= <-]. lia.
  - cbn [learner.for_epochs]. intros H.
    apply bind_ok in H as ([] & s1 & H1 & H).
    pose proof (respects_epoch_body epoch s) as Hsteps. rewrite H1 in Hsteps.
    apply steps_same_data in Hsteps
      as (_ & _ & Ht%same_loader_len & Hv%same_loader_len).
    apply epoch_body_ok in H1 as [Hg1 Ht1]. apply IH in H as [Hg Hts].
    cbn in Ht, Hv. rewrite Hg, Hts, Hg1, Ht1, Ht, Hv. cbn [length]. lia.
Qed.

Lemma fit_ok start_epoch n_epochs (s s' : state) :
  fit start_epoch n_epochs s = (Ok tt, s') ->
  global_step s' =
    (global_step s
     + Z.max 0 n_epochs
       * (Z.of_nat (DataLoader.__len__ (val_dataloader s)) + 1
          + Z.of_nat (DataLoader.__len__ (train_dataloader s)) + 1))%Z
  /\ training_step s' =
       (training_step s
        + Z.max 0 n_epochs * Z.of_nat (DataLoader.__len__ (train_dataloader s)))%Z.
Proof.
  intros H. unfold learner.fit in H.
  apply bind_ok in H as ([] & s1 & [= <-] & H).
  apply bind_ok in H as ([] & s2 & H2 & H).
  apply for_epochs_ok in H2 as [Hg Ht].
  apply bind_ok in H as (t & s3 & [= <- <-] & H).
  destruct (table s2) as [rows|]; [|done].
  unfold emit, modify in H. injection H as <-. cbn in *.
  unfold range2 in *. rewrite length_map, length_seq in Hg, Ht.
  replace (Z.of_nat (Z.to_nat (start_epoch + n_epochs - start_epoch)))
    with (Z.max 0 n_epochs) in * by lia.
  done.
Qed.

(** C4: over a whole run, however it ends, [global_step] never decreases
    and the records logged carry, in order, exactly the values it went
    through, one record for each advance of one; a validation epoch that
    completes advances it by the number of validation batches plus one, a
    training epoch that completes by the number of training batches plus
    one, example tracking leaves it alone, and a run that completes has
    advanced it by the sum of these over its epochs. *)
Theorem global_step_counts_batches_and_summaries
    (start_epoch n_epochs : Z) (s : state) :
  let n_val := Z.of_nat (DataLoader.__len__ (val_dataloader s)) in
  let n_train := Z.of_nat (DataLoader.__len__ (train_dataloader s)) in
  let s' := (fit start_epoch n_epochs s).2 in
  (global_step s <= global_step s')%Z
  /\ (exists new,
        trace s' = trace s ++ new
        /\ logged_steps new = seqZ (global_step s) (global_step s' - global_step s))
  /\ ((fit start_epoch n_epochs s).1 = Ok tt ->
        global_step s' =
          (global_step s + Z.max 0 n_epochs * ((n_val + 1) + (n_train + 1)))%Z)
  /\ (forall epoch s0 s1,
        validation_epoch epoch s0 = (Ok tt, s1) ->
        let n := Z.of_nat (DataLoader.__len__ (val_dataloader s0)) in
        global_step s1 = (global_step s0 + n + 1)%Z
        /\ exists new,
             trace s1 = trace s0 ++ new
             /\ logged_steps new = seqZ (global_step s0) (n + 1))
  /\ (forall epoch s0 s1,
        training_epoch epoch s0 = (Ok tt, s1) ->
        let n := Z.of_nat (DataLoader.__len__ (train_dataloader s0)) in
        global_step s1 = (global_step s0 + n + 1)%Z
        /\ exists new,
             trace s1 = trace s0 ++ new
             /\ logged_steps new = seqZ (global_step s0) (n + 1))
  /\ (forall epoch num_examples s0,
        global_step (track_example epoch num_examples s0).2 = global_step s0
        /\ trace (track_example epoch num_examples s0).2 = trace s0).
Proof.
  intros n_val n_train s'. subst s'.
  pose proof (steps_logs_since _ _ _ (respects_fit start_epoch n_epochs s))
    as [Hle Hnew].
  split; [exact Hle|]. split; [exact Hnew|]. split_and!.
  - intros Hok. destruct (fit start_epoch n_epochs s) as [[[]|] s1] eqn:E; [|done].
    apply fit_ok in E as [E _]. cbn. rewrite E. subst n_val n_train. lia.
  - intros epoch s0 s1 H n.
    pose proof (validation_epoch_steps epoch s0) as Hsteps.
    rewrite H in Hsteps. apply steps_logs_since in Hsteps as (_ & new & Hn & Hl).
    apply validation_epoch_ok in H. split; [done|]. exists new. split; [done|].
    rewrite Hl. f_equal. cbn [snd] in *. subst n. lia.
  - intros epoch s0 s1 H n.
    pose proof (training_epoch_steps epoch s0) as Hsteps.
    rewrite H in Hsteps. apply steps_logs_since in Hsteps as (_ & new & Hn & Hl).
    apply training_epoch_ok in H as [H _]. split; [done|]. exists new.
    split; [done|]. rewrite Hl. f_equal. cbn [snd] in *. subst n. lia.
  - intros epoch num_examples s0.
    pose proof (tracking_keeps_learning _ _
                  (track_example_steps epoch num_examples s0)) as Hk.
    unfold learning in Hk. by simplify_eq.
Qed.

(** ** Gradient accumulation across epochs *)

Lemma mod_succ (g t : Z) :
  (0 < g)%Z -> (t mod g <> 0)%Z -> ((t - 1) mod g + 1 = t mod g)%Z.
Proof.
  intros Hg Hnz. pose proof (Z.mod_pos_bound (t - 1)%Z g Hg) as Hr.
  pose proof (Z.div_mod (t - 1)%Z g ltac:(lia)) as Hd.
  destruct (Z.eq_dec ((t - 1) mod g + 1)%Z g) as [E|E].
  - destruct Hnz. apply Z.mod_divide; [lia|]. exists (1 + (t - 1) / g)%Z. lia.
  - apply (Z.mod_unique_pos t g ((t - 1) / g)%Z); lia.
Qed.

(** Everything but the passes over the training batches leaves the
    gradients, [training_step] and the record of backward passes and
    optimizer steps as they are. *)
Lemma quiet_keeps_pending (s s' : state) :
  steps [Mode; Track; Log; Save; Flush] s s' ->
  (config s', training_step s', grad s', backward_passes (trace s'),
   optimizer_steps (trace s'))
  = (config s, training_step s, grad s, backward_passes (trace s),
     optimizer_steps (trace s)).
Proof.
  apply (steps_within _
    (keeps (fun s => (config s, training_step s, grad s,
                      backward_passes (trace s), optimizer_steps (trace s))))).
  intros k s1 s2 Hk Hp%prim_inv. unfold keeps.
  apply list_elem_of_In in Hk. destruct Hk as [<-|[<-|[<-|[<-|[<-|[]]]]]];
    repeat match goal with
           | H : _ \/ _ |- _ => destruct H
           | H : ex _ |- _ => destruct H
           | H : _ /\ _ |- _ => destruct H
           end; subst; try done; cbn;
    unfold backward_passes, optimizer_steps; by rewrite !omap_app, !app_nil_r.
Qed.

Lemma tracking_quiet (s s' : state) :
  steps [Mode; Track] s s' -> steps [Mode; Track; Log; Save; Flush] s s'.
Proof. apply steps_mono. kinds. Qed.

Lemma validating_quiet (s s' : state) :
  steps [Mode; Log] s s' -> steps [Mode; Track; Log; Save; Flush] s s'.
Proof. apply steps_mono. kinds. Qed.

Lemma training_summary_quiet epoch loss_avg (s : state) :
  steps [Mode; Track; Log; Save; Flush] s (training_summary epoch loss_avg s).2.
Proof. apply respects_training_summary; kinds. Qed.

Lemma quiet_accumulating (s s' : state) :
  steps [Mode; Track; Log; Save; Flush] s s' -> accumulating s -> accumulating s'.
Proof.
  intros Hk%quiet_keeps_pending [Hsuf Hlen]. unfold accumulating, pending_passes in *.
  injection Hk as Hc Ht Hg Hb _. by rewrite Hc, Ht, Hg, Hb.
Qed.

Lemma backward_passes_batch tr epoch batch_idx mid data step :
  backward_passes mid = [] ->
  backward_passes
    (tr ++ [loss_backward epoch batch_idx] ++ mid ++ [wandb_log data step])
  = backward_passes tr ++ [(epoch, batch_idx)].
Proof.
  unfold backward_passes. intros Hmid. rewrite !omap_app, Hmid. reflexivity.
Qed.

Lemma training_batch_accumulating epoch batch_idx batch loss_sum (s : state) :
  (0 < GRAD_ACCUMULATION_STEPS (config s))%Z ->
  accumulating s ->
  accumulating (training_batch epoch batch_idx batch loss_sum s).2.
Proof.
  intros Hg [Hsuf Hlen].
  destruct (training_batch_ok epoch batch_idx batch loss_sum s ltac:(lia))
    as (s' & -> & Hts & _ & Htrace & Hgrad & _ & Hc & _).
  unfold accumulating, pending_passes in *. cbn [snd].
  rewrite Hts, Hc, Hgrad, Htrace.
  replace (training_step s + 1 - 1)%Z with (training_step s) by lia.
  destruct (Z.eqb_spec (training_step s mod GRAD_ACCUMULATION_STEPS (config s)) 0)
    as [Hz|Hnz].
  - split; [apply suffix_nil|]. by rewrite Hz.
  - rewrite backward_passes_batch by done.
    rewrite List.map_app, length_app. cbn. split.
    + by apply suffix_app.
    + rewrite <- (mod_succ _ _ Hg Hnz). lia.
Qed.

Lemma training_batches_accumulating epoch idx batches loss_sum (s : state) :
  (0 < GRAD_ACCUMULATION_STEPS (config s))%Z ->
  accumulating s ->
  accumulating (for_batches Train (training_batch epoch) idx batches loss_sum s).2.
Proof.
  revert idx loss_sum s. induction batches as [|indices batches IH];
    intros idx loss_sum s Hg Hacc; [done|].
  rewrite for_batches_cons. destruct (DataLoader.fetch _ _) as [batch|e]; [|done].
  pose proof (training_batch_accumulating epoch idx batch loss_sum s Hg Hacc) as H1.
  destruct (training_batch_ok epoch idx batch loss_sum s ltac:(lia))
    as (s1 & E & _ & _ & _ & _ & _ & Hc & _).
  rewrite E in *. cbn [snd] in H1. apply IH; [by rewrite Hc|done].
Qed.

(** The state a training loop ends in is the state its batches leave. *)
Lemma training_loop_state epoch (s : state) :
  exists dl g,
    same_loader (train_dataloader s) dl
    /\ (training_loop epoch s).2 =
         (for_batches Train (training_batch epoch) 0
            (CustomBatchSampler.batch_of_indices (DataLoader.batch_sampler dl))
            0%float
            (set_generator g (set_train_dataloader dl (set_training true s)))).2.
Proof.
  destruct (iter_spec Train (set_training true s)) as (dl & g & E & Hd & Hp).
  exists dl, g. split; [done|].
  unfold learner.training_loop, bind at 1, modify. cbn [fst snd].
  unfold bind at 1. rewrite E. unfold bind at 1.
  destruct (for_batches _ _ _ _ _ _) as [[loss_sum|e] s1]; [|done].
  unfold bind, len, get, lift. by destruct (div_len _ _).
Qed.

Lemma training_epoch_accumulating epoch (s : state) :
  (0 < GRAD_ACCUMULATION_STEPS (config s))%Z ->
  accumulating s ->
  accumulating (training_epoch epoch s).2.
Proof.
  intros Hg Hacc.
  assert (accumulating (training_loop epoch s).2) as Hloop.
  { destruct (training_loop_state epoch s) as (dl & g & _ & ->).
    by apply training_batches_accumulating. }
  unfold learner.training_epoch, bind.
  destruct (training_loop epoch s) as [[loss_avg|e] s1]; [|done].
  eapply quiet_accumulating; [|exact Hloop]. apply training_summary_quiet.
Qed.

Lemma epoch_body_accumulating epoch (s : state) :
  (0 < GRAD_ACCUMULATION_STEPS (config s))%Z ->
  accumulating s ->
  accumulating (epoch_body epoch s).2.
Proof.
  intros Hg Hacc. unfold learner.epoch_body, bind.
  pose proof (track_example_steps epoch 2 s) as H1.
  destruct (track_example epoch 2 s) as [[[]|e] s1]; cbn [snd] in H1.
  2:{ eapply quiet_accumulating; [|done]. by apply tracking_quiet. }
  pose proof (validation_epoch_steps epoch s1) as H2.
  assert (accumulating s1) as Hacc1.
  { eapply quiet_accumulating; [|done]. by apply tracking_quiet. }
  assert (config s1 = config s) as Hc1 by (by apply steps_same_data in H1 as [? _]).
  destruct (validation_epoch epoch s1) as [[[]|e] s2]; cbn [snd] in H2.
  2:{ eapply quiet_accumulating; [|done]. by apply validating_quiet. }
  assert (accumulating s2) as Hacc2.
  { eapply quiet_accumulating; [|done]. by apply validating_quiet. }
  assert (config s2 = config s1) as Hc2 by (by apply steps_same_data in H2 as [? _]).
  apply training_epoch_accumulating; [congruence|done].
Qed.

Lemma init_accumulating cfg mdl train_dl val_dl opt sch st gen :
  accumulating
    (learner.__init__ (Grad := Grad) cfg mdl train_dl val_dl opt sch st gen
     : state).
Proof.
  unfold learner.__init__. destruct (deepcopy mdl st) as [snapshot st'].
  split; cbn; [done|]. by rewrite Zmod_0_l.
Qed.

(** C10, as the code has it: with a positive accumulation factor, in a run
    begun by a new learner the gradient buffers hold, at the end of every
    epoch as at its start, the backward passes of the last few training
    batches of the run, as many as the remainder by the factor of the
    number of training batches processed so far ([training_step - 1]).  So
    gradients are left pending at the end of an epoch exactly when that
    run-wide count is not a multiple of the factor; nothing at the end of
    the epoch, and nothing in the next epoch's example tracking and
    validation, applies or resets them; and the optimizer step that comes
    next applies them together with the passes made since, whatever the
    epoch they were made in. *)
Theorem pending_gradients_follow_training_step epoch (s : state) :
  let g := GRAD_ACCUMULATION_STEPS (config s) in
  (0 < g)%Z ->
  accumulating s ->
  let s' := (epoch_body epoch s).2 in
  accumulating s'
  /\ (grad s' = [] <-> (g | training_step s' - 1)%Z)
  /\ ((epoch_body epoch s).1 = Ok tt ->
        training_step s' =
          (training_step s + Z.of_nat (DataLoader.__len__ (train_dataloader s)))%Z)
  /\ (forall cfg mdl train_dl val_dl opt sch st gen,
        accumulating
          (learner.__init__ (Grad := Grad) cfg mdl train_dl val_dl opt sch st gen
           : state))
  /\ (forall epoch' loss_avg s0,
        grad (training_summary epoch' loss_avg s0 : result unit * state).2 = grad s0)
  /\ (forall epoch' num_examples s0,
        grad (track_example epoch' num_examples s0).2 = grad s0
        /\ training_step (track_example epoch' num_examples s0).2 = training_step s0)
  /\ (forall epoch' s0,
        grad (validation_epoch epoch' s0).2 = grad s0
        /\ training_step (validation_epoch epoch' s0).2 = training_step s0)
  /\ (forall epoch' batch_idx batch loss_sum s0,
        let g0 := GRAD_ACCUMULATION_STEPS (config s0) in
        g0 <> 0%Z ->
        (g0 | training_step s0)%Z ->
        let s1 := (training_batch epoch' batch_idx batch loss_sum s0).2 in
        optimizer_steps (trace s1) =
          optimizer_steps (trace s0)
          ++ [pending_passes s0 ++ [(epoch', batch_idx)]]
        /\ grad s1 = []).
Proof.
  intros g Hg Hacc s'. subst s'.
  pose proof (epoch_body_accumulating epoch s Hg Hacc) as Hacc'.
  assert (config (epoch_body epoch s).2 = config s) as Hc.
  { by destruct (steps_same_data _ _ _ (respects_epoch_body epoch s)) as [? _]. }
  split_and!.
  - exact Hacc'.
  - destruct Hacc' as [_ Hlen]. rewrite Hc in Hlen. fold g in Hlen.
    rewrite <- Z.mod_divide by lia. rewrite <- Hlen.
    destruct (grad (epoch_body epoch s).2); cbn; split; intros; (done || lia).
  - intros Hok. destruct (epoch_body epoch s) as [[[]|] s'] eqn:E; [|done].
    by apply epoch_body_ok in E as [_ E].
  - intros. apply init_accumulating.
  - intros epoch' loss_avg s0.
    pose proof (quiet_keeps_pending _ _ (training_summary_quiet epoch' loss_avg s0))
      as Hk.
    by injection Hk.
  - intros epoch' num_examples s0.
    pose proof (tracking_keeps_learning _ _
                  (track_example_steps epoch' num_examples s0)) as Hk.
    unfold learning in Hk. by simplify_eq.
  - intros epoch' s0.
    pose proof (validating_keeps _ _ (validation_epoch_steps epoch' s0)) as Hk.
    by simplify_eq.
  - intros epoch' batch_idx batch loss_sum s0 g0 Hg0 Hdiv s1. subst s1 g0.
    destruct (training_batch_ok epoch' batch_idx batch loss_sum s0 Hg0)
      as (s1 & -> & _ & _ & Htrace & Hgrad & _).
    apply Z.mod_divide in Hdiv; [|done]. apply Z.eqb_eq in Hdiv.
    rewrite Hdiv in Htrace, Hgrad. cbn [snd]. split; [|exact Hgrad].
    rewrite Htrace. unfold optimizer_steps, pending_passes. rewrite !omap_app. cbn.
    by destruct (scheduler s0).
Qed.

(** ** The table of tracked examples *)

Lemma mapM_length {A B} (f : A -> result B) l k :
  mapM f l = Ok k -> length k = length l.
Proof.
  revert k. induction l as [|x l IH]; intros k; cbn.
  - by intros [= <-].
  - destruct (f x) as [y|e]; cbn; [|done].
    destruct (mapM f l) as [k'|e]; cbn; [|done].
    intros [= <-]. cbn. f_equal. by apply IH.
Qed.

(** A batch fetched has as many rows as the batch of indices has indices. *)
Lemma fetch_size0 dl indices encoder_input decoder_input :
  DataLoader.fetch dl indices = Ok (encoder_input, decoder_input) ->
  torch.size0 encoder_input = length indices.
Proof.
  unfold DataLoader.fetch. cbn.
  destruct (mapM _ indices) as [samples|e] eqn:Hm; cbn; [|done].
  apply mapM_length in Hm. unfold pad_collate_fn, torch.pad_sequence. cbn.
  destruct samples as [|sample samples]; cbn; [done|].
  intros [= <- <-]. cbn in *. rewrite length_map. lia.
Qed.

(** The mode, the loaders and the generator apart, tracking rows changes
    the table only. *)
Lemma tracking_rows_only (s s' : state) :
  steps [Track] s s' ->
  (train_dataloader s', val_dataloader s', generator s', training s')
  = (train_dataloader s, val_dataloader s, generator s, training s).
Proof.
  apply (steps_within _
    (keeps (fun s => (train_dataloader s, val_dataloader s, generator s, training s)))).
  intros k s1 s2 Hk Hp%prim_inv. unfold keeps.
  apply list_elem_of_In in Hk. destruct Hk as [<-|[]].
  destruct Hp as (rows & r & _ & ->). done.
Qed.

Lemma track_rows_steps epoch num_examples data encoder_input decoder_input idxs
    (s : state) :
  steps [Track] s
    (track_rows epoch num_examples data encoder_input decoder_input idxs s).2.
Proof. apply respects_track_rows; kinds. Qed.

(** The loop over the rows of a batch adds a row for each index below
    [num_examples]. *)
Lemma track_rows_ok epoch (k : nat) data encoder_input decoder_input a n
    rows (s s' : state) :
  a <= k ->
  table s = Some rows ->
  track_rows epoch (Z.of_nat k) data encoder_input decoder_input (seq a n) s
    = (Ok tt, s') ->
  exists new,
    table s' = Some (rows ++ new)
    /\ length new = Nat.min (k - a) n
    /\ Forall (fun r => row_epoch r = epoch /\ row_data r = data) new.
Proof.
  revert a rows s. induction n as [|n IH]; intros a rows s Ha Ht; cbn [seq learner.track_rows].
  - intros [= <-]. exists []. rewrite app_nil_r, Nat.min_0_r. done.
  - destruct (Z.eqb_spec (Z.of_nat a) (Z.of_nat k)) as [E|E].
    + intros [= <-]. exists []. rewrite app_nil_r. split; [done|].
      split; [cbn; lia|done].
    + intros H.
      apply bind_ok in H as (src_ids & s1 & H1 & H). unfold lift in H1.
      injection H1 as _ <-.
      apply bind_ok in H as (trg_ids & s1 & H1 & H). unfold lift in H1.
      injection H1 as _ <-.
      apply bind_ok in H as (params & s1 & [= <- <-] & H).
      apply bind_ok in H as ([] & s1 & H1 & H).
      unfold table_add_data in H1. rewrite Ht in H1. injection H1 as <-.
      eapply (IH (S a)) in H as (new & Ht' & Hlen & Hall); [|lia|reflexivity].
      eexists (_ :: new). rewrite <- app_assoc in Ht'. split; [exact Ht'|].
      split; [cbn; lia|]. by constructor.
Qed.

Lemma track_split_ok epoch (k : nat) which data rows (s s' : state) :
  table s = Some rows ->
  track_split epoch (Z.of_nat k) which data s = (Ok tt, s') ->
  exists first rest dl g new,
    DataLoader.__iter__ (dataloader which s) (generator s) = (first :: rest, dl, g)
    /\ table s' = Some (rows ++ new)
    /\ length new = Nat.min k (length first)
    /\ Forall (fun r => row_epoch r = epoch /\ row_data r = data) new
    /\ generator s' = g
    /\ train_dataloader s' =
         match which with Train => dl | Validation => train_dataloader s end
    /\ val_dataloader s' =
         match which with Train => val_dataloader s | Validation => dl end.
Proof.
  intros Ht H. unfold learner.track_split in H.
  apply bind_ok in H as ([encoder_input decoder_input] & s1 & H1 & H).
  unfold next_iter in H1. apply bind_ok in H1 as (batches & s2 & H2 & H1).
  unfold iter_ in H2.
  destruct (DataLoader.__iter__ (dataloader which s) (generator s))
    as [[batches' dl] g] eqn:Hiter.
  injection H2 as <- <-. destruct batches' as [|first rest]; [done|].
  unfold fetch in H1. injection H1 as Hfetch <-.
  apply fetch_size0 in Hfetch.
  match type of H with track_rows _ _ _ _ _ _ ?s0 = _ =>
    pose proof (track_rows_steps epoch (Z.of_nat k) data encoder_input
                  decoder_input (range (torch.size0 encoder_input)) s0) as Hsteps
  end.
  rewrite H in Hsteps. apply tracking_rows_only in Hsteps.
  apply (track_rows_ok _ _ _ _ _ 0 _ rows) in H as (new & Ht' & Hlen & Hall);
    [|lia|by destruct which].
  exists first, rest, dl, g, new. rewrite Nat.sub_0_r, Hfetch in Hlen.
  injection Hsteps as -> -> -> _. by destruct which.
Qed.

(** What example tracking adds to the table in one epoch. *)
Lemma track_example_ok epoch (k : nat) rows (s s' : state) :
  table s = Some rows ->
  track_example epoch (Z.of_nat k) s = (Ok tt, s') ->
  exists first_train rest_train dl_train g1 first_val rest_val dl_val g2 new,
    DataLoader.__iter__ (train_dataloader s) (generator s)
      = (first_train :: rest_train, dl_train, g1)
    /\ DataLoader.__iter__ (val_dataloader s) g1
         = (first_val :: rest_val, dl_val, g2)
    /\ table s' = Some (rows ++ new)
    /\ length new = Nat.min k (length first_train) + Nat.min k (length first_val)
    /\ Forall (fun r => row_epoch r = epoch) new.
Proof.
  intros Ht H. unfold learner.track_example in H.
  apply bind_ok in H as ([] & s1 & [= <-] & H).
  apply bind_ok in H as ([] & s2 & H2 & H).
  apply (track_split_ok _ _ _ _ rows) in H2
    as (ft & rt & dlt & g1 & newt & Hit & Ht2 & Hlt & Hat & Hg2 & Htd & Hvd); [|done].
  apply (track_split_ok _ _ _ _ (rows ++ newt)) in H
    as (fv & rv & dlv & g2 & newv & Hiv & Ht3 & Hlv & Hav & _); [|done].
  cbn in Hit, Hiv, Hvd. rewrite Hvd, Hg2 in Hiv.
  exists ft, rt, dlt, g1, fv, rv, dlv, g2, (newt ++ newv).
  rewrite app_assoc, length_app. split_and!; try done; [lia|].
  apply Forall_app. split; (eapply Forall_impl; [eassumption|]); by intros r [? _].
Qed.

(** The epochs never flush the table. *)
Lemma epochs_keep_flushes (s s' : state) :
  steps [Mode; Track; Log; Step; Save] s s' ->
  table_flushes (trace s') = table_flushes (trace s).
Proof.
  apply (steps_within _ (keeps (fun s => table_flushes (trace s)))).
  intros k s1 s2 Hk Hp%prim_inv. unfold keeps.
  apply list_elem_of_In in Hk. destruct Hk as [<-|[<-|[<-|[<-|[<-|[]]]]]];
    repeat match goal with
           | H : _ \/ _ |- _ => destruct H
           | H : ex _ |- _ => destruct H
           | H : _ /\ _ |- _ => destruct H
           end; subst; try done; cbn;
    unfold table_flushes; by rewrite !omap_app, !app_nil_r.
Qed.

(** Neither do the passes over the batches touch the table. *)
Lemma passes_keep_table (s s' : state) :
  steps [Mode; Log; Step; Save] s s' -> table s' = table s.
Proof.
  apply (steps_within _ (keeps table)).
  intros k s1 s2 Hk Hp%prim_inv. unfold keeps.
  apply list_elem_of_In in Hk. destruct Hk as [<-|[<-|[<-|[<-|[]]]]];
    repeat match goal with
           | H : _ \/ _ |- _ => destruct H
           | H : ex _ |- _ => destruct H
           | H : _ /\ _ |- _ => destruct H
           end; by subst.
Qed.

Lemma validation_keeps_table epoch (s : state) :
  table (validation_epoch epoch s).2 = table s.
Proof.
  apply passes_keep_table. eapply steps_mono; [|apply validation_epoch_steps]. kinds.
Qed.

Lemma training_keeps_table epoch (s : state) :
  table (training_epoch epoch s).2 = table s.
Proof. apply passes_keep_table, training_epoch_steps. Qed.

Lemma epoch_body_rows epoch rows (s s' : state) :
  table s = Some rows ->
  epoch_body epoch s = (Ok tt, s') ->
  exists new, table s' = Some (rows ++ new) /\ length new <= 2 * 2.
Proof.
  intros Ht H. unfold learner.epoch_body in H.
  apply bind_ok in H as ([] & s1 & H1 & H).
  apply bind_ok in H as ([] & s2 & H2 & H).
  apply (track_example_ok epoch 2 rows) in H1
    as (ft & rt & dlt & g1 & fv & rv & dlv & g2 & new & _ & _ & Ht1 & Hlen & _);
    [|done].
  pose proof (validation_keeps_table epoch s1) as Hv. rewrite H2 in Hv.
  pose proof (training_keeps_table epoch s2) as Htr. rewrite H in Htr.
  cbn in Hv, Htr. exists new. split; [congruence|lia].
Qed.

Lemma for_epochs_rows epochs rows (s s' : state) :
  table s = Some rows ->
  for_epochs epochs s = (Ok tt, s') ->
  exists new, table s' = Some (rows ++ new)
              /\ length new <= 2 * 2 * length epochs.
Proof.
  revert rows s. induction epochs as [|epoch epochs IH]; intros rows s Ht.
  - cbn. intros [= <-]. exists []. rewrite app_nil_r. split; [done|cbn; lia].
  - cbn [learner.for_epochs]. intros H.
    apply bind_ok in H as ([] & s1 & H1 & H).
    apply (epoch_body_rows _ rows) in H1 as (new1 & Ht1 & Hl1); [|done].
    apply (IH _ _ Ht1) in H as (new2 & Ht2 & Hl2).
    exists (new1 ++ new2). rewrite app_assoc, length_app. split; [done|].
    cbn [length]. lia.
Qed.

(** C8, as the code has it: in an epoch, example tracking adds to the
    table, for each of the two splits, one row for each of the first
    [num_examples] rows of the first batch the split's loader yields, and
    so as many rows as that batch has when it has fewer: at most
    [2 * num_examples] rows an epoch, and exactly as many when both batches
    hold [num_examples] rows or more.  Validation and training leave the
    table alone, and a run that completes flushes it once, as its last
    act, with at most [2 * 2] rows for each of its epochs in it; a run
    that does not complete does not flush it. *)
Theorem tracked_rows_and_single_flush (start_epoch n_epochs : Z) (s : state) :
  let s' := (fit start_epoch n_epochs s).2 in
  (forall epoch (num_examples : nat) rows s0 s1,
      table s0 = Some rows ->
      track_example epoch (Z.of_nat num_examples) s0 = (Ok tt, s1) ->
      exists first_train rest_train dl_train g1 first_val rest_val dl_val g2 new,
        DataLoader.__iter__ (train_dataloader s0) (generator s0)
          = (first_train :: rest_train, dl_train, g1)
        /\ DataLoader.__iter__ (val_dataloader s0) g1
             = (first_val :: rest_val, dl_val, g2)
        /\ table s1 = Some (rows ++ new)
        /\ length new =
             Nat.min num_examples (length first_train)
             + Nat.min num_examples (length first_val)
        /\ length new <= 2 * num_examples
        /\ (num_examples <= length first_train ->
            num_examples <= length first_val ->
            length new = 2 * num_examples))
  /\ (forall epoch s0,
        table (validation_epoch epoch s0).2 = table s0
        /\ table (training_epoch epoch s0).2 = table s0)
  /\ ((fit start_epoch n_epochs s).1 = Ok tt ->
        exists earlier rows,
          trace s' = trace s ++ earlier ++ [wandb_log_table "Tracking" rows]
          /\ table_flushes earlier = []
          /\ table s' = Some rows
          /\ length rows <= 2 * 2 * Z.to_nat n_epochs)
  /\ ((fit start_epoch n_epochs s).1 <> Ok tt ->
        table_flushes (trace s') = table_flushes (trace s)).
Proof.
  intros s'. subst s'. split_and!.
  - intros epoch k rows s0 s1 Ht H.
    destruct (track_example_ok epoch k rows s0 s1 Ht H)
      as (ft & rt & dlt & g1 & fv & rv & dlv & g2 & new & Hit & Hiv & Ht1 & Hlen & _).
    exists ft, rt, dlt, g1, fv, rv, dlv, g2, new. split_and!; try done; lia.
  - intros epoch s0. split; [apply validation_keeps_table|apply training_keeps_table].
  - intros Hok. destruct (fit start_epoch n_epochs s) as [[[]|] s'] eqn:H; [|done].
    clear Hok. unfold learner.fit in H.
    apply bind_ok in H as ([] & s1 & [= <-] & H).
    apply bind_ok in H as ([] & s2 & H2 & H).
    pose proof (respects_for_epochs (range2 start_epoch (start_epoch + n_epochs))
                  (set_table (Some []) s)) as Hsteps.
    rewrite H2 in Hsteps. cbn [snd] in Hsteps.
    pose proof (epochs_keep_flushes _ _ Hsteps) as Hflush.
    apply steps_logs_since in Hsteps as (_ & earlier & Htr & _).
    apply (for_epochs_rows _ []) in H2 as (rows & Ht2 & Hlen); [|done].
    apply bind_ok in H as (t & s3 & [= <- <-] & H). rewrite Ht2 in H.
    unfold emit, modify in H. injection H as <-. cbn in *.
    exists earlier, rows. split_and!.
    + by rewrite Htr, <- app_assoc.
    + rewrite Htr in Hflush. unfold table_flushes in *. rewrite omap_app in Hflush.
      rewrite <- (app_nil_r (omap _ (trace s))) in Hflush at 2.
      by apply app_inv_head in Hflush.
    + done.
    + unfold range2 in Hlen. rewrite length_map, length_seq in Hlen. lia.
  - pose proof (respects_for_epochs (range2 start_epoch (start_epoch + n_epochs))
                  (set_table (Some []) s)) as Hsteps.
    apply epochs_keep_flushes in Hsteps. cbn in Hsteps.
    unfold learner.fit, bind, modify, get.
    destruct (for_epochs _ _) as [[[]|e] s2]; cbn [fst snd] in *; [|done].
    destruct (table s2); [|done]. intros Hraise. by destruct Hraise.
Qed.

(** ** The store: copies and updates in place *)

Lemma copied_Some memo l l' :
  copied memo l = Some l' -> In (l, l') memo.
Proof.
  unfold copied.
  destruct (List.find (fun p => p.1 =? l) memo) as [[x x']|] eqn:Hfind; [|done].
  cbn. intros [= <-]. apply find_some in Hfind as [Hin Heq].
  cbn in Heq. apply Nat.eqb_eq in Heq. by subst.
Qed.

(** A deep copy writes to new tensors only. *)
Lemma deepcopy_from_frame memo sd (st : @store Tensor) :
  let st' := (deepcopy_from memo sd st).2 in
  next st <= next st'
  /\ forall l, l < next st -> contents st' l = contents st l.
Proof.
  revert memo st. induction sd as [|[name l] sd IH]; intros memo st; cbn; [done|].
  destruct (copied memo l) as [l'|].
  - specialize (IH memo st). by destruct (deepcopy_from memo sd st).
  - match goal with |- context [deepcopy_from ?m sd ?st1] =>
      specialize (IH m st1); destruct (deepcopy_from m sd st1) as [sd' st'] end.
    cbn in *. destruct IH as [Hn Hc]. split; [lia|]. intros k Hk.
    rewrite Hc by lia. destruct (Nat.eqb_spec k (next st)); [lia|done].
Qed.

(** The copy holds what the original holds, in tensors that are all new. *)
Lemma deepcopy_from_spec n0 memo sd (st : @store Tensor) sd' st' :
  n0 <= next st ->
  Forall (fun l => l < n0) (locs sd) ->
  (forall l l', In (l, l') memo ->
     l < n0 /\ n0 <= l' < next st /\ contents st l' = contents st l) ->
  deepcopy_from memo sd st = (sd', st') ->
  Forall (fun l' => n0 <= l' < next st') (locs sd')
  /\ read st' sd' = read st sd.
Proof.
  revert memo st sd' st'. induction sd as [|[name l] sd IH];
    intros memo st sd' st' Hn0 Hsd Hmemo; cbn [deepcopy_from].
  - by intros [= <- <-].
  - change (locs ((name, l) :: sd)) with (l :: locs sd) in Hsd.
    apply Forall_cons in Hsd as [Hl Hsd].
    destruct (copied memo l) as [l'|] eqn:Hcopied.
    + apply copied_Some, Hmemo in Hcopied as (_ & Hl' & Hsame).
      destruct (deepcopy_from memo sd st) as [sd1 st1] eqn:Hrest.
      intros [= <- <-].
      pose proof (deepcopy_from_frame memo sd st) as [Hnext Hkeep].
      rewrite Hrest in Hnext, Hkeep. cbn [snd] in Hnext, Hkeep.
      destruct (IH _ _ _ _ Hn0 Hsd Hmemo Hrest) as [Hfresh Hread].
      split.
      * change (locs ((name, l') :: sd1)) with (l' :: locs sd1).
        constructor; [lia|done].
      * change (read st1 ((name, l') :: sd1))
          with ((name, contents st1 l') :: read st1 sd1).
        change (read st ((name, l) :: sd)) with ((name, contents st l) :: read st sd).
        by rewrite Hread, Hkeep, Hsame by lia.
    + set (st0 := {| contents := fun k => if k =? next st then contents st l
                                          else contents st k;
                     next := S (next st) |}).
      pose proof (deepcopy_from_frame ((l, next st) :: memo) sd st0) as [Hnext Hkeep].
      destruct (deepcopy_from ((l, next st) :: memo) sd st0) as [sd1 st2] eqn:Hrest.
      intros [= <- <-]. cbn [snd] in Hnext, Hkeep.
      assert (forall k, k < n0 -> contents st0 k = contents st k) as Hold.
      { intros k Hk. subst st0. cbn. destruct (Nat.eqb_spec k (next st)); [lia|done]. }
      apply IH in Hrest as [Hfresh Hread]; [|subst st0; cbn; lia|done|].
      * split.
        { change (locs ((name, next st) :: sd1)) with (next st :: locs sd1).
          constructor; [subst st0; cbn in *; lia|done]. }
        change (read st2 ((name, next st) :: sd1))
          with ((name, contents st2 (next st)) :: read st2 sd1).
        change (read st ((name, l) :: sd)) with ((name, contents st l) :: read st sd).
        rewrite Hread, Hkeep by (subst st0; cbn; lia). f_equal.
        { subst st0. cbn. by rewrite Nat.eqb_refl. }
        unfold read. apply map_ext_in. intros [name' k] Hin. cbn [fst snd].
        f_equal. apply Hold. rewrite Forall_forall in Hsd.
        apply Hsd, list_elem_of_In. unfold locs. apply in_map_iff. by exists (name', k).
      * intros x x' [[= <- <-]|Hin].
        { rewrite (Hold l) by done. subst st0. cbn. rewrite Nat.eqb_refl.
          split_and!; try done; lia. }
        apply Hmemo in Hin as (Hx & Hx' & Hsame). rewrite (Hold x) by done.
        subst st0. cbn. destruct (Nat.eqb_spec x' (next st)); [lia|].
        split_and!; try done; lia.
Qed.

Lemma deepcopy_spec sd (st : @store Tensor) :
  Forall (fun l => l < next st) (locs sd) ->
  let sd' := (deepcopy sd st).1 in
  let st' := (deepcopy sd st).2 in
  Forall (fun l' => next st <= l' < next st') (locs sd')
  /\ read st' sd' = read st sd
  /\ next st <= next st'
  /\ forall l, l < next st -> contents st' l = contents st l.
Proof.
  intros Hsd. cbn. pose proof (deepcopy_from_frame [] sd st) as [Hn Hk].
  unfold deepcopy. destruct (deepcopy_from [] sd st) as [sd' st'] eqn:E.
  apply (deepcopy_from_spec (next st)) in E as [Hfresh Hread]; [done|lia|done|].
  by intros l l' [].
Qed.

#[local] Instance frame_preorder : PreOrder (@frame Tensor Grad OptState Scheduler).
Proof.
  split.
  - intros s. by split_and!.
  - intros s1 s2 s3 (M1 & N1 & C1) (M2 & N2 & C2). split_and!; [congruence|lia|].
    intros l Hl Hm. rewrite C2, C1; [done..|lia|by rewrite M1].
Qed.

Lemma prim_frame k (s s' : state) : prim k s s' -> frame s s'.
Proof.
  intros Hp%prim_inv. destruct k;
    repeat match goal with
           | H : _ \/ _ |- _ => destruct H
           | H : ex _ |- _ => destruct H
           | H : _ /\ _ |- _ => destruct H
           end; subst; try (by split_and!).
  - split_and!; cbn; [done|lia|]. intros l _ Hl. by apply H0.
  - pose proof (deepcopy_from_frame [] (model s) (tensors s)) as [Hn Hk].
    split_and!; cbn; [done|done|]. intros l Hl _. by apply Hk.
Qed.

Lemma steps_frame ks (s s' : state) : steps ks s s' -> frame s s'.
Proof. apply steps_within; [apply _|]. intros k s1 s2 _. apply prim_frame. Qed.

(** Tensors that are not the model's hold what they held. *)
Lemma frame_read (s s' : state) sd :
  frame s s' ->
  Forall (fun l => l < next (tensors s) /\ l ∉ locs (model s)) (locs sd) ->
  read (tensors s') sd = read (tensors s) sd.
Proof.
  intros (_ & _ & Hc) Hsd. unfold read. apply map_ext_in. intros [name l] Hin. cbn.
  f_equal. rewrite Forall_forall in Hsd. apply Hc; apply Hsd, list_elem_of_In;
    unfold locs; apply in_map_iff; by exists (name, l).
Qed.

Lemma frame_well_formed (s s' : state) :
  frame s s' -> well_formed s -> well_formed s'.
Proof.
  intros (Hm & Hn & _) Hwf. unfold well_formed in *. rewrite Hm.
  eapply Forall_impl; [exact Hwf|]. cbn. intros. lia.
Qed.

(** ** The best model *)

Lemma train_avg_losses_app tr1 tr2 :
  train_avg_losses (tr1 ++ tr2) = train_avg_losses tr1 ++ train_avg_losses tr2.
Proof. apply omap_app. Qed.

Lemma validation_batch_avg_losses epoch batch_idx batch acc (s : state) :
  train_avg_losses (trace (validation_batch epoch batch_idx batch acc s).2)
  = train_avg_losses (trace s).
Proof.
  destruct acc as [[loss_sum predict_text_list] target_text_list].
  destruct batch as [encoder_input decoder_input].
  unfold learner.validation_batch, bind, parameters, get, log, emit, modify, ret, lift.
  cbn -[Z.add read train_avg_losses decode_batch torch.squeeze_last].
  destruct (decode_batch _ (torch.squeeze_last _));
    cbn -[Z.add read train_avg_losses];
    rewrite train_avg_losses_app; cbn; by rewrite app_nil_r.
Qed.

Lemma validation_loop_avg_losses epoch idx batches acc (s : state) :
  train_avg_losses
    (trace (for_batches Validation (validation_batch epoch) idx batches acc s).2)
  = train_avg_losses (trace s).
Proof.
  revert idx acc s. induction batches as [|indices batches IH]; intros idx acc s; [done|].
  rewrite for_batches_cons. destruct (DataLoader.fetch _ _) as [batch|e]; [|done].
  pose proof (validation_batch_avg_losses epoch idx batch acc s) as Hb.
  destruct (validation_batch epoch idx batch acc s) as [[acc1|e] s1]; [|done].
  by rewrite IH.
Qed.

Lemma validation_epoch_avg_losses epoch (s : state) :
  train_avg_losses (trace (validation_epoch epoch s).2) = train_avg_losses (trace s).
Proof.
  unfold learner.validation_epoch, bind at 1, modify. cbn [fst snd].
  destruct (iter_spec Validation (set_training false s)) as (dl & g & E & _).
  unfold bind at 1. rewrite E. unfold bind at 1.
  match goal with |- context [for_batches ?w ?b ?i ?bs ?a ?s0] =>
    pose proof (validation_loop_avg_losses epoch i bs a s0) as Hloop;
    destruct (for_batches w b i bs a s0) as [[[[loss_sum predict] target]|e] s1]
  end; [|done].
  unfold bind at 1, len, get. cbn [fst snd]. unfold bind at 1, lift.
  destruct (div_len _ _) as [loss_avg|e]; cbn [fst snd]; [|done].
  unfold bind, log, get, emit, modify. cbn -[train_avg_losses]. cbn in Hloop.
  rewrite train_avg_losses_app, Hloop. cbn. by rewrite app_nil_r.
Qed.

Lemma training_batch_avg_losses epoch batch_idx batch loss_sum (s : state) :
  train_avg_losses (trace (training_batch epoch batch_idx batch loss_sum s).2)
  = train_avg_losses (trace s).
Proof.
  destruct (Z.eq_dec (GRAD_ACCUMULATION_STEPS (config s)) 0%Z) as [Hz|Hnz].
  - rewrite training_batch_zero by done. unfold backward, bind, emit, modify.
    cbn -[train_avg_losses]. rewrite train_avg_losses_app. cbn. by rewrite app_nil_r.
  - destruct (training_batch_ok epoch batch_idx batch loss_sum s Hnz)
      as (s1 & -> & _ & _ & Htrace & _).
    cbn [snd]. rewrite Htrace, !train_avg_losses_app.
    destruct (_ =? _)%Z; [destruct (scheduler s)|]; cbn; by rewrite app_nil_r.
Qed.

Lemma training_batches_avg_losses epoch idx batches loss_sum (s : state) :
  train_avg_losses
    (trace (for_batches Train (training_batch epoch) idx batches loss_sum s).2)
  = train_avg_losses (trace s).
Proof.
  revert idx loss_sum s. induction batches as [|indices batches IH];
    intros idx loss_sum s; [done|].
  rewrite for_batches_cons. destruct (DataLoader.fetch _ _) as [batch|e]; [|done].
  pose proof (training_batch_avg_losses epoch idx batch loss_sum s) as Hb.
  destruct (training_batch epoch idx batch loss_sum s) as [[loss_sum1|e] s1]; [|done].
  by rewrite IH.
Qed.

Lemma training_loop_avg_losses epoch (s : state) :
  train_avg_losses (trace (training_loop epoch s).2) = train_avg_losses (trace s).
Proof.
  destruct (training_loop_state epoch s) as (dl & g & _ & ->).
  by rewrite training_batches_avg_losses.
Qed.

(** Apart from the end of a training epoch, nothing replaces the best
    model. *)
Lemma unsaved_keeps_best (s s' : state) :
  steps [Mode; Track; Log; Step; Flush] s s' ->
  (best_val_loss s', best_model_state_dict s')
  = (best_val_loss s, best_model_state_dict s).
Proof.
  apply (steps_within _ (keeps (fun s => (best_val_loss s, best_model_state_dict s)))).
  intros k s1 s2 Hk Hp%prim_inv. unfold keeps.
  apply list_elem_of_In in Hk. destruct Hk as [<-|[<-|[<-|[<-|[<-|[]]]]]];
    repeat match goal with
           | H : _ \/ _ |- _ => destruct H
           | H : ex _ |- _ => destruct H
           | H : _ /\ _ |- _ => destruct H
           end; by subst.
Qed.

Lemma frame_detached (s s' : state) :
  frame s s' ->
  best_model_state_dict s' = best_model_state_dict s ->
  detached s -> detached s'.
Proof.
  intros (Hm & Hn & _) Hb Hd. unfold detached in *. rewrite Hb, Hm.
  eapply Forall_impl; [exact Hd|]. cbn. intros l [? ?]. split; [lia|done].
Qed.

(** The last statement of [training_epoch]. *)
Lemma save_best_spec loss_avg (s : state) :
  well_formed s ->
  detached s ->
  let s' := (save_best loss_avg s).2 in
  (save_best loss_avg s).1 = Ok tt
  /\ trace s' = trace s
  /\ model s' = model s
  /\ well_formed s'
  /\ detached s'
  /\ if (loss_avg <? best_val_loss s)%float
     then best_val_loss s' = loss_avg
          /\ read (tensors s') (best_model_state_dict s') = read (tensors s') (model s')
          /\ read (tensors s') (model s') = read (tensors s) (model s)
          /\ Forall (fun l => next (tensors s) <= l) (locs (best_model_state_dict s'))
     else s' = s.
Proof.
  intros Hwf Hdet. unfold save_best, bind, get, modify. cbn [fst snd].
  destruct (loss_avg <? best_val_loss s)%float; cbn [fst snd]; [|done].
  unfold state_dict. cbn [model tensors set_best_val_loss].
  destruct (deepcopy_spec (model s) (tensors s) Hwf) as (Hfresh & Hread & Hnext & Hkeep).
  destruct (deepcopy (model s) (tensors s)) as [snapshot st] eqn:E.
  cbn [fst snd] in *. cbn.
  assert (read st (model s) = read (tensors s) (model s)) as Hlive.
  { unfold read. apply map_ext_in. intros [name l] Hin. cbn. f_equal. apply Hkeep.
    unfold well_formed in Hwf. rewrite Forall_forall in Hwf.
    apply Hwf, list_elem_of_In. unfold locs. apply in_map_iff. by exists (name, l). }
  split_and!; try done.
  - unfold well_formed in *. cbn. eapply Forall_impl; [exact Hwf|]. cbn. intros. lia.
  - unfold detached. cbn. eapply Forall_impl; [exact Hfresh|]. cbn.
    intros l [Hl1 Hl2]. split; [done|]. intros Hin.
    unfold well_formed in Hwf. rewrite Forall_forall in Hwf. apply Hwf in Hin. lia.
  - change (read st snapshot = read st (model s)). congruence.
  - eapply Forall_impl; [exact Hfresh|]. cbn. intros. lia.
Qed.

(** A training epoch that completes: its average loss is reported, and the
    best model is replaced by a copy of the parameters exactly when that
    loss is below the best one so far. *)
Lemma training_epoch_best epoch (s s' : state) :
  well_formed s ->
  detached s ->
  training_epoch epoch s = (Ok tt, s') ->
  exists loss_avg,
    train_avg_losses (trace s') = train_avg_losses (trace s) ++ [loss_avg]
    /\ well_formed s'
    /\ detached s'
    /\ if (loss_avg <? best_val_loss s)%float
       then best_val_loss s' = loss_avg
            /\ read (tensors s') (best_model_state_dict s') = read (tensors s') (model s')
            /\ Forall (fun l => next (tensors s) <= l) (locs (best_model_state_dict s'))
       else best_val_loss s' = best_val_loss s
            /\ best_model_state_dict s' = best_model_state_dict s.
Proof.
  intros Hwf Hdet H. unfold learner.training_epoch in H.
  apply bind_ok in H as (loss_avg & s1 & H1 & H). exists loss_avg.
  pose proof (training_loop_avg_losses epoch s) as Havg.
  pose proof (respects_training_loop [Mode; Log; Step] epoch
                ltac:(kinds) ltac:(kinds) ltac:(kinds) s) as Hsteps.
  rewrite H1 in Havg, Hsteps. cbn [snd] in Havg, Hsteps.
  pose proof (steps_frame _ _ _ Hsteps) as Hframe.
  assert (steps [Mode; Track; Log; Step; Flush] s s1) as Hunsaved
    by (eapply steps_mono; [|exact Hsteps]; kinds).
  apply unsaved_keeps_best in Hunsaved. injection Hunsaved as Hbl Hbd.
  pose proof (frame_well_formed _ _ Hframe Hwf) as Hwf1.
  pose proof (frame_detached _ _ Hframe Hbd Hdet) as Hdet1.
  unfold training_summary in H.
  apply bind_ok in H as ([] & s2 & H2 & H).
  unfold log, bind, get, emit, modify in H2. cbn in H2. injection H2 as <-.
  apply bind_ok in H as ([] & s3 & [= <-] & H).
  apply bind_ok in H as (cnt & s4 & [= <- <-] & H).
  apply bind_ok in H as (r & s5 & H5 & H). unfold lift in H5. injection H5 as _ <-.
  apply bind_ok in H as ([] & s6 & H6 & H).
  assert (train_avg_losses (trace s6) = train_avg_losses (trace s) ++ [loss_avg]
          /\ tensors s6 = tensors s1 /\ model s6 = model s1
          /\ best_val_loss s6 = best_val_loss s1
          /\ best_model_state_dict s6 = best_model_state_dict s1)
    as (Havg6 & Ht6 & Hm6 & Hbl6 & Hbd6).
  { destruct (r =? 0)%Z; unfold emit, modify, ret in H6; injection H6 as <-;
      cbn -[train_avg_losses]; rewrite ?train_avg_losses_app, Havg; cbn;
      by rewrite ?app_nil_r. }
  assert (well_formed s6) as Hwf6 by (unfold well_formed; by rewrite Ht6, Hm6).
  assert (detached s6) as Hdet6 by (unfold detached; by rewrite Ht6, Hm6, Hbd6).
  destruct (save_best_spec loss_avg s6 Hwf6 Hdet6)
    as (_ & Htr & _ & Hwf' & Hdet' & Hbest).
  rewrite H in Htr, Hwf', Hdet', Hbest. cbn [snd] in Htr, Hwf', Hdet', Hbest.
  rewrite Htr. split_and!; try done.
  rewrite Hbl6, Hbl in Hbest.
  destruct (loss_avg <? best_val_loss s)%float.
  - destruct Hbest as (? & ? & _ & Hfresh). split_and!; try done.
    eapply Forall_impl; [exact Hfresh|]. cbn. intros l Hl. rewrite Ht6 in Hl.
    destruct Hframe as (_ & Hn & _). lia.
  - subst s'. split; congruence.
Qed.

Lemma epoch_body_best epoch (s s' : state) :
  well_formed s ->
  detached s ->
  epoch_body epoch s = (Ok tt, s') ->
  exists loss_avg,
    train_avg_losses (trace s') = train_avg_losses (trace s) ++ [loss_avg]
    /\ well_formed s'
    /\ detached s'
    /\ if (loss_avg <? best_val_loss s)%float
       then best_val_loss s' = loss_avg
            /\ read (tensors s') (best_model_state_dict s') = read (tensors s') (model s')
            /\ Forall (fun l => next (tensors s) <= l) (locs (best_model_state_dict s'))
       else best_val_loss s' = best_val_loss s
            /\ best_model_state_dict s' = best_model_state_dict s.
Proof.
  intros Hwf Hdet H. unfold learner.epoch_body in H.
  apply bind_ok in H as ([] & s1 & H1 & H).
  apply bind_ok in H as ([] & s2 & H2 & H).
  pose proof (tracking_keeps_learning _ _ (track_example_steps epoch 2 s)) as Hk1.
  rewrite H1 in Hk1. unfold learning in Hk1. cbn [snd] in Hk1.
  injection Hk1 as _ Hm1 _ _ _ Hbl1 Hbd1 Ht1 _ _ Htr1.
  pose proof (validating_keeps _ _ (validation_epoch_steps epoch s1)) as Hk2.
  pose proof (steps_same_data _ _ _ (validation_epoch_steps epoch s1)) as (_ & Hm2 & _).
  pose proof (validation_epoch_avg_losses epoch s1) as Havg2.
  rewrite H2 in Hk2, Hm2, Havg2. cbn [snd] in Hk2, Hm2, Havg2.
  injection Hk2 as _ _ Ht2 _ _ Hbl2 Hbd2 _ _ _ _.
  assert (well_formed s2) as Hwf2
    by (unfold well_formed in *; by rewrite Ht2, Hm2, Ht1, Hm1).
  assert (detached s2) as Hdet2
    by (unfold detached in *; by rewrite Ht2, Hm2, Hbd2, Ht1, Hm1, Hbd1).
  destruct (training_epoch_best epoch s2 s' Hwf2 Hdet2 H)
    as (loss_avg & Havg & Hwf' & Hdet' & Hbest).
  exists loss_avg. rewrite Havg, Havg2, Htr1. split_and!; try done.
  rewrite Hbl2, Hbl1, Ht2, Ht1, Hbd2, Hbd1 in Hbest. done.
Qed.

Lemma init_detached cfg mdl train_dl val_dl opt sch (st : @store Tensor) gen :
  Forall (fun l => l < next st) (locs mdl) ->
  let s : state := learner.__init__ cfg mdl train_dl val_dl opt sch st gen in
  well_formed s /\ detached s
  /\ best_val_loss s = infinity
  /\ read (tensors s) (best_model_state_dict s) = read (tensors s) (model s)
  /\ training_step s = 1%Z /\ global_step s = 1%Z.
Proof.
  intros Hwf. unfold learner.__init__.
  destruct (deepcopy_spec mdl st Hwf) as (Hfresh & Hread & Hnext & Hkeep).
  destruct (deepcopy mdl st) as [snapshot st'] eqn:E. cbn [fst snd] in *. cbn.
  split_and!; try done.
  - unfold well_formed. cbn. eapply Forall_impl; [exact Hwf|]. cbn. intros. lia.
  - unfold detached. cbn. eapply Forall_impl; [exact Hfresh|]. cbn.
    intros l [Hl1 Hl2]. split; [done|]. intros Hin.
    rewrite Forall_forall in Hwf. apply Hwf in Hin. lia.
  - change (read st' snapshot = read st' mdl). rewrite Hread. unfold read.
    apply map_ext_in. intros [name l] Hin. cbn. f_equal. symmetry. apply Hkeep.
    rewrite Forall_forall in Hwf.
    apply Hwf, list_elem_of_In. unfold locs. apply in_map_iff. by exists (name, l).
Qed.

(** Whatever the learner does next, a detached snapshot holds what it
    held. *)
Lemma detached_snapshot_kept ks (s s' : state) :
  steps ks s s' ->
  detached s ->
  read (tensors s') (best_model_state_dict s)
  = read (tensors s) (best_model_state_dict s).
Proof. intros Hsteps%steps_frame Hdet. by apply frame_read. Qed.

Set Warnings "-inexact-float".

Lemma fit_four_epochs start_epoch (s s' : state) :
  well_formed s ->
  detached s ->
  best_val_loss s = infinity ->
  fit start_epoch 4 s = (Ok tt, s') ->
  train_avg_losses (trace s')
    = train_avg_losses (trace s) ++ [2.0; 1.5; 1.8; 1.2]%float ->
  exists s3 : state,
    best_val_loss s' = 1.2%float
    /\ read (tensors s') (best_model_state_dict s') = read (tensors s') (model s')
    /\ Forall (fun l => next (tensors s3) <= l) (locs (best_model_state_dict s'))
    /\ train_avg_losses (trace s3)
       = train_avg_losses (trace s) ++ [2.0; 1.5; 1.8]%float
    /\ detached s'.
Proof.
  intros Hwf Hdet Hinf H Hlosses. unfold learner.fit in H.
  apply bind_ok in H as ([] & s0 & [= <-] & H).
  apply bind_ok in H as ([] & s4 & Hrun & H).
  apply bind_ok in H as (t & s5 & [= <- <-] & H).
  destruct (table s4) as [rows|]; [|done].
  unfold emit, modify in H. injection H as <-.
  unfold range2 in Hrun. replace (start_epoch + 4 - start_epoch)%Z with 4%Z in Hrun by lia.
  cbn [Z.to_nat Pos.to_nat Pos.iter_op Nat.add seq List.map learner.for_epochs] in Hrun.
  apply bind_ok in Hrun as ([] & s1 & H1 & Hrun).
  apply bind_ok in Hrun as ([] & s2 & H2 & Hrun).
  apply bind_ok in Hrun as ([] & s3 & H3 & Hrun).
  apply bind_ok in Hrun as ([] & s4' & H4 & [= <-]).
  apply epoch_body_best in H1 as (l1 & Ha1 & Hwf1 & Hdet1 & Hb1);
    [|done|done].
  apply epoch_body_best in H2 as (l2 & Ha2 & Hwf2 & Hdet2 & Hb2); [|done|done].
  apply epoch_body_best in H3 as (l3 & Ha3 & Hwf3 & Hdet3 & Hb3); [|done|done].
  apply epoch_body_best in H4 as (l4 & Ha4 & Hwf4 & Hdet4 & Hb4); [|done|done].
  cbn -[train_avg_losses] in Hlosses, Ha1.
  rewrite train_avg_losses_app, Ha4, Ha3, Ha2, Ha1, <- !app_assoc in Hlosses.
  cbn in Hlosses. apply app_inv_head in Hlosses. injection Hlosses as -> -> -> ->.
  cbn [best_val_loss set_table] in Hb1. rewrite Hinf in Hb1.
  change (2 <? infinity)%float with true in Hb1. destruct Hb1 as (Hv1 & _).
  rewrite Hv1 in Hb2. change (1.5 <? 2)%float with true in Hb2.
  destruct Hb2 as (Hv2 & _).
  rewrite Hv2 in Hb3. change (1.8 <? 1.5)%float with false in Hb3.
  destruct Hb3 as (Hv3 & _).
  rewrite Hv3 in Hb4. change (1.2 <? 1.5)%float with true in Hb4.
  destruct Hb4 as (Hv4 & Hread4 & Hfresh4).
  exists s3. cbn. split_and!; try done.
  by rewrite Ha3, Ha2, Ha1, <- !app_assoc.
Qed.

(** C3: a training epoch that completes replaces the best-model snapshot
    exactly when its average training loss is strictly below the best loss
    so far, and then by a copy of the parameters made of new tensors
    holding what the parameter tensors hold; otherwise the snapshot and the
    best loss stay as they are.  A snapshot shares no tensor with the
    model, so nothing the learner does afterwards, a whole run included,
    changes what a snapshot holds.  In a run of four epochs begun at a best
    loss of infinity whose average training losses are 2.0, 1.5, 1.8 and
    1.2, the snapshot kept is the copy made at the end of the fourth epoch:
    it holds the final parameters, in tensors made after the third epoch,
    and the best loss is 1.2.  A new learner starts from such a snapshot. *)
Theorem best_model_is_a_detached_copy :
  (forall epoch (s s' : state),
      well_formed s ->
      detached s ->
      training_epoch epoch s = (Ok tt, s') ->
      exists loss_avg,
        train_avg_losses (trace s') = train_avg_losses (trace s) ++ [loss_avg]
        /\ well_formed s'
        /\ detached s'
        /\ if (loss_avg <? best_val_loss s)%float
           then best_val_loss s' = loss_avg
                /\ read (tensors s') (best_model_state_dict s')
                   = read (tensors s') (model s')
                /\ Forall (fun l => next (tensors s) <= l)
                     (locs (best_model_state_dict s'))
           else best_val_loss s' = best_val_loss s
                /\ best_model_state_dict s' = best_model_state_dict s)
  /\ (forall (s : state),
        detached s ->
        (forall epoch,
            read (tensors (training_epoch epoch s).2) (best_model_state_dict s)
            = read (tensors s) (best_model_state_dict s))
        /\ (forall start_epoch n_epochs,
              read (tensors (fit start_epoch n_epochs s).2) (best_model_state_dict s)
              = read (tensors s) (best_model_state_dict s)))
  /\ (forall start_epoch (s s' : state),
        well_formed s ->
        detached s ->
        best_val_loss s = infinity ->
        fit start_epoch 4 s = (Ok tt, s') ->
        train_avg_losses (trace s')
          = train_avg_losses (trace s) ++ [2.0; 1.5; 1.8; 1.2]%float ->
        exists s3 : state,
          best_val_loss s' = 1.2%float
          /\ read (tensors s') (best_model_state_dict s')
             = read (tensors s') (model s')
          /\ Forall (fun l => next (tensors s3) <= l)
               (locs (best_model_state_dict s'))
          /\ train_avg_losses (trace s3)
             = train_avg_losses (trace s) ++ [2.0; 1.5; 1.8]%float
          /\ detached s')
  /\ (forall cfg mdl train_dl val_dl opt sch (st : @store Tensor) gen,
        Forall (fun l => l < next st) (locs mdl) ->
        let s : state := learner.__init__ cfg mdl train_dl val_dl opt sch st gen in
        well_formed s /\ detached s
        /\ best_val_loss s = infinity
        /\ read (tensors s) (best_model_state_dict s) = read (tensors s) (model s)
        /\ training_step s = 1%Z /\ global_step s = 1%Z).
Proof.
  split_and!.
  - apply training_epoch_best.
  - intros s Hdet. split.
    + intros epoch. eapply detached_snapshot_kept; [apply training_epoch_steps|done].
    + intros start_epoch n_epochs.
      eapply detached_snapshot_kept; [apply respects_fit|done].
  - apply fit_four_epochs.
  - apply init_detached.
Qed.

Set Warnings "inexact-float".

(** ** An empty partition *)

Lemma next_iter_empty which (s : state) :
  CustomBatchSampler.batch_of_indices (DataLoader.batch_sampler (dataloader which s))
    = [[]] ->
  (next_iter which s).1 = Raise (RuntimeError "received an empty list of sequences").
Proof.
  intros Hempty.
  unfold next_iter, bind, iter_, DataLoader.__iter__, CustomBatchSampler.pass,
    CustomBatchSampler.__iter__, random.shuffle.
  rewrite Hempty. by destruct which.
Qed.

Lemma track_split_empty epoch num_examples which data (s : state) :
  CustomBatchSampler.batch_of_indices (DataLoader.batch_sampler (dataloader which s))
    = [[]] ->
  (track_split epoch num_examples which data s).1
  = Raise (RuntimeError "received an empty list of sequences").
Proof.
  intros Hempty%next_iter_empty. unfold learner.track_split, bind.
  by destruct (next_iter which s) as [[batch|e] s1]; cbn in *; simplify_eq.
Qed.

Lemma same_loader_empty dl dl' :
  same_loader dl dl' ->
  CustomBatchSampler.batch_of_indices (DataLoader.batch_sampler dl) = [[]] ->
  CustomBatchSampler.batch_of_indices (DataLoader.batch_sampler dl') = [[]].
Proof.
  intros [_ Hperm] Hempty. rewrite Hempty in Hperm.
  by apply Permutation_sym, Permutation_length_1_inv in Hperm.
Qed.

(** Example tracking raises when either loader has the single empty batch
    of an empty partition. *)
Lemma track_example_empty epoch num_examples (s : state) :
  CustomBatchSampler.batch_of_indices (DataLoader.batch_sampler (train_dataloader s))
    = [[]]
  \/ CustomBatchSampler.batch_of_indices (DataLoader.batch_sampler (val_dataloader s))
     = [[]] ->
  (exists e, (track_example epoch num_examples s).1 = Raise e)
  /\ (CustomBatchSampler.batch_of_indices
        (DataLoader.batch_sampler (train_dataloader s)) = [[]] ->
      (track_example epoch num_examples s).1
      = Raise (RuntimeError "received an empty list of sequences")).
Proof.
  intros Hempty. unfold learner.track_example, bind at 1, modify. cbn [fst snd].
  unfold bind.
  pose proof (respects_track_split [Mode; Track] epoch num_examples Train "Train"
                ltac:(kinds) ltac:(kinds) (set_training false s)) as Hsteps.
  pose proof (track_split_empty epoch num_examples Train "Train" (set_training false s))
    as Htrain.
  destruct (track_split epoch num_examples Train "Train" (set_training false s))
    as [[[]|e] s1]; cbn [fst snd] in *.
  - destruct Hempty as [Hempty|Hempty]; [by specialize (Htrain Hempty)|].
    apply steps_same_data in Hsteps as (_ & _ & _ & Hval).
    pose proof (track_split_empty epoch num_examples Validation "Validation" s1
                  (same_loader_empty _ _ Hval Hempty)) as Hraise.
    destruct (track_split epoch num_examples Validation "Validation" s1)
      as [[[]|e] s2]; cbn in *; [done|].
    split; [by exists e|]. intros Ht. by specialize (Htrain Ht).
  - split; [by exists e|]. intros Ht. by rewrite <- (Htrain Ht).
Qed.

Lemma fit_raises_in_tracking start_epoch n_epochs epoch epochs e (s s1 : state) :
  range2 start_epoch (start_epoch + n_epochs) = epoch :: epochs ->
  track_example epoch 2 (set_table (Some []) s) = (Raise e, s1) ->
  fit start_epoch n_epochs s = (Raise e, s1).
Proof.
  intros Hrange Htrack. unfold learner.fit, bind at 1, modify. cbv beta iota.
  rewrite Hrange. cbn [learner.for_epochs]. unfold bind at 1. unfold bind at 1.
  unfold learner.epoch_body. unfold bind at 1. by rewrite Htrack.
Qed.

(** C7, as the code has it: an empty partition does not stop the sampler's
    construction, which yields a sampler holding one empty batch and
    reporting one batch; the failure comes when the first batch is fetched,
    in the example tracking that opens the first epoch of [fit], where the
    collator refuses the empty batch.  The run then raises before any
    validation or training batch is processed: nothing has been logged, no
    step counter has moved, and the parameters, the gradients and the best
    model are as they were; no epoch is passed over in silence. *)
Theorem empty_partition_raises_at_first_fetch
    (start_epoch n_epochs : Z) (s : state) :
  (0 < n_epochs)%Z ->
  CustomBatchSampler.batch_of_indices (DataLoader.batch_sampler (train_dataloader s))
    = [[]]
  \/ CustomBatchSampler.batch_of_indices (DataLoader.batch_sampler (val_dataloader s))
     = [[]] ->
  let outcome := fit start_epoch n_epochs s in
  (exists e, outcome.1 = Raise e)
  /\ (CustomBatchSampler.batch_of_indices
        (DataLoader.batch_sampler (train_dataloader s)) = [[]] ->
      outcome.1 = Raise (RuntimeError "received an empty list of sequences"))
  /\ learning outcome.2 = learning s
  /\ (forall batch_size : nat,
        exists sampler,
          CustomBatchSampler.__init__ 0 (Z.of_nat batch_size) = Ok sampler
          /\ CustomBatchSampler.batch_of_indices sampler = [[]]
          /\ CustomBatchSampler.__len__ sampler = 1)
  /\ (forall dl,
        CustomBatchSampler.batch_of_indices (DataLoader.batch_sampler dl) = [[]] ->
        DataLoader.__len__ dl = 1
        /\ DataLoader.fetch dl []
           = Raise (RuntimeError "received an empty list of sequences")).
Proof.
  intros Hn Hempty outcome. subst outcome.
  assert (exists epoch epochs,
            range2 start_epoch (start_epoch + n_epochs) = epoch :: epochs)
    as (epoch & epochs & Hrange).
  { unfold range2. replace (start_epoch + n_epochs - start_epoch)%Z with n_epochs by lia.
    destruct (Z.to_nat n_epochs) as [|n] eqn:E; [lia|]. cbn. eauto. }
  pose proof (track_example_empty epoch 2 (set_table (Some []) s) Hempty)
    as [[e He] Htrain].
  pose proof (tracking_keeps_learning _ _
                (track_example_steps epoch 2 (set_table (Some []) s))) as Hkeep.
  destruct (track_example epoch 2 (set_table (Some []) s)) as [[[]|e'] s1] eqn:Htrack;
    cbn [fst snd] in *; [done|].
  rewrite (fit_raises_in_tracking _ _ _ _ _ _ _ Hrange Htrack). cbn [fst snd].
  split_and!.
  - by exists e'.
  - exact Htrain.
  - exact Hkeep.
  - intros batch_size. eexists. by split; [apply dataset_properties.init_empty|].
  - intros dl Hdl. unfold DataLoader.__len__, CustomBatchSampler.__len__.
    by rewrite Hdl.
Qed.

(** * Further properties of [learner.py] *)

(** ** The rows example tracking adds *)

Lemma set_table_same rows (s : state) :
  table s = Some rows -> set_table (Some rows) s = s.
Proof. destruct s; cbn; by intros ->. Qed.

Lemma track_rows_spec epoch num_examples data encoder_input decoder_input a n
    rows (s : state) :
  table s = Some rows ->
  a + n <= length (torch.rows encoder_input) ->
  a + n <= length (torch.rows decoder_input) ->
  let count :=
    if decide (Z.of_nat a <= num_examples < Z.of_nat (a + n))%Z
    then Z.to_nat num_examples - a else n in
  track_rows epoch num_examples data encoder_input decoder_input (seq a n) s
  = (Ok tt,
     set_table
       (Some (rows ++
          List.map
            (fun ids : list Z * list Z =>
               TableRow epoch data (decode ids.1) (decode ids.2)
                 (translate (read (tensors s) (model s)) (decode ids.1)))
            (take count
               (drop a (zip (torch.rows encoder_input) (torch.rows decoder_input))))))
       s).
Proof.
  revert a rows s. induction n as [|n IH]; intros a rows s Ht He Hd count;
    cbn [seq learner.track_rows].
  - assert (count = 0) as -> by (subst count; case_decide; lia).
    cbn. by rewrite app_nil_r, set_table_same.
  - destruct (Z.eqb_spec (Z.of_nat a) num_examples) as [E|E].
    + assert (count = 0) as -> by (subst count; case_decide; lia).
      cbn. by rewrite app_nil_r, set_table_same.
    + destruct (lookup_lt_is_Some_2 (torch.rows encoder_input) a ltac:(lia))
        as [src_ids Hsrc].
      destruct (lookup_lt_is_Some_2 (torch.rows decoder_input) a ltac:(lia))
        as [trg_ids Htrg].
      unfold bind at 1, lift, row_tolist. rewrite Hsrc.
      unfold bind at 1. rewrite Htrg.
      unfold bind at 1, parameters, get. unfold bind at 1, table_add_data.
      rewrite Ht.
      rewrite (IH (S a) (rows ++ [TableRow epoch data (decode src_ids) (decode trg_ids)
                                    (translate (read (tensors s) (model s))
                                       (decode src_ids))]));
        [|done|lia|lia].
      assert (count =
              S (if decide (Z.of_nat (S a) <= num_examples < Z.of_nat (S a + n))%Z
                 then Z.to_nat num_examples - S a else n)) as ->.
      { subst count. repeat case_decide; lia. }
      assert (zip (torch.rows encoder_input) (torch.rows decoder_input) !! a
              = Some (src_ids, trg_ids)) as Hzip.
      { rewrite lookup_zip_with, Hsrc. cbn. by rewrite Htrg. }
      rewrite (drop_S _ _ _ Hzip). cbn. by rewrite <- app_assoc.
Qed.

Lemma track_rows_range epoch num_examples data encoder_input decoder_input
    rows (s : state) :
  table s = Some rows ->
  length (torch.rows encoder_input) = torch.size0 encoder_input ->
  length (torch.rows decoder_input) = torch.size0 encoder_input ->
  track_rows epoch num_examples data encoder_input decoder_input
    (range (torch.size0 encoder_input)) s
  = (Ok tt,
     set_table
       (Some (rows ++
          tracked translate decode epoch data (read (tensors s) (model s)) encoder_input decoder_input
            (tracked_count num_examples (torch.size0 encoder_input))))
       s).
Proof.
  intros Ht He Hd. unfold range.
  rewrite (track_rows_spec _ _ _ _ _ 0 _ rows) by (done || lia).
  do 3 f_equal. unfold tracked_count, tracked.
  rewrite drop_0. f_equal.
  set (l := zip _ _).
  assert (length l = torch.size0 encoder_input) as Hl.
  { subst l. rewrite length_zip_with. lia. }
  destruct (Z.ltb_spec num_examples 0); case_decide; try lia; do 2 f_equal; lia.
Qed.

Lemma first_batch_inv which batch (s s' : state) :
  next_iter which s = (Ok batch, s') ->
  exists first rest dl g,
    DataLoader.__iter__ (dataloader which s) (generator s) = (first :: rest, dl, g)
    /\ DataLoader.fetch dl first = Ok batch
    /\ s' = (iter_ which s).2
    /\ dataloader which s' = dl.
Proof.
  unfold next_iter, bind, iter_.
  destruct (DataLoader.__iter__ (dataloader which s) (generator s))
    as [[batches dl] g].
  destruct batches as [|first rest]; [done|]. unfold fetch. cbn [snd].
  intros [= Hfetch <-]. exists first, rest, dl, g.
  destruct which; cbn in *; done.
Qed.

Lemma first_batch_fetched which (s : state) first rest dl g batch :
  DataLoader.__iter__ (dataloader which s) (generator s) = (first :: rest, dl, g) ->
  DataLoader.fetch dl first = Ok batch ->
  next_iter which s = (Ok batch, (iter_ which s).2).
Proof.
  intros Hiter Hfetch. unfold next_iter, bind, iter_. rewrite Hiter.
  unfold fetch. by destruct which; cbn; rewrite Hfetch.
Qed.

Lemma iter_keeps which (s : state) :
  table (iter_ which s).2 = table s
  /\ tensors (iter_ which s).2 = tensors s
  /\ model (iter_ which s).2 = model s
  /\ training (iter_ which s).2 = training s.
Proof.
  unfold iter_. destruct (DataLoader.__iter__ _ _) as [[batches dl] g].
  by destruct which.
Qed.

Lemma track_split_spec epoch num_examples which data rows (s : state)
    first rest dl g encoder_input decoder_input :
  table s = Some rows ->
  DataLoader.__iter__ (dataloader which s) (generator s) = (first :: rest, dl, g) ->
  DataLoader.fetch dl first = Ok (encoder_input, decoder_input) ->
  track_split epoch num_examples which data s
  = (Ok tt,
     set_table
       (Some (rows ++
          tracked translate decode epoch data (read (tensors s) (model s)) encoder_input decoder_input
            (tracked_count num_examples (length first))))
       (iter_ which s).2).
Proof.
  intros Ht Hiter Hfetch. unfold learner.track_split, bind.
  rewrite (first_batch_fetched _ _ _ _ _ _ _ Hiter Hfetch).
  destruct (dataset_properties.fetch_shape _ _ _ _ Hfetch) as (_ & H0 & He & Hd).
  destruct (iter_keeps which s) as (Ht' & Hts & Hm & _).
  rewrite (track_rows_range _ _ _ _ _ rows) by congruence.
  by rewrite Hts, Hm, H0.
Qed.

Lemma track_split_inv epoch num_examples which data (s s' : state) :
  track_split epoch num_examples which data s = (Ok tt, s') ->
  exists first rest dl g encoder_input decoder_input,
    DataLoader.__iter__ (dataloader which s) (generator s) = (first :: rest, dl, g)
    /\ DataLoader.fetch dl first = Ok (encoder_input, decoder_input).
Proof.
  intros H. unfold learner.track_split in H.
  apply bind_ok in H as ([encoder_input decoder_input] & s1 & H1 & _).
  apply first_batch_inv in H1 as (first & rest & dl & g & Hiter & Hfetch & _).
  by exists first, rest, dl, g, encoder_input, decoder_input.
Qed.

Lemma iter_state which (s : state) batches dl g :
  DataLoader.__iter__ (dataloader which s) (generator s) = (batches, dl, g) ->
  iter_ which s
  = (Ok batches,
     set_generator g
       match which with
       | Train => set_train_dataloader dl s
       | Validation => set_val_dataloader dl s
       end).
Proof. intros Hiter. unfold iter_. by rewrite Hiter. Qed.

Lemma track_example_rows
    (epoch num_examples : Z) (rows : list table_row) (s s' : state) :
  table s = Some rows ->
  track_example epoch num_examples s = (Ok tt, s') ->
  exists first_train rest_train dl_train g1 train_src train_trg
         first_val rest_val dl_val g2 val_src val_trg,
    DataLoader.__iter__ (train_dataloader s) (generator s)
      = (first_train :: rest_train, dl_train, g1)
    /\ DataLoader.fetch dl_train first_train = Ok (train_src, train_trg)
    /\ DataLoader.__iter__ (val_dataloader s) g1
         = (first_val :: rest_val, dl_val, g2)
    /\ DataLoader.fetch dl_val first_val = Ok (val_src, val_trg)
    /\ table s' =
         Some (rows
               ++ tracked translate decode epoch "Train"
                    (read (tensors s) (model s)) train_src train_trg
                    (tracked_count num_examples (length first_train))
               ++ tracked translate decode epoch "Validation"
                    (read (tensors s) (model s)) val_src val_trg
                    (tracked_count num_examples (length first_val)))
    /\ train_dataloader s' = dl_train
    /\ val_dataloader s' = dl_val
    /\ generator s' = g2
    /\ training s' = false
    /\ learning s' = learning s.
Proof.
  intros Ht H.
  pose proof (tracking_keeps_learning _ _ (track_example_steps epoch num_examples s))
    as Hlearning.
  rewrite H in Hlearning. cbn [snd] in Hlearning.
  unfold learner.track_example in H.
  apply bind_ok in H as ([] & s0 & [= <-] & H).
  apply bind_ok in H as ([] & s1 & H1 & H2).
  destruct (track_split_inv _ _ _ _ _ _ H1)
    as (first_train & rest_train & dl_train & g1 & train_src & train_trg
        & Hiter1 & Hfetch1).
  rewrite (track_split_spec _ _ _ _ rows (set_training false s) _ _ _ _ _ _
             Ht Hiter1 Hfetch1) in H1.
  rewrite (iter_state _ _ _ _ _ Hiter1) in H1. injection H1 as Hs1.
  destruct (track_split_inv _ _ _ _ _ _ H2)
    as (first_val & rest_val & dl_val & g2 & val_src & val_trg & Hiter2 & Hfetch2).
  assert (table s1 =
          Some (rows ++ tracked translate decode epoch "Train"
                  (read (tensors s) (model s)) train_src train_trg
                  (tracked_count num_examples (length first_train)))) as Ht1
    by (by rewrite <- Hs1).
  rewrite (track_split_spec _ _ _ _ _ _ _ _ _ _ _ _ Ht1 Hiter2 Hfetch2) in H2.
  rewrite (iter_state _ _ _ _ _ Hiter2) in H2. injection H2 as <-.
  subst s1.
  exists first_train, rest_train, dl_train, g1, train_src, train_trg,
    first_val, rest_val, dl_val, g2, val_src, val_trg.
  cbn in *. rewrite <- app_assoc. split_and!; done.
Qed.

(** X8: what example tracking adds to the table: for the training loader and
    then for the validation loader, the first batch of a new pass is
    fetched and its first rows, as many as [tracked_count] says, are
    decoded, the source translated with the parameters as they are, and
    put in the table in the order of the batch, the rows of the training
    batch before those of the validation batch.  Both loaders are left
    reshuffled and the network in evaluation mode. *)
Theorem example_tracking_adds_the_first_rows_of_the_first_batches
    (epoch num_examples : Z) (rows : list table_row) (s s' : state) :
  table s = Some rows ->
  track_example epoch num_examples s = (Ok tt, s') ->
  exists first_train rest_train dl_train g1 train_src train_trg
         first_val rest_val dl_val g2 val_src val_trg,
    DataLoader.__iter__ (train_dataloader s) (generator s)
      = (first_train :: rest_train, dl_train, g1)
    /\ DataLoader.fetch dl_train first_train = Ok (train_src, train_trg)
    /\ DataLoader.__iter__ (val_dataloader s) g1
         = (first_val :: rest_val, dl_val, g2)
    /\ DataLoader.fetch dl_val first_val = Ok (val_src, val_trg)
    /\ table s' =
         Some (rows
               ++ tracked translate decode epoch "Train"
                    (read (tensors s) (model s)) train_src train_trg
                    (tracked_count num_examples (length first_train))
               ++ tracked translate decode epoch "Validation"
                    (read (tensors s) (model s)) val_src val_trg
                    (tracked_count num_examples (length first_val)))
    /\ train_dataloader s' = dl_train
    /\ val_dataloader s' = dl_val
    /\ generator s' = g2
    /\ training s' = false
    /\ learning s' = learning s.
Proof. apply track_example_rows. Qed.

(** ** Runs that complete *)

Lemma sound_first_batch which (s : state) :
  sound_loader (dataloader which s) ->
  exists first rest dl g encoder_input decoder_input,
    DataLoader.__iter__ (dataloader which s) (generator s) = (first :: rest, dl, g)
    /\ DataLoader.fetch dl first = Ok (encoder_input, decoder_input)
    /\ 1 <= length first.
Proof.
  intros Hsound.
  pose proof (dataset_properties.iter_same_loader (dataloader which s) (generator s))
    as Hiter.
  destruct (DataLoader.__iter__ (dataloader which s) (generator s))
    as [[batches dl] g].
  destruct Hiter as [-> Hsame].
  destruct (dataset_properties.same_loader_sound _ _ Hsame Hsound) as [Hne Hall].
  destruct (CustomBatchSampler.batch_of_indices (DataLoader.batch_sampler dl))
    as [|first rest]; [done|].
  apply Forall_cons in Hall as [[Hfne Hin] _].
  destruct (dataset_properties.fetch_in_range dl first Hfne Hin)
    as (src & trg & Hfetch & _).
  exists first, rest, dl, g, src, trg. split_and!; [done|done|].
  destruct first; [done|cbn; lia].
Qed.

Lemma sound_fetchable (dl : DataLoader.t) :
  sound_loader dl ->
  DataLoader.__len__ dl <> 0
  /\ Forall (fun b => is_ok (DataLoader.fetch dl b) = true)
       (CustomBatchSampler.batch_of_indices (DataLoader.batch_sampler dl)).
Proof.
  intros [Hne Hall]. split.
  - unfold DataLoader.__len__, CustomBatchSampler.__len__.
    by destruct (CustomBatchSampler.batch_of_indices _).
  - eapply Forall_impl; [exact Hall|]. cbn. intros b [Hbne Hin].
    by destruct (dataset_properties.fetch_in_range dl b Hbne Hin) as (? & ? & -> & _).
Qed.



(** No prediction is one token wide, so that [squeeze(-1)] leaves the
    predictions their two dimensions. *)
Local Abbreviation never_one_wide :=
  (forall params mode encoder_input decoder_input,
      torch.size1 (argmax (model_forward params mode encoder_input decoder_input))
      <> 1).

(** A validation batch: the loss is logged and the step counted; then the
    predictions are decoded, which fails when [squeeze(-1)] has taken
    their second dimension away, and only then. *)
Lemma validation_batch_spec epoch batch_idx batch acc (s : state) :
  let pred_token_ids :=
    model_forward (read (tensors s) (model s)) (training s) batch.1 batch.2 in
  let loss := loss_func pred_token_ids (shift_right batch.2) in
  let s1 :=
    set_global_step (global_step s + 1)%Z
      (set_trace
         (trace s ++
          [wandb_log [("Epoch", Int epoch); ("Validation/Loss", Float loss)]
             (global_step s)]) s) in
  let completes :=
    exists predict target,
      validation_batch epoch batch_idx batch acc s
      = (Ok ((acc.1.1 + loss)%float, acc.1.2 ++ predict, acc.2 ++ target), s1) in
  (torch.size1 (argmax pred_token_ids) <> 1 -> completes)
  /\ (torch.size1 (argmax pred_token_ids) = 1 ->
      torch.rows (argmax pred_token_ids) <> [] ->
      validation_batch epoch batch_idx batch acc s = (Raise TypeError, s1))
  /\ (completes
      \/ validation_batch epoch batch_idx batch acc s = (Raise TypeError, s1)
         /\ torch.size1 (argmax pred_token_ids) = 1
         /\ torch.rows (argmax pred_token_ids) <> []).
Proof.
  destruct acc as [[loss_sum predict_text_list] target_text_list].
  destruct batch as [encoder_input decoder_input].
  unfold learner.validation_batch, bind, parameters, get, log, emit, modify, ret, lift.
  cbn -[Z.add read decode_batch torch.squeeze_last].
  unfold torch.squeeze_last.
  destruct (Nat.eqb_spec (torch.size1 (argmax
              (model_forward (read (tensors s) (model s)) (training s)
                 encoder_input decoder_input))) 1) as [Hone|Hwide].
  - split; [done|].
    destruct (torch.rows _) as [|row rows]; cbn -[Z.add read].
    + split; [done|]. left. by eexists _, _.
    + split; [done|]. by right.
  - cbn -[Z.add read]. split_and!; [intros _|done|left]; by eexists _, _.
Qed.



Lemma training_loop_total epoch idx batches loss_sum (s : state) :
  GRAD_ACCUMULATION_STEPS (config s) <> 0%Z ->
  Forall (fun b => is_ok (DataLoader.fetch (train_dataloader s) b) = true) batches ->
  exists loss_sum' s',
    for_batches Train (training_batch epoch) idx batches loss_sum s
      = (Ok loss_sum', s')
    /\ train_dataloader s' = train_dataloader s
    /\ config s' = config s.
Proof.
  revert idx loss_sum s. induction batches as [|b batches IH];
    intros idx loss_sum s Hg Hall.
  - by exists loss_sum, s.
  - apply Forall_cons in Hall as [Hb Hall]. rewrite for_batches_cons.
    cbn [dataloader]. destruct (DataLoader.fetch (train_dataloader s) b) as [batch|];
      [|done].
    destruct (training_batch_ok epoch idx batch loss_sum s Hg)
      as (s1 & -> & _ & _ & _ & _ & _ & Hc & _ & Hdl & _).
    rewrite <- Hc in Hg. rewrite <- Hdl in Hall.
    match goal with |- context [for_batches _ _ _ _ ?l _] =>
      destruct (IH (S idx) l s1 Hg Hall) as (loss_sum' & s' & -> & Hdl' & Hc')
    end.
    exists loss_sum', s'. split_and!; congruence.
Qed.

Lemma training_loop_epoch_total epoch (s : state) :
  GRAD_ACCUMULATION_STEPS (config s) <> 0%Z ->
  sound_loader (train_dataloader s) ->
  exists loss_avg s',
    training_loop epoch s = (Ok loss_avg, s') /\ config s' = config s.
Proof.
  intros Hg Hsound. unfold learner.training_loop, bind at 1, modify. cbv beta iota.
  pose proof (dataset_properties.iter_same_loader
                (train_dataloader s) (generator s)) as Hiter.
  destruct (DataLoader.__iter__ (train_dataloader s) (generator s))
    as [[batches dl] g] eqn:E.
  destruct Hiter as [-> Hsame].
  unfold bind at 1.
  rewrite (iter_state Train (set_training true s) _ dl g E).
  destruct (sound_fetchable dl (dataset_properties.same_loader_sound _ _ Hsame Hsound))
    as [Hlen Hall].
  unfold bind at 1.
  match goal with |- context [for_batches _ _ 0 _ ?a ?s1] =>
    destruct (training_loop_total epoch 0
                (CustomBatchSampler.batch_of_indices (DataLoader.batch_sampler dl))
                a s1 Hg Hall)
      as (loss_sum & s2 & Hloop & Hdl & Hc)
  end.
  rewrite Hloop. unfold bind at 1, len, get. cbn [dataloader].
  rewrite Hdl. cbn [train_dataloader set_generator set_train_dataloader].
  unfold lift, div_len.
  destruct (Nat.eqb_spec (DataLoader.__len__ dl) 0) as [|_]; [done|].
  by do 2 eexists.
Qed.






(** ** Example tracking without a table *)

Lemma track_rows_no_table epoch num_examples data encoder_input decoder_input n
    (s : state) :
  table s = None ->
  1 <= n ->
  n <= length (torch.rows encoder_input) ->
  n <= length (torch.rows decoder_input) ->
  track_rows epoch num_examples data encoder_input decoder_input (seq 0 n) s
  = (if (num_examples =? 0)%Z then Ok tt else Raise (AttributeError "table"), s).
Proof.
  intros Ht Hn He Hd. destruct n as [|n]; [lia|]. cbn [seq learner.track_rows].
  rewrite Z.eqb_sym. change (Z.of_nat 0) with 0%Z.
  destruct (num_examples =? 0)%Z; [done|].
  destruct (lookup_lt_is_Some_2 (torch.rows encoder_input) 0 ltac:(lia)) as [src Hsrc].
  destruct (lookup_lt_is_Some_2 (torch.rows decoder_input) 0 ltac:(lia)) as [trg Htrg].
  unfold bind, lift, row_tolist, parameters, get, table_add_data.
  by rewrite Hsrc, Htrg, Ht.
Qed.

Lemma track_split_no_table epoch num_examples which data (s : state) :
  table s = None ->
  sound_loader (dataloader which s) ->
  track_split epoch num_examples which data s
  = (if (num_examples =? 0)%Z then Ok tt else Raise (AttributeError "table"),
     (iter_ which s).2).
Proof.
  intros Ht Hsound.
  destruct (sound_first_batch which s Hsound)
    as (first & rest & dl & g & src & trg & Hiter & Hfetch & Hlen).
  unfold learner.track_split, bind.
  rewrite (first_batch_fetched _ _ _ _ _ _ _ Hiter Hfetch).
  destruct (dataset_properties.fetch_shape _ _ _ _ Hfetch) as (_ & H0 & He & Hd).
  destruct (iter_keeps which s) as (Ht' & _).
  unfold range. rewrite track_rows_no_table; [done|congruence|lia|lia|lia].
Qed.

Lemma track_example_no_table epoch num_examples (s : state) :
  table s = None ->
  sound_loader (train_dataloader s) ->
  sound_loader (val_dataloader s) ->
  track_example epoch num_examples s
  = if (num_examples =? 0)%Z
    then (Ok tt, (iter_ Validation (iter_ Train (set_training false s)).2).2)
    else (Raise (AttributeError "table"), (iter_ Train (set_training false s)).2).
Proof.
  intros Ht Htrain Hval. unfold learner.track_example, bind at 1, modify.
  cbv beta iota. unfold bind.
  rewrite (track_split_no_table _ _ Train _ (set_training false s) Ht Htrain).
  destruct (num_examples =? 0)%Z eqn:E; [|done].
  destruct (iter_keeps Train (set_training false s)) as (Ht1 & _).
  rewrite track_split_no_table; [by rewrite E|by rewrite Ht1|].
  cbn [dataloader]. unfold iter_. by destruct (DataLoader.__iter__ _ _) as [[? ?] ?].
Qed.

(** X10: the table is made by [fit] and by nothing else: a new learner has
    none, and example tracking on a learner without one, over loaders that
    can be iterated, raises the error of the missing attribute as soon as
    it has a row to add, which is in its first turn unless [num_examples]
    is zero; the training loader has been reshuffled by then, and nothing
    else has changed.  With [num_examples] zero it adds no row and
    completes. *)
Theorem example_tracking_needs_the_table_of_fit
    (epoch num_examples : Z) (s : state) :
  table s = None ->
  sound_loader (train_dataloader s) ->
  sound_loader (val_dataloader s) ->
  let outcome := track_example epoch num_examples s in
  (num_examples = 0%Z -> outcome.1 = Ok tt)
  /\ (num_examples <> 0%Z ->
        outcome.1 = Raise (AttributeError "table")
        /\ val_dataloader outcome.2 = val_dataloader s
        /\ outcome.2 = (iter_ Train (set_training false s)).2)
  /\ table outcome.2 = None
  /\ learning outcome.2 = learning s
  /\ (forall cfg mdl train_dl val_dl opt sch st gen,
        table (learner.__init__ cfg mdl train_dl val_dl opt sch st gen : state)
        = None).
Proof.
  intros Ht Htrain Hval outcome.
  pose proof (tracking_keeps_learning _ _ (track_example_steps epoch num_examples s))
    as Hlearning.
  fold outcome in Hlearning. subst outcome.
  rewrite (track_example_no_table epoch num_examples s Ht Htrain Hval) in *.
  destruct (iter_keeps Train (set_training false s)) as (Ht1 & _).
  destruct (iter_keeps Validation (iter_ Train (set_training false s)).2) as (Ht2 & _).
  assert (val_dataloader (iter_ Train (set_training false s)).2 = val_dataloader s)
    as Hval1.
  { unfold iter_. by destruct (DataLoader.__iter__ _ _) as [[? ?] ?]. }
  destruct (Z.eqb_spec num_examples 0) as [->|Hne]; cbn [fst snd] in *.
  - split_and!; [done|done|by rewrite Ht2, Ht1|done|].
    intros. unfold learner.__init__. by destruct (deepcopy _ _).
  - split_and!; [done|done|by rewrite Ht1|done|].
    intros. unfold learner.__init__. by destruct (deepcopy _ _).
Qed.

(** ** A run of no epoch *)

Lemma range2_empty (a b : Z) : (b <= a)%Z -> range2 a b = [].
Proof. intros H. unfold range2. by replace (Z.to_nat (b - a)) with 0 by lia. Qed.

(** X11: with a number of epochs that is zero or negative, [fit] runs no
    epoch: it makes a new and empty table, dropping the rows of any table
    there was, flushes it, and leaves everything else as it was, whatever
    state the loaders are in. *)
Theorem fit_of_no_epoch_flushes_an_empty_table
    (start_epoch n_epochs : Z) (s : state) :
  (n_epochs <= 0)%Z ->
  fit start_epoch n_epochs s
  = (Ok tt,
     set_trace (trace s ++ [wandb_log_table "Tracking" []]) (set_table (Some []) s)).
Proof.
  intros Hn. unfold learner.fit. rewrite range2_empty by lia. reflexivity.
Qed.

(** ** Periods of zero *)


Lemma first_epoch (start_epoch n_epochs : Z) :
  (0 < n_epochs)%Z ->
  exists epochs, range2 start_epoch (start_epoch + n_epochs) = start_epoch :: epochs.
Proof.
  intros Hn. unfold range2.
  replace (start_epoch + n_epochs - start_epoch)%Z with n_epochs by lia.
  destruct (Z.to_nat n_epochs) as [|n] eqn:E; [lia|]. cbn.
  rewrite Z.add_0_r. by eexists.
Qed.



Lemma unsaved_keeps_checkpoints (s s' : state) :
  steps [Mode; Track; Log; Step; Flush] s s' ->
  checkpoints (trace s') = checkpoints (trace s).
Proof.
  apply (steps_within _ (keeps (fun s => checkpoints (trace s)))).
  intros k s1 s2 Hk Hp%prim_inv. unfold keeps.
  apply list_elem_of_In in Hk. destruct Hk as [<-|[<-|[<-|[<-|[<-|[]]]]]];
    repeat match goal with
           | H : _ \/ _ |- _ => destruct H
           | H : ex _ |- _ => destruct H
           | H : _ /\ _ |- _ => destruct H
           end; subst; try done; cbn;
    unfold checkpoints; by rewrite !omap_app, !app_nil_r.
Qed.

(** X13: with a checkpoint period of zero a training epoch over a loader that
    can be iterated runs all its batches and logs its average loss, and
    then stops at the remainder by zero: no checkpoint is saved, and the
    best model and the best loss are left as they were, however low the
    average loss of the epoch. *)
Theorem zero_checkpoint_period_stops_the_epoch_before_the_best_model
    (epoch : Z) (s : state) :
  MODEL_SAVE_EPOCH_CNT (config s) = 0%Z ->
  GRAD_ACCUMULATION_STEPS (config s) <> 0%Z ->
  sound_loader (train_dataloader s) ->
  let outcome := training_epoch epoch s in
  let n := Z.of_nat (DataLoader.__len__ (train_dataloader s)) in
  outcome.1 = Raise ZeroDivisionError
  /\ global_step outcome.2 = (global_step s + n + 1)%Z
  /\ training_step outcome.2 = (training_step s + n)%Z
  /\ (exists loss_avg,
        train_avg_losses (trace outcome.2) = train_avg_losses (trace s) ++ [loss_avg])
  /\ checkpoints (trace outcome.2) = checkpoints (trace s)
  /\ best_val_loss outcome.2 = best_val_loss s
  /\ best_model_state_dict outcome.2 = best_model_state_dict s.
Proof.
  intros Hcnt Hg Hsound outcome n. subst outcome n.
  destruct (training_loop_epoch_total epoch s Hg Hsound) as (loss_avg & s1 & H1 & Hc).
  pose proof (training_loop_epoch_ok epoch loss_avg s s1 H1) as [Hgs Hts].
  pose proof (training_loop_avg_losses epoch s) as Havg.
  pose proof (respects_training_loop [Mode; Log; Step] epoch
                ltac:(kinds) ltac:(kinds) ltac:(kinds) s) as Hsteps.
  rewrite H1 in Havg, Hsteps. cbn [snd] in Havg, Hsteps.
  assert (steps [Mode; Track; Log; Step; Flush] s s1) as Hunsaved
    by (eapply steps_mono; [|exact Hsteps]; kinds).
  pose proof (unsaved_keeps_best _ _ Hunsaved) as Hbest. injection Hbest as Hbl Hbd.
  pose proof (unsaved_keeps_checkpoints _ _ Hunsaved) as Hcp.
  assert (training_epoch epoch s
          = (Raise ZeroDivisionError,
             set_global_step (global_step s1 + 1)%Z
               (set_trace
                  (trace s1 ++
                   [wandb_log [("Epoch", Int epoch); ("Train/Avg_loss", Float loss_avg)]
                      (global_step s1)]) s1))) as ->.
  { unfold learner.training_epoch, bind at 1. rewrite H1.
    unfold training_summary, log, bind, get, emit, modify, lift, mod_.
    cbn -[Z.modulo Z.eqb Z.add read deepcopy]. by rewrite Hc, Hcnt. }
  cbn -[Z.add train_avg_losses checkpoints].
  split_and!; try done; try lia.
  - exists loss_avg. rewrite train_avg_losses_app, Havg. done.
  - unfold checkpoints in *. rewrite omap_app, Hcp. cbn. by rewrite app_nil_r.
Qed.

(** ** The checkpoints *)

Lemma training_summary_ok epoch loss_avg (s s' : state) :
  training_summary epoch loss_avg s = (Ok tt, s') ->
  MODEL_SAVE_EPOCH_CNT (config s) <> 0%Z
  /\ config s' = config s
  /\ train_avg_losses (trace s') = train_avg_losses (trace s) ++ [loss_avg]
  /\ checkpoints (trace s') =
       checkpoints (trace s)
       ++ (if divides (MODEL_SAVE_EPOCH_CNT (config s)) epoch
           then [(epoch, loss_avg)] else [])
  /\ training s' = training s
  /\ trace s' =
       trace s
       ++ [wandb_log [("Epoch", Int epoch); ("Train/Avg_loss", Float loss_avg)]
             (global_step s)]
       ++ (if divides (MODEL_SAVE_EPOCH_CNT (config s)) epoch
           then [checkpointSaver epoch loss_avg] else [])
  /\ best_val_loss s' =
       (if (loss_avg <? best_val_loss s)%float then loss_avg else best_val_loss s).
Proof.
  unfold training_summary, log, bind, get, emit, modify, lift, mod_, save_best, ret.
  cbn -[Z.modulo Z.eqb Z.add read deepcopy train_avg_losses checkpoints].
  destruct (Z.eqb_spec (MODEL_SAVE_EPOCH_CNT (config s)) 0) as [|Hcnt]; [done|].
  unfold divides. destruct (epoch mod _ =? 0)%Z;
    cbn -[Z.modulo Z.eqb Z.add read deepcopy train_avg_losses checkpoints];
    destruct (loss_avg <? _)%float eqn:Hlt;
    cbn -[Z.modulo Z.eqb Z.add read deepcopy train_avg_losses checkpoints];
    intros [= <-]; cbn -[train_avg_losses checkpoints deepcopy];
    try destruct (deepcopy _ _) as [snapshot st];
    cbn -[train_avg_losses checkpoints];
    unfold checkpoints; rewrite ?train_avg_losses_app, ?omap_app; cbn;
    rewrite ?app_nil_r, <- ?app_assoc; done.
Qed.

Lemma training_epoch_checkpoints epoch (s s' : state) :
  training_epoch epoch s = (Ok tt, s') ->
  config s' = config s
  /\ exists loss_avg,
       train_avg_losses (trace s') = train_avg_losses (trace s) ++ [loss_avg]
       /\ checkpoints (trace s') =
            checkpoints (trace s)
            ++ (if divides (MODEL_SAVE_EPOCH_CNT (config s)) epoch
                then [(epoch, loss_avg)] else []).
Proof.
  intros H. unfold learner.training_epoch in H.
  apply bind_ok in H as (loss_avg & s1 & H1 & H).
  pose proof (training_loop_avg_losses epoch s) as Havg.
  pose proof (respects_training_loop [Mode; Log; Step] epoch
                ltac:(kinds) ltac:(kinds) ltac:(kinds) s) as Hsteps.
  rewrite H1 in Havg, Hsteps. cbn [snd] in Havg, Hsteps.
  pose proof (steps_same_data _ _ _ Hsteps) as (Hc & _).
  assert (steps [Mode; Track; Log; Step; Flush] s s1) as Hunsaved
    by (eapply steps_mono; [|exact Hsteps]; kinds).
  apply unsaved_keeps_checkpoints in Hunsaved.
  apply training_summary_ok in H as (_ & Hc' & Havg' & Hcp & _).
  split; [congruence|]. exists loss_avg. by rewrite Havg', Hcp, Havg, Hunsaved, Hc.
Qed.

Lemma epoch_body_checkpoints epoch (s s' : state) :
  epoch_body epoch s = (Ok tt, s') ->
  config s' = config s
  /\ exists loss_avg,
       train_avg_losses (trace s') = train_avg_losses (trace s) ++ [loss_avg]
       /\ checkpoints (trace s') =
            checkpoints (trace s)
            ++ (if divides (MODEL_SAVE_EPOCH_CNT (config s)) epoch
                then [(epoch, loss_avg)] else []).
Proof.
  intros H. unfold learner.epoch_body in H.
  apply bind_ok in H as ([] & s1 & H1 & H).
  apply bind_ok in H as ([] & s2 & H2 & H).
  pose proof (tracking_keeps_learning _ _ (track_example_steps epoch 2 s)) as Hk1.
  rewrite H1 in Hk1. unfold learning in Hk1. cbn [snd] in Hk1.
  injection Hk1 as Hc1 _ _ _ _ _ _ _ _ _ Htr1.
  pose proof (validation_epoch_steps epoch s1) as Hsteps2.
  pose proof (validation_epoch_avg_losses epoch s1) as Havg2.
  rewrite H2 in Hsteps2, Havg2. cbn [snd] in Hsteps2, Havg2.
  pose proof (steps_same_data _ _ _ Hsteps2) as (Hc2 & _).
  assert (steps [Mode; Track; Log; Step; Flush] s1 s2) as Hunsaved
    by (eapply steps_mono; [|exact Hsteps2]; kinds).
  apply unsaved_keeps_checkpoints in Hunsaved.
  apply training_epoch_checkpoints in H as (Hc3 & loss_avg & Havg & Hcp).
  split; [congruence|]. exists loss_avg.
  by rewrite Havg, Hcp, Havg2, Hunsaved, Htr1, Hc2, Hc1.
Qed.

Lemma for_epochs_checkpoints epochs (s s' : state) :
  for_epochs epochs s = (Ok tt, s') ->
  exists avgs,
    train_avg_losses (trace s') = train_avg_losses (trace s) ++ avgs
    /\ length avgs = length epochs
    /\ checkpoints (trace s') =
         checkpoints (trace s)
         ++ List.filter (fun p => divides (MODEL_SAVE_EPOCH_CNT (config s)) p.1)
              (zip epochs avgs).
Proof.
  revert s. induction epochs as [|epoch epochs IH]; intros s H; cbn [learner.for_epochs] in H.
  - injection H as <-. exists []. by rewrite !app_nil_r.
  - apply bind_ok in H as ([] & s1 & H1 & H).
    apply epoch_body_checkpoints in H1 as (Hc & loss_avg & Havg & Hcp).
    apply IH in H as (avgs & Havg' & Hlen & Hcp'). rewrite Hc in Hcp'.
    exists (loss_avg :: avgs). rewrite Havg', Havg, Hcp', Hcp, <- !app_assoc.
    split_and!; [done|cbn; lia|]. f_equal. cbn.
    by destruct (divides _ epoch).
Qed.

(** X14: a training epoch that completes saves a checkpoint exactly when the
    remainder of its epoch number by the checkpoint period is zero, that
    is, when the period divides the number; the checkpoint carries the
    epoch number and the average loss the epoch has just logged.  Over a
    run that completes, the checkpoints saved are those of the epochs of
    the run whose number the period divides, in the order of the epochs,
    each with the average loss of its epoch. *)
Theorem checkpoints_are_saved_on_multiples_of_the_period :
  (forall epoch (s s' : state),
      training_epoch epoch s = (Ok tt, s') ->
      exists loss_avg,
        train_avg_losses (trace s') = train_avg_losses (trace s) ++ [loss_avg]
        /\ checkpoints (trace s') =
             checkpoints (trace s)
             ++ (if divides (MODEL_SAVE_EPOCH_CNT (config s)) epoch
                 then [(epoch, loss_avg)] else []))
  /\ (forall start_epoch n_epochs (s s' : state),
        fit start_epoch n_epochs s = (Ok tt, s') ->
        exists avgs,
          train_avg_losses (trace s') = train_avg_losses (trace s) ++ avgs
          /\ Z.of_nat (length avgs) = Z.max 0 n_epochs
          /\ checkpoints (trace s') =
               checkpoints (trace s)
               ++ List.filter
                    (fun p => divides (MODEL_SAVE_EPOCH_CNT (config s)) p.1)
                    (zip (range2 start_epoch (start_epoch + n_epochs)) avgs))
  /\ (forall period epoch,
        period <> 0%Z -> (divides period epoch = true <-> (period | epoch)%Z)).
Proof.
  split_and!.
  - intros epoch s s' H. by apply training_epoch_checkpoints in H as (_ & H).
  - intros start_epoch n_epochs s s' H. unfold learner.fit in H.
    apply bind_ok in H as ([] & s0 & [= <-] & H).
    apply bind_ok in H as ([] & s1 & Hrun & H).
    apply bind_ok in H as (t & s2 & [= <- <-] & H).
    destruct (table s1) as [rows|]; [|done].
    unfold emit, modify in H. injection H as <-.
    apply for_epochs_checkpoints in Hrun as (avgs & Havg & Hlen & Hcp).
    exists avgs. cbn -[train_avg_losses checkpoints] in *.
    unfold checkpoints in *. rewrite train_avg_losses_app, omap_app, Havg, Hcp.
    cbn. rewrite !app_nil_r. split_and!; [done| |done].
    rewrite Hlen. unfold range2. rewrite length_map, length_seq. lia.
  - intros period epoch Hne. unfold divides.
    rewrite Z.eqb_eq. by apply Z.mod_divide.
Qed.

(** ** The losses logged *)

Lemma logged_app key tr1 tr2 :
  logged key (tr1 ++ tr2) = logged key tr1 ++ logged key tr2.
Proof. apply omap_app. Qed.

Lemma training_batch_logged epoch batch_idx batch loss_sum loss_sum' (s s' : state) :
  training_batch epoch batch_idx batch loss_sum s = (Ok loss_sum', s') ->
  exists loss new,
    loss_sum' = (loss_sum + loss)%float
    /\ trace s' = trace s ++ new
    /\ logged "Train/Loss" new = [Float loss]
    /\ logged "Batch" new = [Int (Z.of_nat batch_idx)]
    /\ logged "Epoch" new = [Int epoch]
    /\ logged "Train/Avg_loss" new = []
    /\ logged "Validation/Loss" new = []
    /\ logged "Validation/Avg_loss" new = []
    /\ logged "Validation/BLEU" new = [].
Proof.
  intros H.
  destruct (Z.eq_dec (GRAD_ACCUMULATION_STEPS (config s)) 0%Z) as [Hz|Hnz].
  { by rewrite training_batch_zero in H by done. }
  destruct (training_batch_ok epoch batch_idx batch loss_sum s Hnz)
    as (s1 & E & _ & _ & Htrace & _).
  rewrite E in H. injection H as <- <-.
  eexists _, _. split; [reflexivity|]. split; [exact Htrace|].
  destruct (_ =? _)%Z; [destruct (scheduler s)|]; by cbn.
Qed.

Lemma training_batches_logged epoch idx batches loss_sum loss_sum' (s s' : state) :
  for_batches Train (training_batch epoch) idx batches loss_sum s = (Ok loss_sum', s') ->
  exists losses new,
    trace s' = trace s ++ new
    /\ length losses = length batches
    /\ loss_sum' = fold_left (fun a l => (a + l)%float) losses loss_sum
    /\ logged "Train/Loss" new = List.map Float losses
    /\ logged "Batch" new
       = List.map (fun i => Int (Z.of_nat i)) (seq idx (length batches))
    /\ logged "Epoch" new = repeat (Int epoch) (length batches)
    /\ logged "Train/Avg_loss" new = []
    /\ logged "Validation/Loss" new = []
    /\ logged "Validation/Avg_loss" new = []
    /\ logged "Validation/BLEU" new = [].
Proof.
  revert idx loss_sum s. induction batches as [|b batches IH]; intros idx loss_sum s H.
  - injection H as <- <-. exists [], []. by rewrite app_nil_r.
  - rewrite for_batches_cons in H.
    destruct (DataLoader.fetch _ _) as [batch|e]; [|done].
    destruct (training_batch epoch idx batch loss_sum s) as [[loss_sum1|e] s1] eqn:E;
      [|done].
    apply training_batch_logged in E
      as (loss & new1 & -> & Ht1 & Hl1 & Hb1 & He1 & Ha1 & Hv1 & Hva1 & Hvb1).
    apply IH in H
      as (losses & new & Ht & Hlen & -> & Hl & Hb & He & Ha & Hv & Hva & Hvb).
    exists (loss :: losses), (new1 ++ new).
    rewrite Ht, Ht1, <- app_assoc, !logged_app, Hl1, Hb1, He1, Ha1, Hl, Hb, He, Ha,
      Hv1, Hv, Hva1, Hva, Hvb1, Hvb.
    cbn. by rewrite Hlen.
Qed.

Lemma training_loop_logged epoch loss_avg (s s' : state) :
  training_loop epoch s = (Ok loss_avg, s') ->
  exists losses new,
    trace s' = trace s ++ new
    /\ length losses = DataLoader.__len__ (train_dataloader s)
    /\ loss_avg = (sum_losses losses / float_of_nat (length losses))%float
    /\ logged "Train/Loss" new = List.map Float losses
    /\ logged "Batch" new
       = List.map (fun i => Int (Z.of_nat i)) (seq 0 (length losses))
    /\ logged "Epoch" new = repeat (Int epoch) (length losses)
    /\ logged "Train/Avg_loss" new = []
    /\ logged "Validation/Loss" new = []
    /\ logged "Validation/Avg_loss" new = []
    /\ logged "Validation/BLEU" new = [].
Proof.
  intros H. unfold learner.training_loop in H.
  apply bind_ok in H as ([] & s0 & [= <-] & H).
  apply bind_ok in H as (batches & s1 & H1 & H).
  destruct (iter_spec Train (set_training true s)) as (dl & g & E & _ & Hperm).
  rewrite E in H1. injection H1 as <- <-.
  apply bind_ok in H as (loss_sum & s2 & Hloop & H).
  apply bind_ok in H as (n & s3 & [= <- <-] & H).
  pose proof (training_loop_ok _ _ _ _ _ _ _ Hloop) as (_ & _ & _ & Hdl & _).
  apply training_batches_logged in Hloop
    as (losses & new & Ht & Hlen & -> & Hl & Hb & He & Ha & Hv & Hva & Hvb).
  unfold lift, div_len in H. cbn [dataloader] in H. rewrite Hdl in H.
  cbn [train_dataloader set_generator set_train_dataloader] in H.
  assert (DataLoader.__len__ dl = length losses) as Hn
    by (by rewrite Hlen).
  rewrite Hn in H. destruct (length losses =? 0); [done|]. injection H as <- <-.
  exists losses, new. rewrite Hlen. split_and!; try done.
  unfold DataLoader.__len__, CustomBatchSampler.__len__. cbn [train_dataloader].
  by rewrite Hperm.
Qed.

Lemma validation_batches_logged epoch idx batches acc acc' (s s' : state) :
  for_batches Validation (validation_batch epoch) idx batches acc s = (Ok acc', s') ->
  exists losses new,
    trace s' = trace s ++ new
    /\ length losses = length batches
    /\ acc'.1.1 = fold_left (fun a l => (a + l)%float) losses acc.1.1
    /\ logged "Validation/Loss" new = List.map Float losses
    /\ logged "Epoch" new = repeat (Int epoch) (length batches)
    /\ logged "Validation/Avg_loss" new = []
    /\ logged "Validation/BLEU" new = []
    /\ logged "Train/Loss" new = []
    /\ logged "Train/Avg_loss" new = []
    /\ logged "Batch" new = [].
Proof.
  revert idx acc s. induction batches as [|b batches IH]; intros idx acc s H.
  - injection H as <- <-. exists [], []. by rewrite app_nil_r.
  - rewrite for_batches_cons in H.
    destruct (DataLoader.fetch _ _) as [batch|e]; [|done].
    destruct (validation_batch_spec epoch idx batch acc s)
      as (_ & _ & [(predict & target & E)|[E _]]); rewrite E in H; [|done].
    apply IH in H as (losses & new & Ht & Hlen & Hsum & Hl & He & Ha & Hb & Hr).
    eexists (_ :: losses), (_ :: new).
    cbn [trace set_global_step set_trace] in Ht. rewrite <- app_assoc in Ht.
    split; [exact Ht|]. cbn [fst snd] in Hsum.
    change (?x :: new) with ([x] ++ new). rewrite !logged_app, Hl, He, Ha, Hb.
    destruct Hr as (-> & -> & ->).
    cbn. by rewrite Hlen, Hsum.
Qed.

Lemma validation_epoch_logged epoch (s s' : state) :
  validation_epoch epoch s = (Ok tt, s') ->
  exists losses bleu new,
    trace s' = trace s ++ new
    /\ length losses = DataLoader.__len__ (val_dataloader s)
    /\ logged "Validation/Loss" new = List.map Float losses
    /\ logged "Validation/Avg_loss" new
       = [Float (sum_losses losses / float_of_nat (length losses))]
    /\ logged "Validation/BLEU" new = [Float bleu]
    /\ logged "Epoch" new = repeat (Int epoch) (S (length losses))
    /\ logged "Train/Loss" new = []
    /\ logged "Train/Avg_loss" new = []
    /\ logged "Batch" new = [].
Proof.
  intros H. unfold learner.validation_epoch in H.
  apply bind_ok in H as ([] & s0 & [= <-] & H).
  apply bind_ok in H as (batches & s1 & H1 & H).
  destruct (iter_spec Validation (set_training false s)) as (dl & g & E & _ & Hperm).
  rewrite E in H1. injection H1 as <- <-.
  apply bind_ok in H as ([[loss_sum predict] target] & s2 & Hloop & H).
  apply bind_ok in H as (n & s3 & [= <- <-] & H).
  pose proof (validation_loop_ok _ _ _ _ _ _ _ Hloop) as (_ & Hdl & _).
  apply validation_batches_logged in Hloop
    as (losses & new & Ht & Hlen & Hsum & Hl & He & Ha & Hb & Hr1 & Hr2 & Hr3).
  cbn [fst snd] in Hsum. subst loss_sum.
  apply bind_ok in H as (loss_avg & s3 & H3 & H).
  unfold lift, div_len in H3. cbn [dataloader] in H3. rewrite Hdl in H3.
  cbn [val_dataloader set_generator set_val_dataloader] in H3.
  assert (DataLoader.__len__ dl = length losses) as Hn by (by rewrite Hlen).
  rewrite Hn in H3. destruct (length losses =? 0); [done|]. injection H3 as <- <-.
  unfold log, bind, get, emit, modify in H. injection H as <-.
  eexists losses, _, (new ++ [_]).
  cbn [trace set_global_step set_trace]. rewrite Ht, <- app_assoc.
  split; [reflexivity|]. rewrite !logged_app, Hl, He, Ha, Hb, Hr1, Hr2, Hr3, Hlen.
  cbn. rewrite ?app_nil_r. split_and!; try done.
  - unfold DataLoader.__len__, CustomBatchSampler.__len__. cbn [val_dataloader].
    by rewrite Hperm.
  - by rewrite repeat_cons.
Qed.

(** X15: what an epoch logs.  A training epoch that completes logs the loss of
    each of its batches, with the index of the batch, and then the average
    loss, which is the sum of these losses, added one after the other from
    zero in the order of the batches, divided by their number.  A
    validation epoch that completes logs the loss of each of its batches
    and then, in one record, the average made in the same way and the
    BLEU score.  Every record carries the epoch number; there is one loss
    for each batch of the loader. *)
Theorem average_loss_is_the_sum_of_the_batch_losses_over_their_number :
  (forall epoch (s s' : state),
      training_epoch epoch s = (Ok tt, s') ->
      exists losses new,
        trace s' = trace s ++ new
        /\ length losses = DataLoader.__len__ (train_dataloader s)
        /\ logged "Train/Loss" new = List.map Float losses
        /\ logged "Batch" new
           = List.map (fun i => Int (Z.of_nat i)) (seq 0 (length losses))
        /\ logged "Train/Avg_loss" new
           = [Float (sum_losses losses / float_of_nat (length losses))]
        /\ logged "Epoch" new = repeat (Int epoch) (S (length losses))
        /\ logged "Validation/Loss" new = []
        /\ logged "Validation/Avg_loss" new = []
        /\ logged "Validation/BLEU" new = [])
  /\ (forall epoch (s s' : state),
        validation_epoch epoch s = (Ok tt, s') ->
        exists losses bleu new,
          trace s' = trace s ++ new
          /\ length losses = DataLoader.__len__ (val_dataloader s)
          /\ logged "Validation/Loss" new = List.map Float losses
          /\ logged "Validation/Avg_loss" new
             = [Float (sum_losses losses / float_of_nat (length losses))]
          /\ logged "Validation/BLEU" new = [Float bleu]
          /\ logged "Epoch" new = repeat (Int epoch) (S (length losses))
          /\ logged "Train/Loss" new = []
          /\ logged "Train/Avg_loss" new = []
          /\ logged "Batch" new = []).
Proof.
  split; [|apply validation_epoch_logged].
  intros epoch s s' H. unfold learner.training_epoch in H.
  apply bind_ok in H as (loss_avg & s1 & H1 & H).
  apply training_loop_logged in H1
    as (losses & new & Ht & Hlen & -> & Hl & Hb & He & Ha & Hv & Hva & Hvb).
  apply training_summary_ok in H as (_ & _ & _ & _ & _ & Ht' & _).
  eexists losses, (new ++ _). rewrite Ht', Ht, <- !app_assoc.
  split; [reflexivity|]. rewrite !logged_app, Hl, Hb, He, Ha, Hv, Hva, Hvb.
  destruct (divides _ _); cbn; rewrite ?app_nil_r; split_and!; try done;
    by rewrite repeat_cons.
Qed.

(** ** The mode of the network, and what tracking and validation leave
    alone *)

Local Abbreviation same_mode := (keeps (fun s : state => training s)).

Lemma iter_keeps_training which : respects same_mode (iter_ which).
Proof. intros s. unfold keeps. apply iter_keeps. Qed.

Lemma track_split_keeps_training epoch num_examples which data :
  respects same_mode (track_split epoch num_examples which data).
Proof.
  apply respects_bind; [apply _| |].
  - apply respects_bind; [apply _|apply iter_keeps_training|].
    intros [|b bs]; [apply respects_raise|apply respects_fetch]; apply _.
  - intros [encoder_input decoder_input] s. unfold keeps.
    pose proof (track_rows_steps epoch num_examples data encoder_input decoder_input
                  (range (torch.size0 encoder_input)) s) as H%tracking_rows_only.
    by injection H.
Qed.

Lemma log_keeps_training {A} data (k : M A) :
  respects same_mode k ->
  respects same_mode
    (bind (log data) (fun _ =>
       bind (modify (fun s => set_global_step (global_step s + 1)%Z s))
         (fun _ => k))).
Proof.
  intros Hk s. unfold bind, log, get, emit, modify. cbn -[Z.add].
  etrans; [|apply Hk]. done.
Qed.

Lemma training_batch_keeps_training epoch batch_idx batch loss_sum :
  respects same_mode (training_batch epoch batch_idx batch loss_sum).
Proof.
  intros s. unfold keeps.
  destruct (Z.eq_dec (GRAD_ACCUMULATION_STEPS (config s)) 0%Z) as [Hz|Hnz].
  - by rewrite training_batch_zero.
  - destruct (training_batch_ok epoch batch_idx batch loss_sum s Hnz)
      as (s1 & -> & _ & _ & _ & _ & _ & _ & _ & _ & _ & _ & Htr & _).
    exact Htr.
Qed.

Lemma training_summary_keeps_training epoch loss_avg :
  respects same_mode (training_summary (Tensor := Tensor) epoch loss_avg).
Proof.
  apply log_keeps_training.
  apply respects_bind; [apply _|apply respects_get; apply _|]. intros cnt.
  apply respects_bind; [apply _|apply respects_lift; apply _|]. intros r.
  apply respects_bind; [apply _| |].
  { destruct (r =? 0)%Z; [|apply respects_ret; apply _]. by intros s. }
  intros _ s. unfold keeps, save_best, bind, get, modify, ret. cbn -[deepcopy].
  destruct (loss_avg <? _)%float; [|done]. cbn -[deepcopy].
  by destruct (deepcopy _ _).
Qed.

Lemma track_example_mode epoch num_examples (s : state) :
  training (track_example epoch num_examples s).2 = false.
Proof.
  unfold learner.track_example, bind at 1, modify. cbv beta iota.
  match goal with |- training (?m ?s0).2 = false =>
    assert (respects same_mode m) as H
  end.
  { apply respects_bind; [apply _| |]; intros; apply track_split_keeps_training. }
  apply (H (set_training false s)).
Qed.

Lemma validation_epoch_mode epoch (s : state) :
  training (validation_epoch epoch s).2 = false.
Proof.
  unfold learner.validation_epoch, bind at 1, modify. cbv beta iota.
  match goal with |- training (?m ?s0).2 = false =>
    assert (respects same_mode m) as H
  end.
  { apply respects_bind; [apply _|apply iter_keeps_training|]. intros batches.
    apply respects_bind; [apply _| |].
    { apply respects_for_batches; [apply _|]. intros idx batch acc s0. unfold keeps.
      by destruct (validation_batch_ok epoch idx batch acc s0) as (? & ? & ->). }
    intros [[loss_sum predict_text_list] target_text_list].
    apply respects_bind; [apply _|apply respects_get; apply _|]. intros n.
    apply respects_bind; [apply _|apply respects_lift; apply _|]. intros loss_avg.
    by intros s0. }
  apply (H (set_training false s)).
Qed.

Lemma training_epoch_mode epoch (s : state) :
  training (training_epoch epoch s).2 = true.
Proof.
  unfold learner.training_epoch, learner.training_loop.
  unfold bind at 1. unfold bind at 1. unfold modify. cbv beta iota.
  match goal with |- training (let (_, _) := ?m ?s0 in _).2 = true =>
    assert (respects same_mode m) as H
  end.
  { apply respects_bind; [apply _|apply iter_keeps_training|]. intros batches.
    apply respects_bind; [apply _| |].
    { apply respects_for_batches; [apply _|]. intros.
      apply training_batch_keeps_training. }
    intros loss_sum.
    apply respects_bind; [apply _|apply respects_get; apply _|]. intros n.
    apply respects_lift; apply _. }
  specialize (H (set_training true s)). unfold keeps in H.
  match goal with |- training (let (_, _) := ?x in _).2 = true =>
    destruct x as [[loss_avg|e] s1]
  end; cbn [snd] in *; [|done].
  by rewrite (training_summary_keeps_training epoch loss_avg s1).
Qed.

Lemma for_epochs_mode epochs (s s' : state) :
  epochs <> [] ->
  for_epochs epochs s = (Ok tt, s') ->
  training s' = true.
Proof.
  revert s. induction epochs as [|epoch epochs IH]; intros s Hne H; [done|].
  cbn [learner.for_epochs] in H. apply bind_ok in H as ([] & s1 & H1 & H).
  destruct epochs as [|epoch' epochs].
  - injection H as <-. unfold learner.epoch_body in H1.
    apply bind_ok in H1 as ([] & s2 & _ & H1).
    apply bind_ok in H1 as ([] & s3 & _ & H1).
    pose proof (training_epoch_mode epoch s3) as Hmode. by rewrite H1 in Hmode.
  - by apply (IH s1).
Qed.

(** X16: example tracking and a validation epoch, whether they complete or
    raise, write to no tensor and leave the gradients, the optimizer, the
    scheduler, [training_step], the best model and the configuration as
    they were; they leave each loader with its dataset and its batches, in
    some order, and the network in evaluation mode.  A training epoch
    leaves the network in training mode, and so does a run of one epoch or
    more that completes: the mode is not put back. *)
Theorem tracking_and_validation_only_read_the_model
    (epoch num_examples : Z) (s : state) :
  Forall (fun s' : state =>
      tensors s' = tensors s
      /\ grad s' = grad s
      /\ optimizer s' = optimizer s
      /\ scheduler s' = scheduler s
      /\ training_step s' = training_step s
      /\ best_val_loss s' = best_val_loss s
      /\ best_model_state_dict s' = best_model_state_dict s
      /\ config s' = config s
      /\ model s' = model s
      /\ same_loader (train_dataloader s) (train_dataloader s')
      /\ same_loader (val_dataloader s) (val_dataloader s')
      /\ training s' = false)
    [ (track_example epoch num_examples s).2; (validation_epoch epoch s).2 ]
  /\ training (training_epoch epoch s).2 = true
  /\ (forall start_epoch n_epochs s',
        (0 < n_epochs)%Z ->
        fit start_epoch n_epochs s = (Ok tt, s') ->
        training s' = true).
Proof.
  split_and!.
  - repeat apply Forall_cons_2; [| |constructor].
    + pose proof (track_example_steps epoch num_examples s) as Hsteps.
      pose proof (tracking_keeps_learning _ _ Hsteps) as Hk.
      pose proof (steps_same_data _ _ _ Hsteps) as (_ & _ & Ht & Hv).
      unfold learning in Hk. injection Hk as ? ? ? ? ? ? ? ? ? ? ?.
      split_and!; try done. apply track_example_mode.
    + pose proof (validation_epoch_steps epoch s) as Hsteps.
      pose proof (validating_keeps _ _ Hsteps) as Hk.
      pose proof (steps_same_data _ _ _ Hsteps) as (? & ? & Ht & Hv).
      injection Hk as ? ? ? ? ? ? ? ? ? ? ?.
      split_and!; try done. apply validation_epoch_mode.
  - apply training_epoch_mode.
  - intros start_epoch n_epochs s' Hn H. unfold learner.fit in H.
    apply bind_ok in H as ([] & s0 & [= <-] & H).
    apply bind_ok in H as ([] & s1 & Hrun & H).
    apply bind_ok in H as (t & s2 & [= <- <-] & H).
    destruct (table s1) as [rows|]; [|done].
    unfold emit, modify in H. injection H as <-. cbn.
    destruct (first_epoch start_epoch n_epochs Hn) as (epochs & Hrange).
    rewrite Hrange in Hrun. eapply for_epochs_mode; [|exact Hrun]. done.
Qed.

(** ** Backward passes and optimizer steps *)

Section invariant.
Context (P : state -> Prop).
Hypothesis P_quiet : forall s s', steps [Mode; Track; Flush] s s' -> P s -> P s'.
Hypothesis P_validation : forall epoch s, P s -> P (validation_epoch epoch s).2.
Hypothesis P_batch :
  forall epoch idx batch loss_sum s,
    P s -> P (training_batch epoch idx batch loss_sum s).2.
Hypothesis P_summary :
  forall epoch loss_avg s, P s -> P (training_summary epoch loss_avg s).2.

Lemma training_batches_keep epoch idx batches loss_sum (s : state) :
  P s -> P (for_batches Train (training_batch epoch) idx batches loss_sum s).2.
Proof.
  revert idx loss_sum s. induction batches as [|indices batches IH];
    intros idx loss_sum s HP; [done|].
  rewrite for_batches_cons. destruct (DataLoader.fetch _ _) as [batch|e]; [|done].
  pose proof (P_batch epoch idx batch loss_sum s HP) as H1.
  destruct (training_batch epoch idx batch loss_sum s) as [[loss_sum1|e] s1];
    cbn [snd] in H1; [by apply IH|done].
Qed.

Lemma training_epoch_keeps epoch (s : state) : P s -> P (training_epoch epoch s).2.
Proof.
  intros HP.
  assert (P (training_loop epoch s).2) as Hloop.
  { destruct (iter_spec Train (set_training true s)) as (dl & g & E & _).
    unfold learner.training_loop, bind at 1, modify. cbn [fst snd].
    unfold bind at 1. rewrite E. unfold bind at 1.
    match goal with |- context [for_batches ?w ?b ?i ?bs ?a ?s0] =>
      pose proof (training_batches_keep epoch i bs a s0) as Hb;
      destruct (for_batches w b i bs a s0) as [[loss_sum|e] s1]
    end; cbn [snd] in *.
    - unfold bind, len, get, lift. destruct (div_len _ _); cbn; apply Hb;
        (eapply P_quiet; [|exact HP]);
        (etrans; [step_by prim_mode|]);
        pose proof (respects_iter [Mode; Track; Flush] Train ltac:(kinds)
                      (set_training true s)) as Hi; by rewrite E in Hi.
    - apply Hb. eapply P_quiet; [|exact HP].
      etrans; [step_by prim_mode|].
      pose proof (respects_iter [Mode; Track; Flush] Train ltac:(kinds)
                    (set_training true s)) as Hi. by rewrite E in Hi. }
  unfold learner.training_epoch, bind.
  destruct (training_loop epoch s) as [[loss_avg|e] s1]; [|done].
  by apply P_summary.
Qed.

Lemma epoch_body_keeps epoch (s : state) : P s -> P (epoch_body epoch s).2.
Proof.
  intros HP. unfold learner.epoch_body, bind.
  pose proof (track_example_steps epoch 2 s) as H1.
  assert (P (track_example epoch 2 s).2) as HP1.
  { eapply P_quiet; [|exact HP]. eapply steps_mono; [|exact H1]. kinds. }
  destruct (track_example epoch 2 s) as [[[]|e] s1]; cbn [snd] in *; [|done].
  pose proof (P_validation epoch s1 HP1) as HP2.
  destruct (validation_epoch epoch s1) as [[[]|e] s2]; cbn [snd] in *; [|done].
  by apply training_epoch_keeps.
Qed.

Lemma for_epochs_keeps epochs (s : state) : P s -> P (for_epochs epochs s).2.
Proof.
  revert s. induction epochs as [|epoch epochs IH]; intros s HP; [done|].
  cbn [learner.for_epochs]. unfold bind.
  pose proof (epoch_body_keeps epoch s HP) as H1.
  destruct (epoch_body epoch s) as [[[]|e] s1]; cbn [snd] in *; [by apply IH|done].
Qed.

Lemma fit_keeps start_epoch n_epochs (s : state) :
  P s -> P (fit start_epoch n_epochs s).2.
Proof.
  intros HP. unfold learner.fit, bind at 1, modify. cbv beta iota.
  assert (P (set_table (Some []) s)) as HP0.
  { eapply P_quiet; [|exact HP]. step_by prim_new_table. }
  unfold bind at 1.
  pose proof (for_epochs_keeps (range2 start_epoch (start_epoch + n_epochs)) _ HP0)
    as H1.
  destruct (for_epochs _ _) as [[[]|e] s1]; cbn [snd] in *; [|done].
  unfold bind, get. destruct (table s1) as [rows|] eqn:Ht; cbn; [|done].
  eapply P_quiet; [|exact H1]. step_by prim_flush.
Qed.

End invariant.

Lemma div_succ (g t : Z) :
  (0 < g)%Z ->
  (t / g = (t - 1) / g + (if (t mod g =? 0)%Z then 1 else 0))%Z.
Proof.
  intros Hg. pose proof (Z.div_mod t g ltac:(lia)) as Hdm.
  pose proof (Z.mod_pos_bound t g Hg) as Hb.
  destruct (Z.eqb_spec (t mod g) 0) as [Hz|Hnz].
  - assert ((t - 1) / g = t / g - 1)%Z as ->; [|lia].
    symmetry. apply (Z.div_unique _ _ _ (g - 1)); lia.
  - assert ((t - 1) / g = t / g)%Z as ->; [|lia].
    symmetry. apply (Z.div_unique _ _ _ (t mod g - 1)); lia.
Qed.

(** Every backward pass is accounted for, and with a positive factor the
    optimizer steps made number the training batches processed, divided by
    the factor and rounded down. *)
Local Abbreviation balanced :=
  (fun s : state =>
     settled s
     /\ ((0 < GRAD_ACCUMULATION_STEPS (config s))%Z ->
         Z.of_nat (length (optimizer_steps (trace s)))
         = ((training_step s - 1) / GRAD_ACCUMULATION_STEPS (config s))%Z)).

Lemma quiet_balanced (s s' : state) :
  steps [Mode; Track; Log; Save; Flush] s s' -> balanced s -> balanced s'.
Proof.
  intros Hk%quiet_keeps_pending. unfold settled, pending_passes.
  injection Hk as Hc Ht Hg Hb Ho. by rewrite Hc, Ht, Hg, Hb, Ho.
Qed.

Lemma optimizer_steps_batch tr epoch batch_idx applied sch data step :
  optimizer_steps
    (tr ++ [loss_backward epoch batch_idx]
     ++ ([optimizer_step applied]
         ++ (if sch : option Scheduler is Some _ then [scheduler_step] else [])
         ++ [optimizer_zero_grad])
     ++ [wandb_log data step])
  = optimizer_steps tr ++ [applied].
Proof.
  unfold optimizer_steps. rewrite !omap_app. destruct sch; cbn; by rewrite ?app_nil_r.
Qed.

Lemma optimizer_steps_quiet_batch tr epoch batch_idx data step :
  optimizer_steps (tr ++ [loss_backward epoch batch_idx] ++ [] ++ [wandb_log data step])
  = optimizer_steps tr.
Proof. unfold optimizer_steps. rewrite !omap_app. cbn. by rewrite app_nil_r. Qed.

Lemma training_batch_balanced epoch batch_idx batch loss_sum (s : state) :
  balanced s -> balanced (training_batch epoch batch_idx batch loss_sum s).2.
Proof.
  intros [Hsettled Hcount]. unfold settled, pending_passes in *.
  destruct (Z.eq_dec (GRAD_ACCUMULATION_STEPS (config s)) 0%Z) as [Hz|Hnz].
  - rewrite training_batch_zero by done. unfold backward, bind, emit, modify.
    cbn -[backward_passes optimizer_steps]. rewrite Hz.
    unfold backward_passes, optimizer_steps in *.
    rewrite !omap_app, List.map_app. cbn. rewrite app_nil_r, app_assoc, Hsettled.
    split; [done|lia].
  - destruct (training_batch_ok epoch batch_idx batch loss_sum s Hnz)
      as (s' & -> & Hts & _ & Htrace & Hgrad & _ & Hc & _).
    cbn [snd]. rewrite Hts, Hc, Hgrad, Htrace.
    replace (training_step s + 1 - 1)%Z with (training_step s) by lia.
    destruct (Z.eqb_spec (training_step s mod GRAD_ACCUMULATION_STEPS (config s)) 0)
      as [Hdue|Hnot].
    + rewrite optimizer_steps_batch, backward_passes_batch
        by (by destruct (scheduler s)).
      rewrite concat_app. cbn. rewrite !app_nil_r, app_assoc, Hsettled.
      split; [done|]. intros Hg. rewrite length_app, (div_succ _ _ Hg), Hdue.
      cbn. specialize (Hcount Hg). lia.
    + rewrite optimizer_steps_quiet_batch, backward_passes_batch by done.
      rewrite List.map_app, app_assoc, Hsettled. split; [done|].
      intros Hg. rewrite (div_succ _ _ Hg).
      apply Z.eqb_neq in Hnot. rewrite Hnot. specialize (Hcount Hg). lia.
Qed.

Lemma fit_balanced start_epoch n_epochs (s : state) :
  balanced s -> balanced (fit start_epoch n_epochs s).2.
Proof.
  apply (fit_keeps balanced).
  - intros s0 s1 Hsteps. apply quiet_balanced. eapply steps_mono; [|exact Hsteps]. kinds.
  - intros epoch s0. apply quiet_balanced, validating_quiet, validation_epoch_steps.
  - intros. by apply training_batch_balanced.
  - intros epoch loss_avg s0. apply quiet_balanced, training_summary_quiet.
Qed.

(** X17: no gradient is lost and none is applied twice: at any point of a run,
    however it ends, the backward passes made so far are, in their order,
    those the optimizer steps have applied, each step applying the passes
    since the step before, followed by those still pending in the gradient
    buffers.  With a positive accumulation factor the optimizer steps made
    number the training batches processed divided by the factor, rounded
    down; so a run from a new learner that completes [E] epochs of [B]
    batches makes [E * B / factor] optimizer steps, rounded down. *)
Theorem every_backward_pass_is_applied_once
    (start_epoch n_epochs : Z) (s : state) :
  settled s ->
  ((0 < GRAD_ACCUMULATION_STEPS (config s))%Z ->
   Z.of_nat (length (optimizer_steps (trace s)))
   = ((training_step s - 1) / GRAD_ACCUMULATION_STEPS (config s))%Z) ->
  let s' := (fit start_epoch n_epochs s).2 in
  settled s'
  /\ ((0 < GRAD_ACCUMULATION_STEPS (config s))%Z ->
      Z.of_nat (length (optimizer_steps (trace s')))
      = ((training_step s' - 1) / GRAD_ACCUMULATION_STEPS (config s))%Z)
  /\ ((0 < GRAD_ACCUMULATION_STEPS (config s))%Z ->
      training_step s = 1%Z ->
      (fit start_epoch n_epochs s).1 = Ok tt ->
      Z.of_nat (length (optimizer_steps (trace s')))
      = (Z.max 0 n_epochs * Z.of_nat (DataLoader.__len__ (train_dataloader s))
         / GRAD_ACCUMULATION_STEPS (config s))%Z)
  /\ (forall cfg mdl train_dl val_dl opt sch st gen,
        let new : state :=
          learner.__init__ cfg mdl train_dl val_dl opt sch st gen in
        settled new /\ optimizer_steps (trace new) = [] /\ training_step new = 1%Z).
Proof.
  intros Hsettled Hcount s'.
  destruct (fit_balanced start_epoch n_epochs s (conj Hsettled Hcount))
    as [Hsettled' Hcount'].
  pose proof (steps_same_data _ _ _ (respects_fit start_epoch n_epochs s)) as (Hc & _).
  fold s' in Hsettled', Hcount', Hc. rewrite Hc in Hcount'.
  split_and!; [done|done| |].
  - intros Hg Hts Hok. rewrite (Hcount' Hg). subst s'.
    destruct (fit start_epoch n_epochs s) as [[[]|e] s1] eqn:E; [|done].
    apply fit_ok in E as [_ Hts']. cbn [snd]. rewrite Hts', Hts. f_equal. lia.
  - intros. subst new. unfold learner.__init__. destruct (deepcopy _ _). by cbn.
Qed.

(** ** The table a run flushes *)

Lemma tracked_spec epoch data params encoder_input decoder_input count :
  length (tracked translate decode epoch data params encoder_input decoder_input count)
  = Nat.min count
      (Nat.min (length (torch.rows encoder_input)) (length (torch.rows decoder_input)))
  /\ Forall (fun r => row_epoch r = epoch /\ row_data r = data)
       (tracked translate decode epoch data params encoder_input decoder_input count).
Proof.
  unfold tracked. split.
  - by rewrite length_map, length_take, length_zip_with.
  - apply List.Forall_map, Forall_forall. by intros ids _.
Qed.

Lemma epoch_body_tracked epoch rows (s s' : state) :
  table s = Some rows ->
  epoch_body epoch s = (Ok tt, s') ->
  exists train_rows val_rows,
    table s' = Some (rows ++ train_rows ++ val_rows)
    /\ 1 <= length train_rows <= 2
    /\ 1 <= length val_rows <= 2
    /\ Forall (fun r => row_epoch r = epoch /\ row_data r = "Train") train_rows
    /\ Forall (fun r => row_epoch r = epoch /\ row_data r = "Validation") val_rows.
Proof.
  intros Ht H. unfold learner.epoch_body in H.
  apply bind_ok in H as ([] & s1 & H1 & H).
  apply bind_ok in H as ([] & s2 & H2 & H).
  pose proof (validation_keeps_table epoch s1) as Ht2.
  pose proof (training_keeps_table epoch s2) as Ht3.
  rewrite H2 in Ht2. rewrite H in Ht3. cbn [snd] in Ht2, Ht3.
  destruct (track_example_rows epoch 2 rows s s1 Ht H1)
    as (first_train & rest_train & dl_train & g1 & train_src & train_trg
        & first_val & rest_val & dl_val & g2 & val_src & val_trg
        & _ & Hf1 & _ & Hf2 & Ht1 & _).
  destruct (dataset_properties.fetch_shape _ _ _ _ Hf1) as (Hne1 & _ & Hs1 & Hd1).
  destruct (dataset_properties.fetch_shape _ _ _ _ Hf2) as (Hne2 & _ & Hs2 & Hd2).
  eexists _, _. split; [by rewrite Ht3, Ht2, Ht1|].
  destruct (tracked_spec epoch "Train" (read (tensors s) (model s)) train_src train_trg
              (tracked_count 2 (length first_train))) as [Hl1 Hall1].
  destruct (tracked_spec epoch "Validation" (read (tensors s) (model s)) val_src val_trg
              (tracked_count 2 (length first_val))) as [Hl2 Hall2].
  rewrite Hl1, Hl2, Hs1, Hd1, Hs2, Hd2. unfold tracked_count. cbn.
  destruct first_train; [done|]. destruct first_val; [done|]. cbn [length].
  split_and!; try done; lia.
Qed.

Lemma for_epochs_tracked epochs rows (s s' : state) :
  table s = Some rows ->
  for_epochs epochs s = (Ok tt, s') ->
  exists per_epoch,
    table s' = Some (rows ++ concat per_epoch)
    /\ Forall2
         (fun epoch rows_of_epoch =>
            exists train_rows val_rows,
              rows_of_epoch = train_rows ++ val_rows
              /\ 1 <= length train_rows <= 2
              /\ 1 <= length val_rows <= 2
              /\ Forall (fun r => row_epoch r = epoch /\ row_data r = "Train") train_rows
              /\ Forall (fun r => row_epoch r = epoch /\ row_data r = "Validation")
                   val_rows)
         epochs per_epoch.
Proof.
  revert rows s. induction epochs as [|epoch epochs IH]; intros rows s Ht H;
    cbn [learner.for_epochs] in H.
  - injection H as <-. exists []. cbn. rewrite app_nil_r. by split.
  - apply bind_ok in H as ([] & s1 & H1 & H).
    destruct (epoch_body_tracked epoch rows s s1 Ht H1)
      as (train_rows & val_rows & Ht1 & Hl1 & Hl2 & Ha1 & Ha2).
    destruct (IH _ s1 Ht1 H) as (per_epoch & Ht' & Hall).
    exists ((train_rows ++ val_rows) :: per_epoch). split.
    + rewrite Ht'. cbn. by rewrite <- !app_assoc.
    + constructor; [|done]. by exists train_rows, val_rows.
Qed.

(** X18: the table a run flushes holds the rows of the epochs of this run and
    no other, whatever table there was before: for each epoch in turn, one
    or two rows of the first batch of the training loader, labelled
    ['Train'], followed by one or two rows of the first batch of the
    validation loader, labelled ['Validation'], each row carrying the
    number of its epoch. *)
Theorem flushed_rows_are_those_of_the_epochs_of_the_run
    (start_epoch n_epochs : Z) (s s' : state) :
  fit start_epoch n_epochs s = (Ok tt, s') ->
  exists per_epoch,
    table_flushes (trace s') = table_flushes (trace s) ++ [concat per_epoch]
    /\ table s' = Some (concat per_epoch)
    /\ Forall2
         (fun epoch rows_of_epoch =>
            exists train_rows val_rows,
              rows_of_epoch = train_rows ++ val_rows
              /\ 1 <= length train_rows <= 2
              /\ 1 <= length val_rows <= 2
              /\ Forall (fun r => row_epoch r = epoch /\ row_data r = "Train") train_rows
              /\ Forall (fun r => row_epoch r = epoch /\ row_data r = "Validation")
                   val_rows)
         (range2 start_epoch (start_epoch + n_epochs)) per_epoch.
Proof.
  intros H. unfold learner.fit in H.
  apply bind_ok in H as ([] & s0 & [= <-] & H).
  apply bind_ok in H as ([] & s1 & Hrun & H).
  pose proof (epochs_keep_flushes _ _ (respects_for_epochs
                (range2 start_epoch (start_epoch + n_epochs)) (set_table (Some []) s)))
    as Hflushes.
  rewrite Hrun in Hflushes. cbn [snd] in Hflushes.
  destruct (for_epochs_tracked _ [] (set_table (Some []) s) s1 eq_refl Hrun)
    as (per_epoch & Ht & Hall).
  apply bind_ok in H as (t & s2 & [= <- <-] & H). rewrite Ht in H.
  unfold emit, modify in H. injection H as <-.
  exists per_epoch. cbn -[table_flushes]. split_and!; [|done|done].
  unfold table_flushes in *. rewrite omap_app, Hflushes. done.
Qed.

(** ** The best loss *)

Lemma SFcompare_refl x : SFcompare x x <> Some Lt.
Proof.
  destruct x as [[]|[]| |[] m e]; cbn; try done;
    rewrite Z.compare_refl;
    change (PosDef.Pos.compare_cont Eq m m) with (Pos.compare m m);
    by rewrite Pos.compare_refl.
Qed.

Lemma SFcompare_trans x y z :
  SFcompare x y = Some Lt -> SFcompare y z = Some Lt -> SFcompare x z = Some Lt.
Proof.
  destruct x as [[]|[]| |[] m1 e1], y as [[]|[]| |[] m2 e2], z as [[]|[]| |[] m3 e3];
    cbn; try done;
    change (PosDef.Pos.compare_cont Eq ?a ?b) with (Pos.compare a b);
    destruct (Z.compare_spec e1 e2), (Z.compare_spec e2 e3), (Z.compare_spec e1 e3);
    try done; try lia;
    destruct (Pos.compare_spec m1 m2), (Pos.compare_spec m2 m3),
      (Pos.compare_spec m1 m3); cbn; try done; try lia.
Qed.

Lemma ltb_irrefl (x : float) : (x <? x)%float = false.
Proof.
  rewrite FloatAxioms.ltb_spec. unfold SFltb.
  pose proof (SFcompare_refl (Prim2SF x)).
  by destruct (SFcompare _ _) as [[]|].
Qed.

Lemma ltb_trans (x y z : float) :
  (x <? y)%float = true -> (y <? z)%float = true -> (x <? z)%float = true.
Proof.
  rewrite !FloatAxioms.ltb_spec. unfold SFltb.
  destruct (SFcompare (Prim2SF x) (Prim2SF y)) as [[]|] eqn:E1; try done.
  destruct (SFcompare (Prim2SF y) (Prim2SF z)) as [[]|] eqn:E2; try done.
  by rewrite (SFcompare_trans _ _ _ E1 E2).
Qed.

Lemma least_so_far_below (avgs : list float) (best x : float) :
  (x <? least_so_far best avgs)%float = true -> (x <? best)%float = true.
Proof.
  revert best. induction avgs as [|l avgs IH]; intros best; [done|].
  change (least_so_far best (l :: avgs))
    with (least_so_far (if (l <? best)%float then l else best) avgs).
  intros H%IH. destruct (l <? best)%float eqn:E; [|done].
  by eapply ltb_trans.
Qed.

Lemma least_so_far_spec (avgs : list float) (best : float) :
  Forall (fun l => (l <? least_so_far best avgs)%float = false) avgs
  /\ (best <? least_so_far best avgs)%float = false
  /\ (least_so_far best avgs = best \/ In (least_so_far best avgs) avgs).
Proof.
  revert best. induction avgs as [|l avgs IH]; intros best.
  - cbn. split_and!; [done|apply ltb_irrefl|by left].
  - change (least_so_far best (l :: avgs))
      with (least_so_far (if (l <? best)%float then l else best) avgs).
    set (b' := if (l <? best)%float then l else best).
    destruct (IH b') as (Hall & Hle & Hin).
    split_and!.
    + constructor; [|done].
      destruct (l <? least_so_far b' avgs)%float eqn:E; [|done].
      apply least_so_far_below in E. subst b'.
      destruct (l <? best)%float eqn:E'; [by rewrite ltb_irrefl in E|congruence].
    + destruct (best <? least_so_far b' avgs)%float eqn:E; [|done].
      apply least_so_far_below in E. subst b'.
      destruct (l <? best)%float eqn:E'; [|by rewrite ltb_irrefl in E].
      pose proof (ltb_trans _ _ _ E E') as Hbb. by rewrite ltb_irrefl in Hbb.
    + destruct Hin as [Heq|Hin]; [|by right; right].
      rewrite Heq. subst b'. destruct (l <? best)%float; [right; by left|by left].
Qed.

Lemma ltb_nan (x y : float) : is_nan x = true -> (x <? y)%float = false.
Proof.
  unfold is_nan. rewrite FloatAxioms.eqb_spec, FloatAxioms.ltb_spec.
  unfold SFeqb, SFltb.
  by destruct (Prim2SF x) as [[]|[]| |[] m e], (Prim2SF y) as [[]|[]| |[] m' e'];
    cbn; rewrite ?Z.compare_refl, ?Pos.compare_cont_refl.
Qed.

Lemma least_so_far_nan (avgs : list float) (best : float) :
  is_nan (least_so_far best avgs) = true -> least_so_far best avgs = best.
Proof.
  revert best. induction avgs as [|l avgs IH]; intros best; [done|].
  change (least_so_far best (l :: avgs))
    with (least_so_far (if (l <? best)%float then l else best) avgs).
  intros Hnan. rewrite (IH _ Hnan) in Hnan |- *.
  destruct (l <? best)%float eqn:E; [|done]. by rewrite ltb_nan in E.
Qed.

Lemma epoch_body_best_loss epoch (s s' : state) :
  epoch_body epoch s = (Ok tt, s') ->
  exists loss_avg,
    train_avg_losses (trace s') = train_avg_losses (trace s) ++ [loss_avg]
    /\ best_val_loss s' =
         (if (loss_avg <? best_val_loss s)%float then loss_avg else best_val_loss s).
Proof.
  intros H. unfold learner.epoch_body in H.
  apply bind_ok in H as ([] & s1 & H1 & H).
  apply bind_ok in H as ([] & s2 & H2 & H).
  pose proof (tracking_keeps_learning _ _ (track_example_steps epoch 2 s)) as Hk1.
  rewrite H1 in Hk1. unfold learning in Hk1. cbn [snd] in Hk1.
  injection Hk1 as _ _ _ _ _ Hbl1 _ _ _ _ Htr1.
  pose proof (validating_keeps _ _ (validation_epoch_steps epoch s1)) as Hk2.
  pose proof (validation_epoch_avg_losses epoch s1) as Havg2.
  rewrite H2 in Hk2, Havg2. cbn [snd] in Hk2, Havg2.
  injection Hk2 as _ _ _ _ _ Hbl2 _ _ _ _ _.
  unfold learner.training_epoch in H.
  apply bind_ok in H as (loss_avg & s3 & H3 & H).
  pose proof (training_loop_avg_losses epoch s2) as Havg3.
  pose proof (respects_training_loop [Mode; Log; Step] epoch
                ltac:(kinds) ltac:(kinds) ltac:(kinds) s2) as Hsteps.
  rewrite H3 in Havg3, Hsteps. cbn [snd] in Havg3, Hsteps.
  assert (steps [Mode; Track; Log; Step; Flush] s2 s3) as Hunsaved
    by (eapply steps_mono; [|exact Hsteps]; kinds).
  apply unsaved_keeps_best in Hunsaved. injection Hunsaved as Hbl3 _.
  apply training_summary_ok in H as (_ & _ & Havg & _ & _ & _ & Hbest).
  exists loss_avg. rewrite Havg, Hbest, Havg3, Havg2, Htr1, Hbl3, Hbl2, Hbl1. done.
Qed.

Lemma for_epochs_best_loss epochs (s s' : state) :
  for_epochs epochs s = (Ok tt, s') ->
  exists avgs,
    train_avg_losses (trace s') = train_avg_losses (trace s) ++ avgs
    /\ length avgs = length epochs
    /\ best_val_loss s' = least_so_far (best_val_loss s) avgs.
Proof.
  revert s. induction epochs as [|epoch epochs IH]; intros s H; cbn [learner.for_epochs] in H.
  - injection H as <-. exists []. by rewrite app_nil_r.
  - apply bind_ok in H as ([] & s1 & H1 & H).
    apply epoch_body_best_loss in H1 as (loss_avg & Havg & Hbest).
    apply IH in H as (avgs & Havg' & Hlen & Hbest').
    exists (loss_avg :: avgs). rewrite Havg', Havg, Hbest', Hbest, <- app_assoc.
    split_and!; [done|cbn; lia|done].
Qed.

(** X19: over a run that completes, the best loss goes through the average
    training losses of the epochs in their order and is replaced by each
    one that is strictly below it; so it never rises, at the end no
    average of the run is strictly below it, and it is the best loss the
    run began with or one of the averages of the run.  An average that is
    not a number is never the best loss. *)
Theorem best_loss_is_the_least_average_of_the_run
    (start_epoch n_epochs : Z) (s s' : state) :
  fit start_epoch n_epochs s = (Ok tt, s') ->
  exists avgs,
    train_avg_losses (trace s') = train_avg_losses (trace s) ++ avgs
    /\ Z.of_nat (length avgs) = Z.max 0 n_epochs
    /\ best_val_loss s' = least_so_far (best_val_loss s) avgs
    /\ Forall (fun l => (l <? best_val_loss s')%float = false) avgs
    /\ (best_val_loss s <? best_val_loss s')%float = false
    /\ (best_val_loss s' = best_val_loss s \/ In (best_val_loss s') avgs)
    /\ (is_nan (best_val_loss s') = true -> best_val_loss s' = best_val_loss s).
Proof.
  intros H. unfold learner.fit in H.
  apply bind_ok in H as ([] & s0 & [= <-] & H).
  apply bind_ok in H as ([] & s1 & Hrun & H).
  apply bind_ok in H as (t & s2 & [= <- <-] & H).
  destruct (table s1) as [rows|]; [|done].
  unfold emit, modify in H. injection H as <-.
  apply for_epochs_best_loss in Hrun as (avgs & Havg & Hlen & Hbest).
  exists avgs. cbn -[train_avg_losses] in *.
  rewrite train_avg_losses_app, Havg, Hbest. cbn. rewrite app_nil_r.
  destruct (least_so_far_spec avgs (best_val_loss s)) as (Hall & Hle & Hin).
  split_and!; try done.
  - rewrite Hlen. unfold range2. rewrite length_map, length_seq. lia.
  - intros Hnan. by apply least_so_far_nan.
Qed.

(** ** A run after a run *)

Section simulation.
Context (before : list table_row).

Local Abbreviation simulating := (@simulates Tensor Grad OptState Scheduler before).

Lemma simulates_ret {A} (x : A) : simulating (ret x).
Proof. by intros a b H. Qed.

Lemma simulates_raise {A} e : simulating (raise (A := A) e).
Proof. by intros a b H. Qed.

Lemma simulates_lift {A} (r : result A) : simulating (lift r).
Proof. by intros a b H. Qed.

Lemma simulates_bind {A B} (m : M A) (k : A -> M B) :
  simulating m -> (forall x, simulating (k x)) -> simulating (bind m k).
Proof.
  intros Hm Hk a b Hab. unfold bind. destruct (Hm a b Hab) as [Hr Hs].
  destruct (m a) as [[x|e] a1], (m b) as [[y|e'] b1]; cbn in *; simplify_eq; [|done].
  by apply Hk.
Qed.

Lemma simulates_get {A} (f : state -> A) :
  (forall a b, alike before a b -> f a = f b) -> simulating (get f).
Proof. intros Hf a b Hab. unfold get. cbn. split; [f_equal; by apply Hf|done]. Qed.

Lemma simulates_modify (f : state -> state) :
  (forall a b, alike before a b -> alike before (f a) (f b)) -> simulating (modify f).
Proof. intros Hf a b Hab. unfold modify. cbn. split; [done|by apply Hf]. Qed.

(** A change that reads and writes nothing of the table and the trace. *)
Lemma alike_update (f : state -> state) (a b : state) :
  (forall s, table (f s) = table s) ->
  (forall s, trace (f s) = trace s) ->
  (forall a b : state, core a = core b -> core (f a) = core (f b)) ->
  alike before a b -> alike before (f a) (f b).
Proof.
  intros Htable Htrace Hcore (Hc & Ht & rows & Hb & Ha). unfold alike.
  rewrite !Htable, !Htrace. split_and!; [by apply Hcore|done|by exists rows].
Qed.

Lemma alike_emit e (a b : state) :
  alike before a b ->
  alike before (set_trace (trace a ++ [e]) a) (set_trace (trace b ++ [e]) b).
Proof.
  intros (Hc & Ht & rows & Hb & Ha). split_and!.
  - unfold core in *. destruct a, b. cbn in *. by simplify_eq.
  - cbn. unfold unflushed in *. by rewrite !List.filter_app, Ht.
  - by exists rows.
Qed.

Ltac core_only :=
  let a := fresh "a" in
  let b := fresh "b" in
  let Hab := fresh "Hab" in
  intros a b Hab;
  lazymatch goal with
  | |- alike _ ?fa _ =>
      let F := eval pattern a in fa in
      lazymatch F with
      | ?f a =>
          apply (alike_update f a b);
          [ intros []; cbn; by repeat case_match
          | intros []; cbn; by repeat case_match
          | intros [] [] ?; unfold core in *; cbn in *; simplify_eq;
            by repeat case_match
          | exact Hab ]
      end
  end.

Ltac reads_core :=
  let a := fresh "a" in
  let b := fresh "b" in
  let Hc := fresh "Hc" in
  intros a b (Hc & _); unfold core in Hc; destruct a, b; cbn in *; by simplify_eq.

Lemma simulates_emit e : simulating (emit e).
Proof. apply simulates_modify. intros a b. apply alike_emit. Qed.

Lemma simulates_log data : simulating (log data).
Proof.
  intros a b Hab. unfold log, bind, get, emit, modify. cbn.
  assert (global_step a = global_step b) as -> by (revert a b Hab; reads_core).
  split; [done|]. by apply alike_emit.
Qed.

Lemma simulates_iter which : simulating (iter_ which).
Proof.
  intros a b Hab. unfold iter_.
  assert (dataloader which a = dataloader which b) as ->
    by (revert a b Hab; destruct which; reads_core).
  assert (generator a = generator b) as -> by (revert a b Hab; reads_core).
  destruct (DataLoader.__iter__ _ _) as [[batches dl] g]. cbn. split; [done|].
  revert a b Hab. destruct which; core_only.
Qed.

Lemma simulates_fetch which indices : simulating (fetch which indices).
Proof.
  intros a b Hab. unfold fetch. cbn.
  assert (dataloader which a = dataloader which b) as ->
    by (revert a b Hab; destruct which; reads_core).
  done.
Qed.

Lemma simulates_for_batches {A} which
    (body : nat -> torch.tensor2 * torch.tensor2 -> A -> M A) idx batches acc :
  (forall idx batch acc, simulating (body idx batch acc)) ->
  simulating (for_batches which body idx batches acc).
Proof.
  intros Hbody. revert idx acc.
  induction batches as [|indices batches IH]; intros idx acc; cbn [for_batches].
  - apply simulates_ret.
  - apply simulates_bind; [apply simulates_fetch|]. intros batch.
    apply simulates_bind; [apply Hbody|]. intros acc'. apply IH.
Qed.

Lemma simulates_table_add_data r : simulating (table_add_data r).
Proof.
  intros a b (Hc & Ht & rows & Hb & Ha). unfold table_add_data. rewrite Ha, Hb. cbn.
  split; [done|]. split_and!.
  - unfold core in *. destruct a, b. cbn in *. by simplify_eq.
  - done.
  - exists (rows ++ [r]). by rewrite app_assoc.
Qed.

Lemma simulates_track_rows epoch num_examples data encoder_input decoder_input idxs :
  simulating (track_rows epoch num_examples data encoder_input decoder_input idxs).
Proof.
  induction idxs as [|i idxs IH]; cbn [learner.track_rows].
  - apply simulates_ret.
  - destruct (Z.of_nat i =? num_examples)%Z; [apply simulates_ret|].
    apply simulates_bind; [apply simulates_lift|]. intros src_ids.
    apply simulates_bind; [apply simulates_lift|]. intros trg_ids.
    apply simulates_bind; [apply simulates_get; reads_core|]. intros params.
    apply simulates_bind; [apply simulates_table_add_data|]. intros _. exact IH.
Qed.

Lemma simulates_track_split epoch num_examples which data :
  simulating (track_split epoch num_examples which data).
Proof.
  apply simulates_bind.
  - apply simulates_bind; [apply simulates_iter|].
    intros [|b bs]; [apply simulates_raise|apply simulates_fetch].
  - intros [encoder_input decoder_input]. apply simulates_track_rows.
Qed.

Lemma simulates_track_example epoch num_examples :
  simulating (track_example epoch num_examples).
Proof.
  apply simulates_bind.
  - apply simulates_modify. core_only.
  - intros _. apply simulates_bind; intros; apply simulates_track_split.
Qed.

Lemma simulates_count_step : simulating
  (modify (fun s : state => set_global_step (global_step s + 1)%Z s)).
Proof. apply simulates_modify. core_only. Qed.

Lemma simulates_validation_batch epoch batch_idx batch acc :
  simulating (validation_batch epoch batch_idx batch acc).
Proof.
  destruct acc as [[loss_sum predict_text_list] target_text_list].
  destruct batch as [encoder_input decoder_input]. cbn [learner.validation_batch].
  apply simulates_bind; [apply simulates_get; reads_core|]. intros params.
  apply simulates_bind; [apply simulates_get; reads_core|]. intros mode.
  apply simulates_bind; [apply simulates_log|]. intros _.
  apply simulates_bind; [apply simulates_count_step|]. intros _.
  apply simulates_bind; [apply simulates_lift|]. intros predict_text.
  apply simulates_bind; [apply simulates_lift|]. intros target_text.
  apply simulates_ret.
Qed.

Lemma simulates_validation_epoch epoch : simulating (validation_epoch epoch).
Proof.
  apply simulates_bind.
  { apply simulates_modify. core_only. }
  intros _. apply simulates_bind; [apply simulates_iter|]. intros batches.
  apply simulates_bind.
  { apply simulates_for_batches. intros. apply simulates_validation_batch. }
  intros [[loss_sum predict_text_list] target_text_list].
  apply simulates_bind; [unfold len; apply simulates_get; reads_core|]. intros n.
  apply simulates_bind; [apply simulates_lift|]. intros loss_avg.
  apply simulates_bind; [apply simulates_log|]. intros _.
  apply simulates_count_step.
Qed.

Lemma simulates_training_batch epoch batch_idx batch loss_sum :
  simulating (training_batch epoch batch_idx batch loss_sum).
Proof.
  destruct batch as [encoder_input decoder_input]. cbn [learner.training_batch].
  apply simulates_bind; [apply simulates_get; reads_core|]. intros params.
  apply simulates_bind; [apply simulates_get; reads_core|]. intros mode.
  apply simulates_bind.
  { apply simulates_bind; [apply simulates_emit|]. intros _.
    apply simulates_modify. core_only. }
  intros _. apply simulates_bind; [apply simulates_get; reads_core|]. intros ts.
  apply simulates_bind; [apply simulates_get; reads_core|]. intros n.
  apply simulates_bind; [apply simulates_lift|]. intros r.
  apply simulates_bind.
  { destruct (r =? 0)%Z; [|apply simulates_ret].
    apply simulates_bind.
    { apply simulates_bind; [apply simulates_modify; core_only|].
      intros _. apply simulates_bind; [apply simulates_get; reads_core|].
      intros pend. apply simulates_emit. }
    intros _. apply simulates_bind; [apply simulates_get; reads_core|].
    intros sch. apply simulates_bind.
    { destruct sch as [sch|]; [|apply simulates_ret].
      apply simulates_bind; [apply simulates_modify; core_only|].
      intros _. apply simulates_emit. }
    intros _. apply simulates_bind; [apply simulates_modify; core_only|].
    intros _. apply simulates_emit. }
  intros _. apply simulates_bind; [apply simulates_log|]. intros _.
  apply simulates_bind; [apply simulates_count_step|]. intros _.
  apply simulates_bind; [apply simulates_modify; core_only|]. intros _.
  apply simulates_ret.
Qed.

Lemma simulates_training_epoch epoch : simulating (training_epoch epoch).
Proof.
  apply simulates_bind.
  { apply simulates_bind; [apply simulates_modify; core_only|].
    intros _. apply simulates_bind; [apply simulates_iter|]. intros batches.
    apply simulates_bind.
    { apply simulates_for_batches. intros. apply simulates_training_batch. }
    intros loss_sum.
    apply simulates_bind; [unfold len; apply simulates_get; reads_core|]. intros n.
    apply simulates_lift. }
  intros loss_avg.
  apply simulates_bind; [apply simulates_log|]. intros _.
  apply simulates_bind; [apply simulates_count_step|]. intros _.
  apply simulates_bind; [apply simulates_get; reads_core|]. intros cnt.
  apply simulates_bind; [apply simulates_lift|]. intros r.
  apply simulates_bind.
  { destruct (r =? 0)%Z; [apply simulates_emit|apply simulates_ret]. }
  intros _. apply simulates_bind; [apply simulates_get; reads_core|]. intros best.
  destruct (loss_avg <? best)%float; [|apply simulates_ret].
  apply simulates_bind; [apply simulates_modify; core_only|]. intros _.
  apply simulates_modify. core_only.
Qed.

Lemma simulates_for_epochs epochs : simulating (for_epochs epochs).
Proof.
  induction epochs as [|epoch epochs IH]; cbn [learner.for_epochs].
  - apply simulates_ret.
  - apply simulates_bind; [|intros _; exact IH].
    apply simulates_bind; [apply simulates_track_example|]. intros _.
    apply simulates_bind; [apply simulates_validation_epoch|]. intros _.
    apply simulates_training_epoch.
Qed.

End simulation.

Lemma range2_app (a n m : Z) :
  (0 <= n)%Z -> (0 <= m)%Z ->
  range2 a (a + (n + m)) = range2 a (a + n) ++ range2 (a + n) (a + n + m).
Proof.
  intros Hn Hm. unfold range2.
  replace (Z.to_nat (a + (n + m) - a)) with (Z.to_nat n + Z.to_nat m) by lia.
  replace (Z.to_nat (a + n - a)) with (Z.to_nat n) by lia.
  replace (Z.to_nat (a + n + m - (a + n))) with (Z.to_nat m) by lia.
  rewrite seq_app, List.map_app. f_equal.
  rewrite <- (Nat.add_0_r (0 + Z.to_nat n)), <- fmap_add_seq.
  change (@fmap list _) with (@List.map). rewrite List.map_map.
  apply map_ext. intros i. lia.
Qed.

Lemma for_epochs_app epochs later (s : state) :
  for_epochs (epochs ++ later) s
  = match for_epochs epochs s with
    | (Ok _, s1) => for_epochs later s1
    | (Raise e, s1) => (Raise e, s1)
    end.
Proof.
  revert s. induction epochs as [|epoch epochs IH]; intros s; [done|].
  cbn [app learner.for_epochs]. unfold bind.
  destruct (epoch_body epoch s) as [[[]|e] s1]; [apply IH|done].
Qed.

Lemma fit_unfold start_epoch n_epochs (s : state) :
  fit start_epoch n_epochs s
  = match for_epochs (range2 start_epoch (start_epoch + n_epochs))
            (set_table (Some []) s) with
    | (Ok _, s1) =>
        match table s1 with
        | Some rows =>
            (Ok tt, set_trace (trace s1 ++ [wandb_log_table "Tracking" rows]) s1)
        | None => (Raise (AttributeError "table"), s1)
        end
    | (Raise e, s1) => (Raise e, s1)
    end.
Proof.
  unfold learner.fit, bind, modify, get, emit, raise.
  destruct (for_epochs _ _) as [[[]|e] s1]; [|done]. by destruct (table s1).
Qed.

(** X20: a second run takes up where the first left off.  When [fit] has
    completed [n] epochs, running it again for the [m] epochs that follow
    gives the outcome and the learner that one run of [n + m] epochs would
    have given, parameters, gradients, counters, best model, loaders and
    generator alike, and makes the same calls in the same order, with two
    differences: the table is flushed once after each run instead of once
    at the end, and the second run starts a new table, so that its flush
    holds the rows of its own epochs only. *)
Theorem a_second_run_takes_up_where_the_first_left_off
    (start_epoch n m : Z) (s s1 : state) :
  (0 <= n)%Z ->
  (0 <= m)%Z ->
  fit start_epoch n s = (Ok tt, s1) ->
  let once := fit start_epoch (n + m) s in
  let twice := fit (start_epoch + n) m s1 in
  once.1 = twice.1
  /\ core once.2 = core twice.2
  /\ unflushed (trace once.2) = unflushed (trace twice.2)
  /\ (once.1 = Ok tt ->
      exists rows1 rows2,
        table s1 = Some rows1
        /\ table twice.2 = Some rows2
        /\ table once.2 = Some (rows1 ++ rows2)
        /\ table_flushes (trace once.2) = table_flushes (trace s) ++ [rows1 ++ rows2]
        /\ table_flushes (trace twice.2) = table_flushes (trace s) ++ [rows1; rows2]).
Proof.
  intros Hn Hm H once twice. subst once twice. unfold learner.fit in H.
  apply bind_ok in H as ([] & s0 & [= <-] & H).
  apply bind_ok in H as ([] & sa & Hrun & H).
  apply bind_ok in H as (t & s2 & [= <- <-] & H).
  destruct (table sa) as [rows1|] eqn:Hta; [|done].
  unfold emit, modify in H. injection H as <-.
  pose proof (epochs_keep_flushes _ _ (respects_for_epochs
                (range2 start_epoch (start_epoch + n)) (set_table (Some []) s)))
    as Hfa.
  rewrite Hrun in Hfa. cbn [snd] in Hfa.
  set (s1 := set_trace (trace sa ++ [wandb_log_table "Tracking" rows1]) sa).
  assert (alike rows1 sa (set_table (Some []) s1)) as Halike.
  { split_and!.
    - subst s1. unfold core. by destruct sa.
    - subst s1. cbn. unfold unflushed. rewrite List.filter_app. cbn.
      by rewrite app_nil_r.
    - exists []. by rewrite app_nil_r. }
  destruct (simulates_for_epochs rows1
              (range2 (start_epoch + n) (start_epoch + n + m)) _ _ Halike)
    as [Hout Halike'].
  pose proof (epochs_keep_flushes _ _ (respects_for_epochs
                (range2 (start_epoch + n) (start_epoch + n + m)) sa)) as Hfa'.
  pose proof (epochs_keep_flushes _ _ (respects_for_epochs
                (range2 (start_epoch + n) (start_epoch + n + m))
                (set_table (Some []) s1))) as Hfb'.
  rewrite !fit_unfold, range2_app, for_epochs_app, Hrun by done.
  destruct (for_epochs (range2 (start_epoch + n) (start_epoch + n + m)) sa)
    as [[[]|e] a'],
    (for_epochs (range2 (start_epoch + n) (start_epoch + n + m))
       (set_table (Some []) s1)) as [[[]|e'] b'];
    cbn [fst snd] in *; simplify_eq.
  - destruct Halike' as (Hc & Ht & rows2 & Hb & Ha).
    rewrite Ha, Hb. cbn [fst snd].
    split_and!; [done| | |].
    + unfold core in *. destruct a', b'. cbn in *. by simplify_eq.
    + cbn. unfold unflushed in *. rewrite !List.filter_app, Ht. done.
    + intros _. exists rows1, rows2. cbn -[table_flushes].
      unfold table_flushes in *. rewrite !omap_app, Hfa', Hfb', Hfa.
      subst s1. cbn. rewrite omap_app, Hfa, <- !app_assoc. done.
  - destruct Halike' as (Hc & Ht & _). split_and!; done.
Qed.

(** ** The exceptions of a run *)

(** The two ways fetching a batch fails. *)
Local Abbreviation fetch_error :=
  (fun e : exn =>
     e = IndexError \/ e = RuntimeError "received an empty list of sequences").






(** Some prediction is one token wide. *)
Local Abbreviation some_one_wide :=
  (exists params mode encoder_input decoder_input,
      torch.size1 (argmax (model_forward params mode encoder_input decoder_input))
      = 1).






(** What can go wrong in a run, read in the state the run starts in. *)
Local Abbreviation run_error :=
  (fun (s : state) (e : exn) =>
     e = StopIteration
     /\ (DataLoader.__len__ (train_dataloader s) = 0
         \/ DataLoader.__len__ (val_dataloader s) = 0)
     \/ e = ZeroDivisionError
        /\ (GRAD_ACCUMULATION_STEPS (config s) = 0%Z
            \/ MODEL_SAVE_EPOCH_CNT (config s) = 0%Z
            \/ DataLoader.__len__ (train_dataloader s) = 0
            \/ DataLoader.__len__ (val_dataloader s) = 0)
     \/ e = TypeError /\ some_one_wide
     \/ fetch_error e).







End properties.

End learner_properties.

(** * The small learner, run *)

Module runs.
Import dataset learner.

(** A learner over three training rows and three validation rows in
    batches of one, stepping the optimizer at every batch, once [fit] has
    made its table. *)
Lemma optimizer_steps_on_multiples_of_the_factor_witness :
  exists loss_sum' s',
    toy.training_batch 1 0
      (torch.Tensor2 1 1 [[7%Z]], torch.Tensor2 1 1 [[9%Z]]) 0%float
      (toy.learner_of 1 3 3 1) = (Ok loss_sum', s')
    /\ training_step s' = 2%Z
    /\ global_step s' = 2%Z
    /\ grad s' = [].
Proof.
  destruct (learner_properties.optimizer_steps_on_multiples_of_the_factor
              toy.model_forward toy.loss_func toy.autograd toy.optimizer_update
              toy.optimizer_advance toy.scheduler_advance 1 0
              (torch.Tensor2 1 1 [[7%Z]], torch.Tensor2 1 1 [[9%Z]]) 0%float
              (toy.learner_of 1 3 3 1))
    as (loss_sum' & s' & before & logged & Hrun & Hts & Hgs & _ & Hdue & _);
    [discriminate|].
  exists loss_sum', s'. split; [exact Hrun|].
  split; [rewrite Hts; reflexivity|]. split; [rewrite Hgs; reflexivity|].
  apply Hdue. exists 1%Z. reflexivity.
Defined.

Lemma global_step_counts_batches_and_summaries_witness :
  let s := toy.learner_of 2 3 1 1 in
  let s' := (toy.fit 1 2 s).2 in
  (global_step s <= global_step s')%Z
  /\ (exists new,
        trace s' = trace s ++ new
        /\ logged_steps new = seqZ (global_step s) (global_step s' - global_step s))
  /\ global_step s' = 13%Z.
Proof.
  destruct (learner_properties.global_step_counts_batches_and_summaries
              toy.model_forward toy.loss_func toy.autograd toy.argmax toy.translate
              toy.decode toy.str_split toy.corpus_bleu toy.optimizer_update
              toy.optimizer_advance toy.scheduler_advance 1 2 (toy.learner_of 2 3 1 1))
    as (Hle & Hnew & Hok & _).
  intros s s'. subst s s'. unfold toy.fit.
  split; [exact Hle|]. split; [exact Hnew|].
  etrans; [apply Hok; reflexivity|reflexivity].
Defined.

Set Warnings "-inexact-float".

(** Four epochs of one training batch each, with losses 2.0, 1.5, 1.8 and
    1.2: the snapshot kept holds the parameters as the fourth epoch left
    them. *)
Lemma best_model_is_a_detached_copy_witness :
  let s := toy.learner_of 1 1 1 2 in
  let s' := (toy.fit 1 4 s).2 in
  best_val_loss s' = 1.2%float
  /\ read (tensors s') (best_model_state_dict s') = [("w", 4%Z)]
  /\ read (tensors s') (model s') = [("w", 4%Z)]
  /\ detached s'.
Proof.
  intros s s'.
  pose proof (learner_properties.best_model_is_a_detached_copy
                toy.model_forward toy.loss_func toy.autograd toy.argmax toy.translate
                toy.decode toy.str_split toy.corpus_bleu toy.optimizer_update
                toy.optimizer_advance toy.scheduler_advance)
    as (_ & _ & Hfour & Hinit).
  destruct (Hinit {| GRAD_ACCUMULATION_STEPS := 1; MODEL_SAVE_EPOCH_CNT := 2 |}
              [("w", 0)]
              (toy.loader_of (List.map toy.row_of (seq 1 1)) 2)
              (toy.loader_of (List.map toy.row_of (seq 1 1)) 2)
              tt (Some tt) {| contents := fun _ => 0%Z; next := 1 |}
              (fun i => 3 * i + 1))
    as (Hwf & Hdet & Hinf & _).
  { repeat constructor. }
  destruct (Hfour 1%Z s s' Hwf Hdet Hinf) as (s3 & Hbest & Hread & _ & _ & Hdet').
  { subst s'. unfold toy.fit. vm_compute. reflexivity. }
  { reflexivity. }
  split; [exact Hbest|]. split; [reflexivity|]. split; [reflexivity|exact Hdet'].
Defined.

Set Warnings "inexact-float".

(** C7 as stated fails on an empty partition: the sampler is built, it
    reports one batch, and a pass over it yields that one empty batch;
    nothing has failed when the loaders are handed to the learner. *)
Lemma sampler_of_empty_partition_is_built :
  exists sampler,
    CustomBatchSampler.__init__ 0 2 = Ok sampler
    /\ CustomBatchSampler.__len__ sampler = 1
    /\ (CustomBatchSampler.pass sampler (fun i => i)).1.1 = [[]]
    /\ DataLoader.__len__ (train_dataloader (toy.learner_of 1 0 3 2)) = 1.
Proof. eexists. split; [reflexivity|]. by cbn. Qed.

Lemma empty_partition_raises_at_first_fetch_witness :
  let s := toy.learner_of 1 0 3 2 in
  (toy.fit 1 3 s).1 = Raise (RuntimeError "received an empty list of sequences")
  /\ trace (toy.fit 1 3 s).2 = []
  /\ global_step (toy.fit 1 3 s).2 = 1%Z.
Proof.
  intros s.
  destruct (learner_properties.empty_partition_raises_at_first_fetch
              toy.model_forward toy.loss_func toy.autograd toy.argmax toy.translate
              toy.decode toy.str_split toy.corpus_bleu toy.optimizer_update
              toy.optimizer_advance toy.scheduler_advance 1 3 s)
    as (_ & Hraise & Hkeep & _); [lia|left; reflexivity|].
  split; [apply Hraise; reflexivity|].
  split; [exact (f_equal snd Hkeep)|].
  exact (f_equal (fun t => t.1.1.1.1.1.1.2) Hkeep).
Defined.

(** C8 as stated fails with batches of one row: an epoch then adds one row
    for each split, two rows where the claim has four. *)
Lemma one_row_batches_track_two_rows :
  let outcome := toy.fit 1 1 (toy.learner_of 1 3 3 1) in
  outcome.1 = Ok tt
  /\ List.map (@length table_row) (table_flushes (trace outcome.2)) = [2]
  /\ 2 <> 2 * 2.
Proof. vm_compute. split; [reflexivity|]. split; [reflexivity|discriminate]. Qed.

Lemma tracked_rows_and_single_flush_witness :
  let s := toy.learner_of 1 5 4 2 in
  let s' := (toy.fit 1 3 s).2 in
  exists earlier rows,
    trace s' = trace s ++ earlier ++ [wandb_log_table "Tracking" rows]
    /\ table_flushes earlier = []
    /\ table s' = Some rows
    /\ length rows <= 2 * 2 * 3.
Proof.
  intros s s'.
  destruct (learner_properties.tracked_rows_and_single_flush
              toy.model_forward toy.loss_func toy.autograd toy.argmax toy.translate
              toy.decode toy.str_split toy.corpus_bleu toy.optimizer_update
              toy.optimizer_advance toy.scheduler_advance 1 3 s)
    as (_ & _ & Hok & _).
  apply Hok. vm_compute. reflexivity.
Defined.

(** C10 as stated fails in the second of two epochs of three batches with
    a factor of two: three is no multiple of two, yet the last batch of
    the second epoch is the sixth of the run, its optimizer step applies
    the last two passes of the epoch, and no gradient is pending at the
    end of the epoch. *)
Lemma second_epoch_ends_on_an_optimizer_step :
  let outcome := toy.fit 1 2 (toy.learner_of 2 3 1 1) in
  outcome.1 = Ok tt
  /\ DataLoader.__len__ (train_dataloader outcome.2) = 3
  /\ ~ (2 | 3)%Z
  /\ grad outcome.2 = []
  /\ last (optimizer_steps (trace outcome.2)) = Some [(2%Z, 1); (2%Z, 2)]
  /\ training_step outcome.2 = 7%Z.
Proof.
  intros outcome. split_and!; try (vm_compute; reflexivity).
  intros [q Hq]. lia.
Qed.

Lemma pending_gradients_follow_training_step_witness :
  let s := set_table (Some []) (toy.learner_of 2 3 1 1) in
  let s' := (toy.epoch_body 1 s).2 in
  accumulating s'
  /\ pending_passes s' = [(1%Z, 2)]
  /\ training_step s' = 4%Z.
Proof.
  intros s s'.
  destruct (learner_properties.pending_gradients_follow_training_step
              toy.model_forward toy.loss_func toy.autograd toy.argmax toy.translate
              toy.decode toy.str_split toy.corpus_bleu toy.optimizer_update
              toy.optimizer_advance toy.scheduler_advance 1 s)
    as (Hacc & _ & Hts & _).
  { reflexivity. }
  { split; [by exists []|reflexivity]. }
  split; [exact Hacc|]. split; [reflexivity|reflexivity].
Defined.

(** ** The small pipeline, run *)

Lemma insert_by_length_Permutation r rows :
  Permutation (toy.insert_by_length r rows) (r :: rows).
Proof.
  induction rows as [|r' rows IH]; cbn; [done|].
  destruct (length_src r' <=? length_src r); [done|].
  rewrite IH. apply perm_swap.
Qed.

Lemma toy_sort_Permutation data :
  Permutation (toy.sort_length_src_reverse data) data.
Proof.
  induction data as [|r data IH]; cbn; [done|].
  rewrite insert_by_length_Permutation. by constructor.
Qed.

Lemma insert_by_length_Sorted r rows :
  StronglySorted (fun r r' => length_src r' <= length_src r) rows ->
  StronglySorted (fun r r' => length_src r' <= length_src r)
    (toy.insert_by_length r rows).
Proof.
  induction 1 as [|r' rows Hsorted IH Hall]; cbn; [by repeat constructor|].
  destruct (Nat.leb_spec (length_src r') (length_src r)) as [Hle|Hlt].
  - constructor; [by constructor|]. constructor; [done|].
    eapply Forall_impl; [exact Hall|]. cbn. lia.
  - constructor; [done|]. rewrite insert_by_length_Permutation.
    constructor; [lia|done].
Qed.

Lemma toy_sort_Sorted data :
  StronglySorted (fun r r' => length_src r' <= length_src r)
    (toy.sort_length_src_reverse data).
Proof.
  induction data as [|r data IH]; cbn; [constructor|].
  by apply insert_by_length_Sorted.
Qed.

Lemma toy_split_Permutation data p train test :
  toy.train_test_split data p = Ok (train, test) -> Permutation (train ++ test) data.
Proof.
  intros [= <- <-]. rewrite Permutation_app_comm. by rewrite take_drop.
Qed.

(** The five examples of the toy corpus with sequences of four ids at
    most: one is left out, the first two go to the test part, and both
    parts come back by decreasing length of the source. *)
Lemma preprocess_data_keeps_the_rows_within_max_len_witness :
  exists train test,
    toy.preprocess_data toy.corpus 4 = Ok (train, test)
    /\ List.map length_src train = [3; 1]
    /\ List.map length_src test = [4; 2]
    /\ Forall (fun r =>
         length_src r = length (translation_src r)
         /\ length_trg r = length (translation_trg r)
         /\ length (translation_src r) <= 4
         /\ length (translation_trg r) <= 4)
         (train ++ test).
Proof.
  pose proof (dataset_properties.preprocess_data_keeps_the_rows_within_max_len
                toy.encode toy.train_test_split toy.sort_length_src_reverse
                toy_split_Permutation toy_sort_Permutation toy_sort_Sorted
                toy.corpus tt 4 0.5%float _ _ eq_refl) as (_ & Hall & _).
  eexists _, _. split; [reflexivity|]. split; [reflexivity|].
  split; [reflexivity|exact Hall].
Defined.

(** The loaders over the toy corpus in batches of two: the batches of
    either loader are no wider than four ids. *)
Lemma loaders_batch_rows_of_similar_length_witness :
  exists train_dl val_dl,
    toy.get_translation_dataloaders None 5 "bpe" 2 4 = Ok (train_dl, val_dl)
    /\ DataLoader.__len__ train_dl + DataLoader.__len__ val_dl <= 5 + 2
    /\ Forall (fun dl =>
         forall b src trg,
           b ∈ CustomBatchSampler.batch_of_indices (DataLoader.batch_sampler dl) ->
           DataLoader.fetch dl b = Ok (src, trg) ->
           torch.size1 src <= 4 /\ torch.size1 trg <= 4)
         [train_dl; val_dl].
Proof.
  pose proof (dataset_properties.loaders_batch_rows_of_similar_length
                toy.corpus toy.get_tokenizer toy.get_tokenizer
                toy.Tokenizer_from_file toy.Tokenizer_save
                toy.encode toy.train_test_split toy.sort_length_src_reverse
                toy_split_Permutation toy_sort_Permutation toy_sort_Sorted
                None 5 100 "bpe" "tokenizer.json" 0.5%float 2 4 _ _ eq_refl)
    as (_ & Hlen & Hall).
  eexists _, _. split; [reflexivity|]. split; [exact Hlen|].
  eapply Forall_impl; [exact Hall|]. cbn.
  intros dl (_ & _ & _ & Hfetch) b src trg Hb Hf.
  destruct (Hfetch dl b src trg) as (? & ? & _); try done.
Defined.


(** Five rows in batches of two. *)
Lemma every_batch_of_a_loader_is_fetched_witness :
  let rows := List.map toy.row_of (seq 1 5) in
  let dl := toy.loader_of rows 2 in
  let batches := CustomBatchSampler.batch_of_indices (DataLoader.batch_sampler dl) in
  DataLoader.__len__ dl = 3
  /\ Forall (fun b =>
       1 <= length b <= 2
       /\ exists src trg,
            DataLoader.fetch dl b = Ok (src, trg)
            /\ torch.size0 src = length b /\ torch.size0 trg = length b)
       batches
  /\ Permutation (concat batches) (seq 0 5).
Proof.
  intros rows dl batches.
  destruct (dataset_properties.every_batch_of_a_loader_is_fetched
              rows 2 (DataLoader.batch_sampler dl) dl)
    as (Hlen & Hall & Hperm & _).
  - discriminate.
  - lia.
  - reflexivity.
  - split; reflexivity.
  - split; [exact Hlen|]. split; [exact Hall|exact Hperm].
Defined.

(** The first two of three rows, of one and of two ids. *)
Lemma fetched_rows_are_the_rows_of_the_dataset_witness :
  let dl := toy.loader_of (List.map toy.row_of (seq 1 3)) 2 in
  exists src trg,
    DataLoader.fetch dl [0; 1] = Ok (src, trg)
    /\ torch.rows src = [[7; 0]; [7; 7]]%Z
    /\ torch.size0 src = 2
    /\ forall j i, [0; 1] !! j = Some i ->
         exists r row_src,
           TranslationDataset.dataset (DataLoader.dataset dl) !! i = Some r
           /\ torch.rows src !! j = Some row_src
           /\ take (length (translation_src r)) row_src = translation_src r.
Proof.
  intros dl.
  pose proof (dataset_properties.fetched_rows_are_the_rows_of_the_dataset
                dl [0; 1] _ _ eq_refl) as (Hsize & _ & _ & _ & Hrows).
  eexists _, _. split; [reflexivity|]. split; [reflexivity|].
  split; [exact Hsize|].
  intros j i Hj. destruct (Hrows j i Hj) as (r & row_src & _ & ? & ? & _ & _ & _ & ? & _).
  by exists r, row_src.
Defined.

(** ** Further runs of the small learner *)

Local Ltac sound_loaders :=
  repeat split; try discriminate;
  repeat (apply Forall_cons_2 || apply Forall_nil_2);
  try (split; [discriminate|]);
  repeat (apply Forall_cons_2 || apply Forall_nil_2); cbn; lia.

Lemma example_tracking_adds_the_first_rows_of_the_first_batches_witness :
  let s := set_table (Some []) (toy.learner_of 1 4 4 2) in
  let s' := (toy.track_example 1 2 s).2 in
  exists rows,
    table s' = Some rows
    /\ List.map row_data rows = ["Train"; "Train"; "Validation"; "Validation"]
    /\ training s' = false.
Proof.
  intros s s'.
  destruct (learner_properties.example_tracking_adds_the_first_rows_of_the_first_batches
              toy.translate toy.decode toy.optimizer_update toy.optimizer_advance
              toy.scheduler_advance 1 2 [] s s')
    as (? & ? & ? & ? & ? & ? & ? & ? & ? & ? & ? & ? & _ & _ & _ & _ & Ht & _ & _ & _
        & Hmode & _).
  - reflexivity.
  - subst s'. unfold toy.track_example. vm_compute. reflexivity.
  - eexists. split; [reflexivity|]. split; [reflexivity|exact Hmode].
Defined.


Lemma example_tracking_needs_the_table_of_fit_witness :
  let s := toy.learner_of 1 3 3 2 in
  (toy.track_example 1 2 s).1 = Raise (AttributeError "table")
  /\ (toy.track_example 1 0 s).1 = Ok tt.
Proof.
  intros s.
  destruct (learner_properties.example_tracking_needs_the_table_of_fit
              toy.translate toy.decode toy.optimizer_update toy.optimizer_advance
              toy.scheduler_advance 1 2 s)
    as (_ & Hraise & _); [reflexivity|sound_loaders|sound_loaders|].
  destruct (learner_properties.example_tracking_needs_the_table_of_fit
              toy.translate toy.decode toy.optimizer_update toy.optimizer_advance
              toy.scheduler_advance 1 0 s)
    as (Hok & _); [reflexivity|sound_loaders|sound_loaders|].
  split; [apply Hraise; discriminate|apply Hok; reflexivity].
Defined.

Lemma fit_of_no_epoch_flushes_an_empty_table_witness :
  let s := toy.learner_of 1 3 3 2 in
  toy.fit 5 0 s
  = (Ok tt,
     set_trace (trace s ++ [wandb_log_table "Tracking" []]) (set_table (Some []) s)).
Proof.
  intros s.
  apply (learner_properties.fit_of_no_epoch_flushes_an_empty_table
           toy.model_forward toy.loss_func toy.autograd toy.argmax toy.translate
           toy.decode toy.str_split toy.corpus_bleu toy.optimizer_update
           toy.optimizer_advance toy.scheduler_advance 5 0 s).
  lia.
Defined.


Lemma zero_checkpoint_period_stops_the_epoch_before_the_best_model_witness :
  let s := toy.learner_with 1 0 3 3 2 in
  (toy.training_epoch 1 s).1 = Raise ZeroDivisionError
  /\ global_step (toy.training_epoch 1 s).2 = 4%Z
  /\ best_val_loss (toy.training_epoch 1 s).2 = best_val_loss s.
Proof.
  intros s.
  destruct (learner_properties.zero_checkpoint_period_stops_the_epoch_before_the_best_model
              toy.model_forward toy.loss_func toy.autograd toy.optimizer_update
              toy.optimizer_advance toy.scheduler_advance 1 s)
    as (Hraise & Hgs & _ & _ & _ & Hbest & _).
  - reflexivity.
  - discriminate.
  - sound_loaders.
  - split; [exact Hraise|]. split; [exact Hgs|exact Hbest].
Defined.

(** Two epochs of three batches with a factor of two: three optimizer
    steps. *)
Lemma every_backward_pass_is_applied_once_witness :
  let s := toy.learner_of 2 3 1 1 in
  let s' := (toy.fit 1 2 s).2 in
  settled s' /\ length (optimizer_steps (trace s')) = 3.
Proof.
  intros s s'.
  destruct (learner_properties.every_backward_pass_is_applied_once
              toy.model_forward toy.loss_func toy.autograd toy.argmax toy.translate
              toy.decode toy.str_split toy.corpus_bleu toy.optimizer_update
              toy.optimizer_advance toy.scheduler_advance 1 2 s)
    as (Hsettled & _ & Hcount & _).
  - reflexivity.
  - intros _. reflexivity.
  - split; [exact Hsettled|].
    apply Nat2Z.inj. etrans; [apply Hcount|]; reflexivity || lia.
Defined.

Lemma flushed_rows_are_those_of_the_epochs_of_the_run_witness :
  let s := toy.learner_of 1 3 3 2 in
  let s' := (toy.fit 1 2 s).2 in
  exists per_epoch,
    table_flushes (trace s') = [concat per_epoch]
    /\ table s' = Some (concat per_epoch)
    /\ length per_epoch = 2.
Proof.
  intros s s'.
  destruct (learner_properties.flushed_rows_are_those_of_the_epochs_of_the_run
              toy.model_forward toy.loss_func toy.autograd toy.argmax toy.translate
              toy.decode toy.str_split toy.corpus_bleu toy.optimizer_update
              toy.optimizer_advance toy.scheduler_advance 1 2 s s')
    as (per_epoch & Hflush & Htable & Hall).
  - subst s'. unfold toy.fit. vm_compute. reflexivity.
  - exists per_epoch. split; [exact Hflush|]. split; [exact Htable|].
    apply Forall2_length in Hall. rewrite <- Hall. reflexivity.
Defined.

Set Warnings "-inexact-float".

(** The averages of four epochs are 2.0, 1.5, 1.8 and 1.2. *)
Lemma best_loss_is_the_least_average_of_the_run_witness :
  let s := toy.learner_of 1 1 1 2 in
  let s' := (toy.fit 1 4 s).2 in
  exists avgs,
    train_avg_losses (trace s') = avgs
    /\ length avgs = 4
    /\ best_val_loss s' = least_so_far infinity avgs
    /\ Forall (fun l => (l <? best_val_loss s')%float = false) avgs.
Proof.
  intros s s'.
  destruct (learner_properties.best_loss_is_the_least_average_of_the_run
              toy.model_forward toy.loss_func toy.autograd toy.argmax toy.translate
              toy.decode toy.str_split toy.corpus_bleu toy.optimizer_update
              toy.optimizer_advance toy.scheduler_advance 1 4 s s')
    as (avgs & Havgs & Hlen & Hbest & Hleast & _).
  - subst s'. unfold toy.fit. vm_compute. reflexivity.
  - exists avgs. split; [exact Havgs|]. split; [lia|]. split; [exact Hbest|exact Hleast].
Defined.

Set Warnings "inexact-float".

(** One epoch, then two more. *)
Lemma a_second_run_takes_up_where_the_first_left_off_witness :
  let s := toy.learner_of 1 3 3 2 in
  let s1 := (toy.fit 1 1 s).2 in
  let once := toy.fit 1 3 s in
  let twice := toy.fit 2 2 s1 in
  once.1 = twice.1
  /\ core once.2 = core twice.2
  /\ unflushed (trace once.2) = unflushed (trace twice.2).
Proof.
  intros s s1 once twice.
  destruct (learner_properties.a_second_run_takes_up_where_the_first_left_off
              toy.model_forward toy.loss_func toy.autograd toy.argmax toy.translate
              toy.decode toy.str_split toy.corpus_bleu toy.optimizer_update
              toy.optimizer_advance toy.scheduler_advance 1 1 2 s s1)
    as (Hout & Hcore & Htrace & _).
  - lia.
  - lia.
  - subst s1. unfold toy.fit. vm_compute. reflexivity.
  - split; [exact Hout|]. split; [exact Hcore|exact Htrace].
Defined.


End runs.
